(** * Scroll and input-fusion engine of the teleprompter

    A shallow embedding of the three pieces of the repository that move the
    scroll offset, and the properties of them that the specification states:

    - [UseGamepad]   : the gamepad sampler ([useGamepad], the hook's [poll]
                       callback with its debounce ledger and smoothing);
    - [TextViewport] : the autoscroll loop ([tick]) and the imperative handle
                       ([scrollToStart], [scrollToEnd], [manualScroll]);
    - [App]          : the playback state, the timers and the handlers that
                       the two loops call back into;
    - [BottomBar]    : the key handling and the fill of the sliders.

    Number model.  JavaScript numbers are idealised: the engine arithmetic is
    carried out in the rationals [Q] (exact, executable), and the one
    transcendental function of the program, [Math.pow(t, 1.2)] in the
    telemetry curve, in the reals [R].  NaN and the infinities are outside
    the model, so [Number.isFinite] is constantly true.

    React model.  A handler or a frame callback is a closure of one render: it
    reads the values of [useState] that this render saw (the snapshot, written
    [r] below) and reads and writes the refs of the store (written [s]).  A
    state setter writes the store; closures that already exist keep their
    snapshot. *)

From Stdlib Require Import QArith Qround Qabs Qminmax Qreals Reals Lra Lqa.
From Stdlib Require Import Qpower String Ascii DecimalString.
From stdpp Require Import gmap list.

Open Scope Q_scope.

(** ** Numbers *)

Definition Qltb (x y : Q) : bool := negb (Qle_bool y x).

Definition Math_max (x y : Q) : Q := if Qle_bool x y then y else x.
Definition Math_min (x y : Q) : Q := if Qle_bool x y then x else y.
Definition Math_abs (x : Q) : Q := Qabs x.
Definition Math_floor (x : Q) : Z := Qfloor x.
(** [Math.round] rounds half up. *)
Definition Math_round (x : Q) : Z := Qfloor (x + 0.5).
Definition Number_isFinite (x : Q) : bool := true.

(** [Math.pow] on a base that is not negative and a positive exponent; the
    telemetry curve calls it with [t = (speed - 1) / 49] and [1.2]. *)
Definition Math_pow (x y : R) : R :=
  if Rle_dec x 0 then 0%R else Rpower x y.

(** [n.toString()] of an integer, in base ten. *)
Definition toString (n : Z) : string := NilZero.string_of_int (Z.to_int n).

(** The character of a decimal digit. *)
Definition digitChar (d : Z) : ascii := ascii_of_nat (48 + Z.to_nat d).

(** [s.padStart(targetLength, c)] with a pad string of one character. *)
Fixpoint repeatChar (c : ascii) (n : nat) : string :=
  match n with
  | O => EmptyString
  | S n' => String c (repeatChar c n')
  end.

Definition padStart (targetLength : nat) (c : ascii) (s : string) : string :=
  String.append (repeatChar c (targetLength - String.length s)) s.

(** App.tsx, [clamp]. *)
Definition clamp (value min max : Q) : Q := Math_min (Math_max value min) max.

(** [x ?? d] on a value that may be absent. *)
Definition nullish {A} (o : option A) (d : A) : A :=
  match o with Some x => x | None => d end.

(** ** The gamepad sampler (hooks/useGamepad) *)

Module UseGamepad.

(** The callbacks of [GamepadControls]; a value of this type is one call of
    the callback it names. *)
Inductive Action : Type :=
| onPlayPause
| onSpeedDecrease
| onSpeedIncrease
| onJumpToStart
| onJumpToEnd
| onMirrorToggle
| onFullscreenToggle
| onFontSizeDecrease
| onFontSizeIncrease
| onManualScroll (delta : Q)
| onPauseFromManualScroll.

(** [BUTTONS] *)
Definition A : nat := 0.
Definition B : nat := 1.
Definition X : nat := 2.
Definition Y : nat := 3.
Definition LB : nat := 4.
Definition RB : nat := 5.
Definition LT : nat := 6.
Definition RT : nat := 7.
Definition SELECT : nat := 8.
Definition START : nat := 9.
Definition L3 : nat := 10.
Definition R3 : nat := 11.
Definition DPAD_UP : nat := 12.
Definition DPAD_DOWN : nat := 13.
Definition DPAD_LEFT : nat := 14.
Definition DPAD_RIGHT : nat := 15.

Definition DEADZONE : Q := 0.15.
Definition DEBOUNCE_TIME : Q := 200.
Definition SMOOTH_FACTOR : Q := 0.9.
Definition MANUAL_SCROLL_MIN : Q := 5.
Definition MANUAL_SCROLL_MAX : Q := 25.

(** The part of the Gamepad API that [poll] reads. *)
Record GamepadButton : Type := { pressed : bool }.
Record Gamepad : Type := { buttons : list GamepadButton; axes : list Q }.

(** The three refs of the hook. *)
Record Refs : Type := {
  lastPressRef : gmap nat Q;
  lastTimestampRef : option Q;
  smoothedScrollSpeedRef : Q
}.

Definition initial : Refs :=
  {| lastPressRef := ∅; lastTimestampRef := None; smoothedScrollSpeedRef := 0 |}.

(** What one run of [poll] has done so far: the refs, the callbacks it has
    already called (oldest first) and the local queue [buttonsHandled]. *)
Record PollState : Type := {
  refs : Refs;
  called : list Action;
  buttonsHandled : list Action
}.

(** [registerPress], lines 68-74; [now] is the frame's timestamp. *)
Definition registerPress (now : Q) (index : nat) (action : Action)
    (st : PollState) : PollState :=
  let last := nullish (lastPressRef (refs st) !! index) 0 in
  if Qle_bool DEBOUNCE_TIME (now - last) then
    {| refs := {| lastPressRef := <[index := now]> (lastPressRef (refs st));
                  lastTimestampRef := lastTimestampRef (refs st);
                  smoothedScrollSpeedRef := smoothedScrollSpeedRef (refs st) |};
       called := called st;
       buttonsHandled := buttonsHandled st ++ [action] |}
  else st.

(** [pressedButtons[i]?.pressed] *)
Definition isPressed (pressedButtons : list GamepadButton) (i : nat) : bool :=
  match pressedButtons !! i with
  | Some b => pressed b
  | None => false
  end.

(** The nine [if (pressedButtons[..]?.pressed) registerPress(..)] statements,
    lines 76-102, in their order. *)
Definition bindings : list (nat * Action) :=
  [ (A, onPlayPause); (Y, onMirrorToggle); (X, onFullscreenToggle);
    (LB, onJumpToStart); (RB, onJumpToEnd);
    (DPAD_LEFT, onSpeedDecrease); (DPAD_RIGHT, onSpeedIncrease);
    (DPAD_UP, onFontSizeIncrease); (DPAD_DOWN, onFontSizeDecrease) ].

Definition handleButton (now : Q) (pressedButtons : list GamepadButton)
    (st : PollState) (b : nat * Action) : PollState :=
  if isPressed pressedButtons (fst b) then registerPress now (fst b) (snd b) st
  else st.

Definition handleButtons (now : Q) (pressedButtons : list GamepadButton)
    (st : PollState) : PollState :=
  fold_left (handleButton now pressedButtons) bindings st.

(** Line 109. *)
Definition targetSpeedOf (leftStickY : Q) : Q :=
  let magnitude := Math_abs leftStickY in
  let direction := if Qltb 0 leftStickY then 1 else -1 in
  let normalized := (magnitude - DEADZONE) / (1 - DEADZONE) in
  direction * (MANUAL_SCROLL_MIN
               + (MANUAL_SCROLL_MAX - MANUAL_SCROLL_MIN) * normalized ^ 2).

(** The left stick, lines 104-130. *)
Definition handleAxis (isPlaying : bool) (timestamp : Q) (axes : list Q)
    (st : PollState) : PollState :=
  let leftStickY := nullish (axes !! 1%nat) 0 in
  let magnitude := Math_abs leftStickY in
  if Qltb DEADZONE magnitude then
    let targetSpeed := targetSpeedOf leftStickY in
    let called1 :=
      if isPlaying then called st ++ [onPauseFromManualScroll] else called st in
    let deltaTime :=
      match lastTimestampRef (refs st) with
      | Some last => (timestamp - last) / 1000
      | None => 0
      end in
    let smoothed :=
      smoothedScrollSpeedRef (refs st) * SMOOTH_FACTOR
      + targetSpeed * (1 - SMOOTH_FACTOR) in
    let scrollDelta := smoothed * deltaTime * 50 in
    {| refs := {| lastPressRef := lastPressRef (refs st);
                  lastTimestampRef := Some timestamp;
                  smoothedScrollSpeedRef := smoothed |};
       called :=
         if Number_isFinite scrollDelta && Qltb 0 deltaTime
         then called1 ++ [onManualScroll scrollDelta] else called1;
       buttonsHandled := buttonsHandled st |}
  else
    {| refs := {| lastPressRef := lastPressRef (refs st);
                  lastTimestampRef := Some timestamp;
                  smoothedScrollSpeedRef := 0 |};
       called := called st;
       buttonsHandled := buttonsHandled st |}.

(** The raw value of the vertical stick of a device, line 104. *)
Definition leftStickYOf (g : Gamepad) : Q := nullish (axes g !! 1%nat) 0.

(** The delta of lines 121-123 for the stick of [g], when the sampler's
    last timestamp is [last]. *)
Definition analogDelta (r : Refs) (g : Gamepad) (timestamp last : Q) : Q :=
  (smoothedScrollSpeedRef r * SMOOTH_FACTOR
   + targetSpeedOf (leftStickYOf g) * (1 - SMOOTH_FACTOR))
  * ((timestamp - last) / 1000) * 50.

(** The body of [for (const gamepad of gamepads)]; a slot of
    [navigator.getGamepads()] is null when no device sits in it. *)
Definition handleGamepad (isPlaying : bool) (timestamp : Q)
    (st : PollState) (gamepad : option Gamepad) : PollState :=
  match gamepad with
  | None => st
  | Some g =>
      handleAxis isPlaying timestamp (axes g)
        (handleButtons timestamp (buttons g) st)
  end.

(** [poll], lines 55-138, without the rescheduling: the refs after the frame
    and the callbacks called during it, in the order of the calls.  The
    queue [buttonsHandled] is run by the loop of lines 133-135. *)
Definition poll (isPlaying : bool) (timestamp : Q)
    (gamepads : list (option Gamepad)) (r : Refs) : Refs * list Action :=
  let st :=
    fold_left (handleGamepad isPlaying timestamp) gamepads
      {| refs := r; called := []; buttonsHandled := [] |} in
  (refs st, called st ++ buttonsHandled st).

(** The two kinds of callback. *)
Definition isContinuous (a : Action) : bool :=
  match a with
  | onManualScroll _ | onPauseFromManualScroll => true
  | _ => false
  end.

Definition isDiscrete (a : Action) : bool := negb (isContinuous a).

(** What one frame hands to [poll]: the [isPlaying] of the controls it
    closes over, the timestamp and the devices. *)
Record Frame : Type := {
  frameIsPlaying : bool;
  frameTimestamp : Q;
  frameGamepads : list (option Gamepad)
}.

(** A run of the sampler over successive frames. *)
Definition pollFrames (frames : list Frame) (r : Refs) : Refs :=
  fold_left
    (fun r f => fst (poll (frameIsPlaying f) (frameTimestamp f) (frameGamepads f) r))
    frames r.

(** During a run of [poll]: the calls made so far are continuous ones, the
    queued ones discrete. *)
Definition sorted (st : PollState) : Prop :=
  Forall (fun a => isContinuous a = true) (called st)
  /\ Forall (fun a => isDiscrete a = true) (buttonsHandled st).

Definition withinDeadzone (g : Gamepad) : Prop :=
  Math_abs (leftStickYOf g) <= DEADZONE.

Definition withinUnit (g : Gamepad) : Prop :=
  -1 <= leftStickYOf g <= 1.

(** A property of every device that sits in a slot. *)
Definition connected (P : Gamepad -> Prop) (gamepads : list (option Gamepad)) : Prop :=
  Forall (fun o => forall g, o = Some g -> P g) gamepads.

(** The state in which a device inside the deadzone leaves the sampler. *)
Definition rested (timestamp : Q) (st : PollState) : Prop :=
  smoothedScrollSpeedRef (refs st) = 0
  /\ lastTimestampRef (refs st) = Some timestamp.

(** During a run of [poll] at [timestamp] under a playing render: either
    nothing has been called yet, or the last timestamp is the frame's and the
    calls so far are forced pauses, with at most one manual scroll, which
    comes right after the first of them. *)
Definition playingCalls (timestamp : Q) (st : PollState) : Prop :=
  called st = []
  \/ (lastTimestampRef (refs st) = Some timestamp
      /\ exists n,
           called st = repeat onPauseFromManualScroll (S n)
           \/ exists delta,
                called st
                = onPauseFromManualScroll :: onManualScroll delta
                  :: repeat onPauseFromManualScroll n).

(** The two jump commands. *)
Definition isJump (a : Action) : bool :=
  match a with
  | onJumpToStart | onJumpToEnd => true
  | _ => false
  end.

(** A device on which the button [i] is down. *)
Definition pressedOn (i : nat) (gamepads : list (option Gamepad)) : Prop :=
  exists g, Some g ∈ gamepads /\ isPressed (buttons g) i = true.

(** The manual scrolls among the calls of a frame. *)
Definition isManualScroll (a : Action) : bool :=
  match a with
  | onManualScroll _ => true
  | _ => false
  end.

Definition manualScrolls (calls : list Action) : nat :=
  length (filter (fun a => isManualScroll a = true) calls).

(** During a run of [poll] at [timestamp]: at most one manual scroll has
    been called, and if one has, the last timestamp is already the frame's. *)
Definition scrolledOnce (timestamp : Q) (st : PollState) : Prop :=
  (manualScrolls (called st) <= 1)%nat
  /\ (manualScrolls (called st) = 1%nat ->
      lastTimestampRef (refs st) = Some timestamp).

(** A frame with one device, its stick held at [y]. *)
Definition heldAt (y : Q) (f : Frame) : Prop :=
  exists g, frameGamepads f = [Some g] /\ leftStickYOf g = y.

End UseGamepad.

(** ** The viewport and the autoscroll loop (components/TextViewport) *)

Module TextViewport.

Definition LINE_HEIGHT_EM : Q := 1.3.
Definition DEAD_BAND : Q := 1.

(** The scroll container as the component sees it: a DOM element, which is
    the browser's and not part of the repository. *)
Record Element : Type := {
  scrollTop : Q;
  scrollHeight : Q;
  clientHeight : Q
}.

(** Modelled from the spec: the scrollable range of the container, "extent =
    contentHeight - viewportSize, clamped to >= 0". *)
Definition scrollRange (el : Element) : Q :=
  Math_max (scrollHeight el - clientHeight el) 0.

(** Modelled from the spec: the write of the scroll position,
    [element.scrollTo({ top })] and [element.scrollTop = top], which the
    container itself performs: "after any mutation, offset is clamped to
    [0, extent]".  The component has no clamp of its own; every write of the
    offset below goes through [scrollTo]. *)
Definition scrollTo (top : Q) (el : Element) : Element :=
  {| scrollTop := clamp top 0 (scrollRange el);
     scrollHeight := scrollHeight el;
     clientHeight := clientHeight el |}.

(** [element.scrollBy({ top: delta })] and [element.scrollTop += delta] *)
Definition scrollBy (delta : Q) (el : Element) : Element :=
  scrollTo (scrollTop el + delta) el.

(** The props of one render that the engine reads. *)
Record Props : Type := {
  isPlaying : bool;
  speed : Q;
  fontSizePx : Q
}.

(** The callbacks of [TextViewportProps]; a value is one call. *)
Inductive Event : Type :=
| onScrollChange (top height client : Q)
| onContainerHeightChange (height : Q)
| onReachEnd.

Record Refs : Type := {
  scrollContainerRef : option Element;
  lastTimestampRef : option Q;
  scrollAccumulatorRef : Q
}.

Definition withElement (el : Element) (v : Refs) : Refs :=
  {| scrollContainerRef := Some el;
     lastTimestampRef := lastTimestampRef v;
     scrollAccumulatorRef := scrollAccumulatorRef v |}.

(** Line 62. *)
Definition lineHeightPx (fontSize : Q) : Q := fontSize * LINE_HEIGHT_EM.

(** [getScrollInfo], lines 64-74. *)
Definition getScrollInfo (v : Refs) : Element :=
  match scrollContainerRef v with
  | None => {| scrollTop := 0; scrollHeight := 1; clientHeight := 1 |}
  | Some element => element
  end.

(** [notifyScroll], lines 76-83. *)
Definition notifyScroll (v : Refs) : list Event :=
  let info := getScrollInfo v in
  let maxScroll := scrollHeight info - clientHeight info in
  onScrollChange (scrollTop info) (scrollHeight info) (clientHeight info)
  :: (if Qle_bool (maxScroll - scrollTop info) DEAD_BAND then [onReachEnd] else []).

(** [scrollToStart], lines 85-91. *)
Definition scrollToStart (v : Refs) : Refs * list Event :=
  match scrollContainerRef v with
  | Some element =>
      let v' := withElement (scrollTo 0 element) v in
      (v', notifyScroll v')
  | None => (v, [])
  end.

(** [scrollToEnd], lines 93-99. *)
Definition scrollToEnd (v : Refs) : Refs * list Event :=
  match scrollContainerRef v with
  | Some element =>
      let v' := withElement (scrollTo (scrollHeight element) element) v in
      (v', notifyScroll v')
  | None => (v, [])
  end.

(** [manualScroll], lines 101-111. *)
Definition manualScroll (delta : Q) (v : Refs) : Refs * list Event :=
  match scrollContainerRef v with
  | None => (v, [])
  | Some element =>
      let v' := withElement (scrollBy delta element) v in
      (v', notifyScroll v')
  end.

(** [handleScroll], lines 133-137: the listener of the box's scroll event. *)
Definition handleScroll (p : Props) (v : Refs) : list Event :=
  if negb (isPlaying p) then notifyScroll v else [].

(** Lines 188-190 of [tick]. *)
Definition linesPerSecOf (speed : Q) : Q :=
  let t := (speed - 1) / 49 in
  0.5 + 9.5 * t.

Definition pxPerSecOf (speed fontSize : Q) : Q :=
  linesPerSecOf speed * lineHeightPx fontSize.

(** Lines 182-185 of [tick]: the interval since the last frame. *)
Definition deltaSecondsOf (timestamp : Q) (last : option Q) : Q :=
  (timestamp - nullish last timestamp) / 1000.

(** [tick], lines 167-209, without the rescheduling. *)
Definition tick (p : Props) (timestamp : Q) (v : Refs) : Refs * list Event :=
  if negb (isPlaying p) then
    ({| scrollContainerRef := scrollContainerRef v;
        lastTimestampRef := Some timestamp;
        scrollAccumulatorRef := scrollAccumulatorRef v |}, [])
  else
    match scrollContainerRef v with
    | None =>
        ({| scrollContainerRef := None;
            lastTimestampRef := Some timestamp;
            scrollAccumulatorRef := scrollAccumulatorRef v |}, [])
    | Some element =>
        let deltaSeconds := deltaSecondsOf timestamp (lastTimestampRef v) in
        let scrollDelta := pxPerSecOf (speed p) (fontSizePx p) * deltaSeconds in
        let accumulated := scrollAccumulatorRef v + scrollDelta in
        let wholePixels := Math_floor accumulated in
        let moved := negb (Z.eqb wholePixels 0) in
        let element' :=
          if moved then scrollBy (inject_Z wholePixels) element else element in
        let v' :=
          {| scrollContainerRef := Some element';
             lastTimestampRef := Some timestamp;
             scrollAccumulatorRef :=
               if moved then accumulated - inject_Z wholePixels else accumulated |} in
        let notified := if moved then notifyScroll v' else [] in
        let maxScroll := scrollHeight element' - clientHeight element' in
        let ended :=
          if Qle_bool (maxScroll - DEAD_BAND) (scrollTop element')
          then [onReachEnd] else [] in
        (v', notified ++ ended)
    end.

(** The effect of lines 127-145, as far as it acts at once: when it runs,
    after a render in which [isPlaying] or [notifyScroll] is a new value, it
    sends the scroll notification. *)
Definition scrollEffect (v : Refs) : Refs * list Event :=
  match scrollContainerRef v with
  | None => (v, [])
  | Some _ => (v, notifyScroll v)
  end.

(** The effect of lines 220-226; React runs it after a render in which
    [lineHeightPx] differs from the one of the render before. *)
Definition lineHeightEffect (previous next : Q) (v : Refs) : Refs :=
  if Qeq_bool (lineHeightPx previous) (lineHeightPx next) then v
  else
    match scrollContainerRef v with
    | None => v
    | Some element =>
        {| scrollContainerRef := Some element;
           lastTimestampRef := lastTimestampRef v;
           scrollAccumulatorRef := 0 |}
    end.

(** The callbacks that are the reached-end signal, and their number. *)
Definition isReachEnd (e : Event) : bool :=
  match e with onReachEnd => true | _ => false end.

Definition reachedEndSignals (events : list Event) : nat :=
  length (filter (fun e => isReachEnd e = true) events).

(** The offset, 0 while there is no element (as [getScrollInfo] reports). *)
Definition offset (v : Refs) : Q := scrollTop (getScrollInfo v).

(** The scrollable range, the spec's extent. *)
Definition extent (v : Refs) : Q := scrollRange (getScrollInfo v).

(** The invariant of the scroll state. *)
Definition inRange (v : Refs) : Prop := 0 <= offset v <= extent v.

(** The operations that move the offset. *)
Inductive Step : Type :=
| stepManualScroll (delta : Q)
| stepTick (p : Props) (timestamp : Q)
| stepScrollToStart
| stepScrollToEnd.

Definition step (v : Refs) (o : Step) : Refs :=
  match o with
  | stepManualScroll delta => fst (manualScroll delta v)
  | stepTick p timestamp => fst (tick p timestamp v)
  | stepScrollToStart => fst (scrollToStart v)
  | stepScrollToEnd => fst (scrollToEnd v)
  end.

Definition steps (os : list Step) (v : Refs) : Refs := fold_left step os v.

End TextViewport.

(** ** Playback state, timers and handlers (App) *)

Module App.

Definition TIMER_INTERVAL : Q := 100.
Definition MIN_SPEED : Q := 1.
Definition MAX_SPEED : Q := 50.
Definition MIN_FONT_SIZE : Q := 24.

(** The [useState] values that the engine touches.  One value of this type
    is also what the closures of one render see. *)
Record Hooks : Type := {
  isPlaying : bool;
  speed : Q;
  fontSizePx : Q;
  mirror : bool;
  elapsedTime : Q;
  remainingTime : R;
  progress : Q;
  containerHeight : Q
}.

(** The timer refs, in milliseconds of [Date.now()]. *)
Record Timers : Type := {
  startTimeRef : option Q;
  pausedTimeRef : Q;
  pauseStartRef : option Q
}.

(** The store: pending state, refs, and the mounted viewport behind
    [textViewportRef] (unmounted, its scroll container is absent). *)
Record Store : Type := {
  state : Hooks;
  timers : Timers;
  textViewportRef : TextViewport.Refs
}.

Definition initialHooks : Hooks :=
  {| isPlaying := false; speed := 20; fontSizePx := 72; mirror := false;
     elapsedTime := 0; remainingTime := 0%R; progress := 0;
     containerHeight := 0 |}.

Definition initialTimers : Timers :=
  {| startTimeRef := None; pausedTimeRef := 0; pauseStartRef := None |}.

Definition withState (h : Hooks) (s : Store) : Store :=
  {| state := h; timers := timers s; textViewportRef := textViewportRef s |}.
Definition withTimers (t : Timers) (s : Store) : Store :=
  {| state := state s; timers := t; textViewportRef := textViewportRef s |}.
Definition withViewport (v : TextViewport.Refs) (s : Store) : Store :=
  {| state := state s; timers := timers s; textViewportRef := v |}.

(** The state setters. *)
Definition setIsPlaying (b : bool) (s : Store) : Store :=
  let h := state s in
  withState
    {| isPlaying := b; speed := speed h; fontSizePx := fontSizePx h;
       mirror := mirror h; elapsedTime := elapsedTime h;
       remainingTime := remainingTime h; progress := progress h;
       containerHeight := containerHeight h |} s.
Definition setSpeed (x : Q) (s : Store) : Store :=
  let h := state s in
  withState
    {| isPlaying := isPlaying h; speed := x; fontSizePx := fontSizePx h;
       mirror := mirror h; elapsedTime := elapsedTime h;
       remainingTime := remainingTime h; progress := progress h;
       containerHeight := containerHeight h |} s.
Definition setFontSizePx (x : Q) (s : Store) : Store :=
  let h := state s in
  withState
    {| isPlaying := isPlaying h; speed := speed h; fontSizePx := x;
       mirror := mirror h; elapsedTime := elapsedTime h;
       remainingTime := remainingTime h; progress := progress h;
       containerHeight := containerHeight h |} s.
Definition setMirror (b : bool) (s : Store) : Store :=
  let h := state s in
  withState
    {| isPlaying := isPlaying h; speed := speed h; fontSizePx := fontSizePx h;
       mirror := b; elapsedTime := elapsedTime h;
       remainingTime := remainingTime h; progress := progress h;
       containerHeight := containerHeight h |} s.
Definition setElapsedTime (x : Q) (s : Store) : Store :=
  let h := state s in
  withState
    {| isPlaying := isPlaying h; speed := speed h; fontSizePx := fontSizePx h;
       mirror := mirror h; elapsedTime := x;
       remainingTime := remainingTime h; progress := progress h;
       containerHeight := containerHeight h |} s.
Definition setRemainingTime (x : R) (s : Store) : Store :=
  let h := state s in
  withState
    {| isPlaying := isPlaying h; speed := speed h; fontSizePx := fontSizePx h;
       mirror := mirror h; elapsedTime := elapsedTime h;
       remainingTime := x; progress := progress h;
       containerHeight := containerHeight h |} s.
Definition setProgress (x : Q) (s : Store) : Store :=
  let h := state s in
  withState
    {| isPlaying := isPlaying h; speed := speed h; fontSizePx := fontSizePx h;
       mirror := mirror h; elapsedTime := elapsedTime h;
       remainingTime := remainingTime h; progress := x;
       containerHeight := containerHeight h |} s.
Definition setContainerHeight (x : Q) (s : Store) : Store :=
  let h := state s in
  withState
    {| isPlaying := isPlaying h; speed := speed h; fontSizePx := fontSizePx h;
       mirror := mirror h; elapsedTime := elapsedTime h;
       remainingTime := remainingTime h; progress := progress h;
       containerHeight := x |} s.

(** A ref that holds a timestamp is truthy when it is neither null nor 0. *)
Definition truthy (o : option Q) : bool :=
  match o with
  | None => false
  | Some x => negb (Qeq_bool x 0)
  end.

(** Lines 52-54. *)
Definition maxFontSize (r : Hooks) : Q :=
  if Qltb 0 (containerHeight r)
  then inject_Z (Math_floor (containerHeight r / 3)) else 192.

(** The eased curve of lines 100-104, in pixels per second; 1 and 50 are
    [MIN_SPEED] and [MAX_SPEED]. *)
Definition telemetryLinesPerSec (speed : R) : R :=
  let t := ((speed - 1) / (50 - 1))%R in
  let curved := Math_pow t 1.2 in
  (0.2 + 4.8 * curved)%R.

Definition telemetryPxPerSec (speed fontSize : R) : R :=
  let lineHeightPx := (fontSize * 1.3)%R in
  (telemetryLinesPerSec speed * lineHeightPx)%R.

(** [handleScrollChange], lines 93-109. *)
Definition handleScrollChange (r : Hooks) (top height client : Q)
    (s : Store) : Store :=
  let maxScroll := Math_max (height - client) 1 in
  let progressPercent := clamp ((top / maxScroll) * 100) 0 100 in
  let remainingScroll := Math_max (maxScroll - top) 0 in
  let pxPerSec := telemetryPxPerSec (Q2R (speed r)) (Q2R (fontSizePx r)) in
  let remainingSeconds :=
    if Rlt_dec 0 pxPerSec then (Q2R remainingScroll / pxPerSec)%R else 0%R in
  setRemainingTime remainingSeconds (setProgress progressPercent s).

(** [resetTimers], lines 115-123. *)
Definition resetTimers (s : Store) : Store :=
  setIsPlaying false
    (withTimers
       {| startTimeRef := None; pausedTimeRef := 0; pauseStartRef := None |}
       (setProgress 0 (setRemainingTime 0%R (setElapsedTime 0 s)))).

(** [handleStart], lines 125-135; [now] is [Date.now()]. *)
Definition handleStart (now : Q) (s : Store) : Store :=
  let t := timers s in
  let t1 :=
    if negb (truthy (startTimeRef t))
    then {| startTimeRef := Some now; pausedTimeRef := 0;
            pauseStartRef := pauseStartRef t |}
    else t in
  let t2 :=
    if truthy (pauseStartRef t1)
    then {| startTimeRef := startTimeRef t1;
            pausedTimeRef :=
              pausedTimeRef t1 + (now - nullish (pauseStartRef t1) 0);
            pauseStartRef := None |}
    else t1 in
  setIsPlaying true (withTimers t2 s).

(** [handlePause], lines 137-142. *)
Definition handlePause (r : Hooks) (now : Q) (s : Store) : Store :=
  if isPlaying r then
    setIsPlaying false
      (withTimers
         {| startTimeRef := startTimeRef (timers s);
            pausedTimeRef := pausedTimeRef (timers s);
            pauseStartRef := Some now |} s)
  else s.

(** [handleSpeedChange], lines 144-146. *)
Definition handleSpeedChange (value : Q) (s : Store) : Store :=
  setSpeed (clamp (inject_Z (Math_round value)) MIN_SPEED MAX_SPEED) s.

(** [handleFontSizeChange], lines 148-154. *)
Definition handleFontSizeChange (r : Hooks) (value : Q) (s : Store) : Store :=
  setFontSizePx
    (clamp (inject_Z (Math_round value)) MIN_FONT_SIZE (maxFontSize r)) s.

(** [handleMirrorToggle], lines 156-158. *)
Definition handleMirrorToggle (s : Store) : Store :=
  setMirror (negb (mirror (state s))) s.

(** The callbacks handed to [TextViewport] at lines 276-280. *)
Definition dispatch (r : Hooks) (s : Store) (e : TextViewport.Event) : Store :=
  match e with
  | TextViewport.onScrollChange top height client =>
      handleScrollChange r top height client s
  | TextViewport.onContainerHeightChange height => setContainerHeight height s
  | TextViewport.onReachEnd => setIsPlaying false s
  end.

(** A call into the viewport: its refs change, then the callbacks it called
    run against the store. *)
Definition viewportCall (r : Hooks)
    (f : TextViewport.Refs -> TextViewport.Refs * list TextViewport.Event)
    (s : Store) : Store :=
  let result := f (textViewportRef s) in
  fold_left (dispatch r) (snd result) (withViewport (fst result) s).

(** [handleGoToStart], lines 160-163. *)
Definition handleGoToStart (r : Hooks) (s : Store) : Store :=
  resetTimers (viewportCall r TextViewport.scrollToStart s).

(** [handleGoToEnd], lines 165-167. *)
Definition handleGoToEnd (r : Hooks) (s : Store) : Store :=
  viewportCall r TextViewport.scrollToEnd s.

(** [handleManualScroll], lines 169-171. *)
Definition handleManualScroll (r : Hooks) (delta : Q) (s : Store) : Store :=
  viewportCall r (TextViewport.manualScroll delta) s.

(** [handlePauseFromManualScroll], lines 187-191. *)
Definition handlePauseFromManualScroll (r : Hooks) (now : Q) (s : Store) : Store :=
  if isPlaying r then handlePause r now s else s.

(** [gamepadControls], lines 193-218.  The fullscreen toggle acts on the
    document only. *)
Definition gamepadControls (r : Hooks) (now : Q) (s : Store)
    (a : UseGamepad.Action) : Store :=
  match a with
  | UseGamepad.onPlayPause =>
      if isPlaying r then handlePause r now s else handleStart now s
  | UseGamepad.onSpeedDecrease => handleSpeedChange (speed r - 1) s
  | UseGamepad.onSpeedIncrease => handleSpeedChange (speed r + 1) s
  | UseGamepad.onJumpToStart => handleGoToStart r s
  | UseGamepad.onJumpToEnd => handleGoToEnd r s
  | UseGamepad.onMirrorToggle => handleMirrorToggle s
  | UseGamepad.onFullscreenToggle => s
  | UseGamepad.onFontSizeDecrease => handleFontSizeChange r (fontSizePx r - 1) s
  | UseGamepad.onFontSizeIncrease => handleFontSizeChange r (fontSizePx r + 1) s
  | UseGamepad.onManualScroll delta => handleManualScroll r delta s
  | UseGamepad.onPauseFromManualScroll => handlePauseFromManualScroll r now s
  end.

(** The props that the render [r] hands to [TextViewport], lines 265-281. *)
Definition propsOf (r : Hooks) : TextViewport.Props :=
  {| TextViewport.isPlaying := isPlaying r;
     TextViewport.speed := speed r;
     TextViewport.fontSizePx := fontSizePx r |}.

(** What the two frame callbacks of the render [r] do to the engine when
    the browser runs them: the autoscroll [tick] ... *)
Definition tickCallback (r : Hooks) (timestamp : Q) (s : Store) : Store :=
  viewportCall r (TextViewport.tick (propsOf r) timestamp) s.

(** ... and the sampler's [poll], whose controls are those of [r]. *)
Definition pollCallback (r : Hooks) (now timestamp : Q)
    (gamepads : list (option UseGamepad.Gamepad))
    (e : Store * UseGamepad.Refs) : Store * UseGamepad.Refs :=
  let result := UseGamepad.poll (isPlaying r) timestamp gamepads (snd e) in
  (fold_left (gamepadControls r now) (snd result) (fst e), fst result).

(** One display frame.  Both loops are scheduled with
    [requestAnimationFrame], so the browser runs both callbacks on the
    frame's timestamp, in the order in which they were requested.  Both are
    closures of the render [r]: a [setIsPlaying] made by the first reaches
    the store, not the [isPlaying] that the second has already captured. *)
Definition framePollThenTick (r : Hooks) (now timestamp : Q)
    (gamepads : list (option UseGamepad.Gamepad))
    (e : Store * UseGamepad.Refs) : Store * UseGamepad.Refs :=
  let e1 := pollCallback r now timestamp gamepads e in
  (tickCallback r timestamp (fst e1), snd e1).

Definition frameTickThenPoll (r : Hooks) (now timestamp : Q)
    (gamepads : list (option UseGamepad.Gamepad))
    (e : Store * UseGamepad.Refs) : Store * UseGamepad.Refs :=
  pollCallback r now timestamp gamepads (tickCallback r timestamp (fst e), snd e).

(** The offset that the engine shows. *)
Definition offset (s : Store) : Q := TextViewport.offset (textViewportRef s).

(** [formatTime], lines 19-29. *)
Definition formatTime (seconds : Q) : string :=
  if negb (Number_isFinite seconds) || Qltb seconds 0 then "00:00"%string
  else
    let total := Math_floor seconds in
    let mins := padStart 2 "0" (toString (Math_floor (inject_Z total / 60))) in
    let secs := padStart 2 "0" (toString (Z.rem total 60)) in
    String.append mins (String.append ":" secs).

(** The elapsed seconds of lines 86 and 238, for a start time that is set. *)
Definition elapsedSecondsOf (now : Q) (t : Timers) : Q :=
  (now - nullish (startTimeRef t) 0 - pausedTimeRef t) / 1000.

(** The interval callback of lines 82-88; it runs while playing. *)
Definition timerCallback (now : Q) (s : Store) : Store :=
  if negb (truthy (startTimeRef (timers s))) then s
  else setElapsedTime (elapsedSecondsOf now (timers s)) s.

End App.

(** ** The sliders of the bottom bar (components/TopBar.tsx, BottomBar) *)

Module BottomBar.

Definition SPEED_MIN : Q := 1.
Definition SPEED_MAX : Q := 50.

(** [event.key] as [handleSliderKey] tells it apart. *)
Inductive Key : Type := ArrowLeft | ArrowRight | otherKey.

(** [handleSliderKey], lines 103-117: the value passed to [onChange], if the
    key is one of the two arrows; [value] is the slider's current value. *)
Definition handleSliderKey (key : Key) (shiftKey : bool)
    (value deltaSmall deltaLarge : Q) : option Q :=
  match key with
  | ArrowLeft => Some (value - (if shiftKey then deltaLarge else deltaSmall))
  | ArrowRight => Some (value + (if shiftKey then deltaLarge else deltaSmall))
  | otherKey => None
  end.

(** The key handler of the speed slider, line 165, with [onSpeedChange] the
    [handleSpeedChange] of the App; the slider is a controlled input, its
    value is the speed of the render (line 162). *)
Definition speedSliderKey (key : Key) (shiftKey : bool) (r : App.Hooks)
    (s : App.Store) : App.Store :=
  match handleSliderKey key shiftKey (App.speed r) 1 4 with
  | Some value => App.handleSpeedChange value s
  | None => s
  end.

(** [x || 1] on a number. *)
Definition orOne (x : Q) : Q := if Qeq_bool x 0 then 1 else x.

(** The fill of the speed slider, line 163, in percent. *)
Definition speedProgress (speed : Q) : Q :=
  ((speed - SPEED_MIN) / (SPEED_MAX - SPEED_MIN)) * 100.

(** The fill of the font-size slider, line 181, in percent. *)
Definition fontSizeProgress (fontSizePx minFontSize maxFontSize : Q) : Q :=
  ((fontSizePx - minFontSize) / orOne (maxFontSize - minFontSize)) * 100.

End BottomBar.

(** * Properties *)

(** ** Comparisons and folds *)

Lemma Qle_bool_false (x y : Q) : Qle_bool x y = false <-> y < x.
Proof.
  split; intros H.
  - apply Qnot_le_lt. intros Hle. apply Qle_bool_iff in Hle. congruence.
  - destruct (Qle_bool x y) eqn:E; [|reflexivity].
    apply Qle_bool_iff in E. lra.
Qed.

Lemma Qltb_true (x y : Q) : Qltb x y = true <-> x < y.
Proof. unfold Qltb. rewrite negb_true_iff. apply Qle_bool_false. Qed.

Lemma Qltb_false (x y : Q) : Qltb x y = false <-> y <= x.
Proof. unfold Qltb. rewrite negb_false_iff. apply Qle_bool_iff. Qed.

Lemma Math_max_lub (x y : Q) : x <= Math_max x y /\ y <= Math_max x y.
Proof.
  unfold Math_max. destruct (Qle_bool x y) eqn:E.
  - apply Qle_bool_iff in E. lra.
  - apply Qle_bool_false in E. lra.
Qed.

Lemma clamp_range (value lo hi : Q) : lo <= hi -> lo <= clamp value lo hi <= hi.
Proof.
  intros Hlh. unfold clamp, Math_min.
  destruct (Math_max_lub value lo) as [_ Hlo].
  destruct (Qle_bool (Math_max value lo) hi) eqn:E.
  - apply Qle_bool_iff in E. lra.
  - lra.
Qed.

Lemma fold_left_preserves {S I : Type} (P : S -> Prop) (f : S -> I -> S)
    (l : list I) (s : S) :
  P s -> (forall s' i, i ∈ l -> P s' -> P (f s' i)) -> P (fold_left f l s).
Proof.
  revert s. induction l as [|i l IH]; intros s Hs Hstep; simpl; [exact Hs|].
  apply IH.
  - apply Hstep; [left | exact Hs].
  - intros s' j Hj. apply Hstep. right. exact Hj.
Qed.

(** ** The debounce ledger *)

Section Debounce.
Import UseGamepad.

Variables (now : Q) (index : nat) (action : Action) (st : PollState).

Lemma registerPress_accepted :
  DEBOUNCE_TIME <= now - nullish (lastPressRef (refs st) !! index) 0 ->
  buttonsHandled (registerPress now index action st) = buttonsHandled st ++ [action]
  /\ lastPressRef (refs (registerPress now index action st)) !! index = Some now.
Proof.
  intros H. apply Qle_bool_iff in H. unfold registerPress. rewrite H. simpl.
  split; [reflexivity | apply lookup_insert_eq].
Qed.

Lemma registerPress_rejected :
  now - nullish (lastPressRef (refs st) !! index) 0 < DEBOUNCE_TIME ->
  registerPress now index action st = st.
Proof.
  intros H. apply Qle_bool_false in H. unfold registerPress. rewrite H.
  reflexivity.
Qed.

(** Once a press of the control has been accepted at [t1], a press at [now]
    is accepted exactly when 200ms have passed. *)
Lemma registerPress_after_accept (t1 : Q) :
  lastPressRef (refs st) !! index = Some t1 ->
  (DEBOUNCE_TIME <= now - t1 ->
     buttonsHandled (registerPress now index action st)
     = buttonsHandled st ++ [action])
  /\ (now - t1 < DEBOUNCE_TIME -> registerPress now index action st = st).
Proof.
  intros Hl. split; intros H.
  - apply registerPress_accepted. rewrite Hl. exact H.
  - apply registerPress_rejected. rewrite Hl. exact H.
Qed.

Lemma registerPress_called :
  called (registerPress now index action st) = called st.
Proof. unfold registerPress. destruct (Qle_bool _ _); reflexivity. Qed.

Lemma registerPress_timing :
  lastTimestampRef (refs (registerPress now index action st))
  = lastTimestampRef (refs st)
  /\ smoothedScrollSpeedRef (refs (registerPress now index action st))
     = smoothedScrollSpeedRef (refs st).
Proof. unfold registerPress. destruct (Qle_bool _ _); split; reflexivity. Qed.

End Debounce.

(** C1.  A control that has no ledger entry is read as last pressed at time
    0 ([lastPress[index] ?? 0]), so its first press is turned down whenever
    the frame's timestamp is below 200ms: nothing is queued and no entry is
    made. *)
Theorem first_press_rejected_before_200ms
    (now : Q) (index : nat) (action : UseGamepad.Action)
    (st : UseGamepad.PollState) :
  UseGamepad.lastPressRef (UseGamepad.refs st) !! index = None ->
  now < 200 ->
  UseGamepad.registerPress now index action st = st.
Proof.
  intros Hnone Hnow. apply registerPress_rejected. rewrite Hnone. simpl.
  unfold UseGamepad.DEBOUNCE_TIME. lra.
Qed.

Lemma first_press_rejected_at_0 :
  UseGamepad.registerPress 0 UseGamepad.A UseGamepad.onPlayPause
    {| UseGamepad.refs := UseGamepad.initial;
       UseGamepad.called := []; UseGamepad.buttonsHandled := [] |}
  = {| UseGamepad.refs := UseGamepad.initial;
       UseGamepad.called := []; UseGamepad.buttonsHandled := [] |}.
Proof.
  apply (first_press_rejected_before_200ms 0 UseGamepad.A).
  - reflexivity.
  - reflexivity.
Defined.

(** The scenario of the specification, presses of one control at 0ms and at
    150ms on a fresh sampler: neither is accepted; the press at 250ms is. *)
Example debounce_scenario :
  let pad := Some {| UseGamepad.buttons := [ {| UseGamepad.pressed := true |} ];
                     UseGamepad.axes := [] |} in
  let f0 := UseGamepad.poll false 0 [pad] UseGamepad.initial in
  let f1 := UseGamepad.poll false 150 [pad] (fst f0) in
  let f2 := UseGamepad.poll false 250 [pad] (fst f1) in
  snd f0 = [] /\ snd f1 = [] /\ snd f2 = [UseGamepad.onPlayPause].
Proof. vm_compute. repeat split. Qed.

(** ** One frame of the sampler *)

Section Sampler.
Import UseGamepad.

Variables (isPlaying : bool) (timestamp : Q).

(** The buttons only touch the ledger and the queue. *)
Lemma handleButton_called pressedButtons st b :
  called (handleButton timestamp pressedButtons st b) = called st.
Proof.
  unfold handleButton. destruct (isPressed _ _); [|reflexivity].
  apply registerPress_called.
Qed.

Lemma handleButton_timing pressedButtons st b :
  lastTimestampRef (refs (handleButton timestamp pressedButtons st b))
  = lastTimestampRef (refs st)
  /\ smoothedScrollSpeedRef (refs (handleButton timestamp pressedButtons st b))
     = smoothedScrollSpeedRef (refs st).
Proof.
  unfold handleButton. destruct (isPressed _ _); [|split; reflexivity].
  apply registerPress_timing.
Qed.

Lemma handleButtons_called pressedButtons st :
  called (handleButtons timestamp pressedButtons st) = called st.
Proof.
  unfold handleButtons.
  apply (fold_left_preserves (fun st' => called st' = called st)); [reflexivity|].
  intros st' b _ H. rewrite handleButton_called. exact H.
Qed.

Lemma handleButtons_timing pressedButtons st :
  lastTimestampRef (refs (handleButtons timestamp pressedButtons st))
  = lastTimestampRef (refs st)
  /\ smoothedScrollSpeedRef (refs (handleButtons timestamp pressedButtons st))
     = smoothedScrollSpeedRef (refs st).
Proof.
  unfold handleButtons.
  apply (fold_left_preserves
           (fun st' =>
              lastTimestampRef (refs st') = lastTimestampRef (refs st)
              /\ smoothedScrollSpeedRef (refs st') = smoothedScrollSpeedRef (refs st)));
    [split; reflexivity|].
  intros st' b _ [H1 H2].
  destruct (handleButton_timing pressedButtons st' b) as [E1 E2].
  rewrite E1, E2. split; assumption.
Qed.

(** With no mapped button down, the buttons do nothing at all. *)
Lemma handleButtons_idle pressedButtons st :
  (forall i, isPressed pressedButtons i = false) ->
  handleButtons timestamp pressedButtons st = st.
Proof.
  intros Hidle. unfold handleButtons.
  apply (fold_left_preserves (fun st' => st' = st)); [reflexivity|].
  intros st' b _ ->. unfold handleButton. rewrite Hidle. reflexivity.
Qed.

Lemma registerPress_sorted index action st :
  isDiscrete action = true -> sorted st ->
  sorted (registerPress timestamp index action st).
Proof.
  intros Ha [Hc Hq]. unfold registerPress.
  destruct (Qle_bool _ _); [|split; assumption].
  split; simpl; [exact Hc|].
  apply Forall_app. split; [exact Hq|]. apply Forall_singleton. exact Ha.
Qed.

Lemma bindings_discrete :
  Forall (fun b : nat * Action => isDiscrete (snd b) = true) bindings.
Proof. unfold bindings. repeat constructor. Qed.

Lemma handleButtons_sorted pressedButtons st :
  sorted st -> sorted (handleButtons timestamp pressedButtons st).
Proof.
  intros Hst. unfold handleButtons.
  apply (fold_left_preserves sorted); [exact Hst|].
  intros st' b Hb Hst'. unfold handleButton.
  destruct (isPressed _ _); [|exact Hst'].
  apply registerPress_sorted; [|exact Hst'].
  pose proof bindings_discrete as Hall.
  rewrite Forall_forall in Hall. exact (Hall b Hb).
Qed.

Lemma handleAxis_sorted axes st :
  sorted st -> sorted (handleAxis isPlaying timestamp axes st).
Proof.
  intros [Hc Hq]. unfold handleAxis.
  destruct (Qltb DEADZONE _); [|split; assumption].
  split; simpl; [|exact Hq].
  assert (Hc1 : Forall (fun a => isContinuous a = true)
                  (if isPlaying then called st ++ [onPauseFromManualScroll]
                   else called st)).
  { destruct isPlaying; [|exact Hc].
    apply Forall_app. split; [exact Hc|]. apply Forall_singleton. reflexivity. }
  match goal with |- context [if ?b then _ else _] => destruct b end;
    [|exact Hc1].
  apply Forall_app. split; [exact Hc1|]. apply Forall_singleton. reflexivity.
Qed.

Lemma handleGamepad_sorted st gamepad :
  sorted st -> sorted (handleGamepad isPlaying timestamp st gamepad).
Proof.
  intros Hst. destruct gamepad as [g|]; simpl; [|exact Hst].
  apply handleAxis_sorted, handleButtons_sorted, Hst.
Qed.

Lemma handleAxis_deadzone g st :
  withinDeadzone g ->
  handleAxis isPlaying timestamp (axes g) st
  = {| refs := {| lastPressRef := lastPressRef (refs st);
                  lastTimestampRef := Some timestamp;
                  smoothedScrollSpeedRef := 0 |};
       called := called st;
       buttonsHandled := buttonsHandled st |}.
Proof.
  intros H. apply Qltb_false in H. unfold handleAxis.
  change (nullish (axes g !! 1%nat) 0) with (leftStickYOf g). rewrite H. reflexivity.
Qed.

Lemma handleGamepad_deadzone_called st g :
  withinDeadzone g ->
  called (handleGamepad isPlaying timestamp st (Some g)) = called st
  /\ rested timestamp (handleGamepad isPlaying timestamp st (Some g)).
Proof.
  intros H. simpl. rewrite (handleAxis_deadzone g _ H). simpl.
  split; [apply handleButtons_called | split; reflexivity].
Qed.

Lemma deadzone_fold_called gamepads st :
  connected withinDeadzone gamepads ->
  called (fold_left (handleGamepad isPlaying timestamp) gamepads st) = called st.
Proof.
  intros Hall.
  apply (fold_left_preserves (fun st' => called st' = called st)); [reflexivity|].
  intros st' o Ho H. unfold connected in Hall. rewrite Forall_forall in Hall.
  destruct o as [g|]; [|exact H].
  destruct (handleGamepad_deadzone_called st' g (Hall _ Ho g eq_refl)) as [E _].
  rewrite E. exact H.
Qed.

Lemma deadzone_fold_rested gamepads st :
  connected withinDeadzone gamepads ->
  rested timestamp st \/ (exists g, Some g ∈ gamepads) ->
  rested timestamp (fold_left (handleGamepad isPlaying timestamp) gamepads st).
Proof.
  revert st. induction gamepads as [|o gamepads IH]; intros st Hall Hst; simpl.
  - destruct Hst as [Hst|[g Hg]]; [exact Hst|]. inversion Hg.
  - unfold connected in Hall. apply Forall_cons in Hall as [Ho Hall].
    destruct o as [g|].
    + apply IH; [exact Hall|]. left.
      apply (handleGamepad_deadzone_called st g (Ho g eq_refl)).
    + apply IH; [exact Hall|].
      destruct Hst as [Hst|[g Hg]]; [left; exact Hst|].
      right. exists g. apply elem_of_cons in Hg as [Hg|Hg]; [discriminate|exact Hg].
Qed.

End Sampler.

Lemma poll_sorted
    (isPlaying : bool) (timestamp : Q)
    (gamepads : list (option UseGamepad.Gamepad)) (st : UseGamepad.PollState) :
  UseGamepad.sorted st ->
  UseGamepad.sorted
    (fold_left (UseGamepad.handleGamepad isPlaying timestamp) gamepads st).
Proof.
  intros Hst. apply (fold_left_preserves UseGamepad.sorted); [exact Hst|].
  intros st' o _ H. apply handleGamepad_sorted, H.
Qed.

(** Read by positions in the frame's sequence of calls: a discrete command
    never stands before a continuous call. *)
Lemma poll_discrete_after_continuous
    (isPlaying : bool) (timestamp : Q)
    (gamepads : list (option UseGamepad.Gamepad)) (r : UseGamepad.Refs)
    (i j : nat) (a b : UseGamepad.Action) :
  snd (UseGamepad.poll isPlaying timestamp gamepads r) !! i = Some a ->
  snd (UseGamepad.poll isPlaying timestamp gamepads r) !! j = Some b ->
  UseGamepad.isDiscrete a = true -> UseGamepad.isContinuous b = true ->
  (j < i)%nat.
Proof.
  unfold UseGamepad.poll. simpl.
  set (st := fold_left _ gamepads _).
  assert (Hst : UseGamepad.sorted st).
  { apply poll_sorted. split; constructor. }
  destruct Hst as [Hc Hd].
  set (cs := UseGamepad.called st) in *.
  set (ds := UseGamepad.buttonsHandled st) in *.
  intros Hi Hj Ha Hb.
  rewrite Forall_forall in Hc. rewrite Forall_forall in Hd.
  assert (Hilen : (length cs <= i)%nat).
  { destruct (Nat.le_gt_cases (length cs) i) as [H|H]; [exact H|].
    rewrite lookup_app_l in Hi by exact H.
    apply list_elem_of_lookup_2 in Hi. apply Hc in Hi.
    unfold UseGamepad.isDiscrete in Ha. rewrite Hi in Ha. discriminate. }
  assert (Hjlen : (j < length cs)%nat).
  { destruct (Nat.le_gt_cases (length cs) j) as [H|H]; [|exact H].
    rewrite lookup_app_r in Hj by exact H.
    apply list_elem_of_lookup_2 in Hj. apply Hd in Hj.
    unfold UseGamepad.isDiscrete in Hj. rewrite Hb in Hj. discriminate. }
  lia.
Qed.

(** C7.  A frame in which every connected device has its vertical stick
    inside the deadzone (magnitude at most 0.15) makes no continuous call, so
    no scroll delta is emitted; the smoothed velocity is 0 after the frame and
    the sampler's last timestamp is the frame's. *)
Theorem deadzone_frame
    (isPlaying : bool) (timestamp : Q)
    (gamepads : list (option UseGamepad.Gamepad)) (r : UseGamepad.Refs) :
  UseGamepad.connected UseGamepad.withinDeadzone gamepads ->
  (exists g, Some g ∈ gamepads) ->
  Forall (fun a => UseGamepad.isContinuous a = false)
    (snd (UseGamepad.poll isPlaying timestamp gamepads r))
  /\ UseGamepad.smoothedScrollSpeedRef
       (fst (UseGamepad.poll isPlaying timestamp gamepads r)) = 0
  /\ UseGamepad.lastTimestampRef
       (fst (UseGamepad.poll isPlaying timestamp gamepads r)) = Some timestamp.
Proof.
  intros Hall Hsome. unfold UseGamepad.poll. simpl.
  set (st0 := {| UseGamepad.refs := r; UseGamepad.called := [];
                 UseGamepad.buttonsHandled := [] |}).
  pose proof (deadzone_fold_called isPlaying timestamp gamepads st0 Hall) as Hcalled.
  pose proof (deadzone_fold_rested isPlaying timestamp gamepads st0 Hall
                (or_intror Hsome)) as [Hs Ht].
  assert (Hsorted : UseGamepad.sorted
                      (fold_left (UseGamepad.handleGamepad isPlaying timestamp)
                         gamepads st0)).
  { apply poll_sorted. split; constructor. }
  destruct Hsorted as [_ Hq].
  rewrite Hcalled. simpl. repeat split; [|exact Hs|exact Ht].
  eapply Forall_impl; [exact Hq|].
  intros a Ha. unfold UseGamepad.isDiscrete in Ha.
  apply negb_true_iff in Ha. exact Ha.
Qed.

Lemma deadzone_frame_at_raw_0_10 :
  let pad := Some {| UseGamepad.buttons := []; UseGamepad.axes := [0; 0.10] |} in
  let r := {| UseGamepad.lastPressRef := ∅;
              UseGamepad.lastTimestampRef := Some 1000;
              UseGamepad.smoothedScrollSpeedRef := 12 |} in
  Forall (fun a => UseGamepad.isContinuous a = false)
    (snd (UseGamepad.poll true 1016 [pad] r))
  /\ UseGamepad.smoothedScrollSpeedRef (fst (UseGamepad.poll true 1016 [pad] r)) = 0
  /\ UseGamepad.lastTimestampRef (fst (UseGamepad.poll true 1016 [pad] r))
     = Some 1016.
Proof.
  intros pad r. apply (deadzone_frame true 1016 [pad] r).
  - constructor; [|constructor]. intros g Hg. injection Hg as <-.
    unfold UseGamepad.withinDeadzone. vm_compute. discriminate.
  - exists {| UseGamepad.buttons := []; UseGamepad.axes := [0; 0.10] |}.
    left.
Defined.

(** ** The smoothed velocity *)

Section Smoothing.
Import UseGamepad.

Lemma normalized_scaled (m : Q) :
  (m - DEADZONE) / (1 - DEADZONE) == (m - 0.15) * (20 # 17).
Proof. unfold DEADZONE, Qdiv. apply Qmult_comp; reflexivity. Qed.

(** The target of the filter stays within the maximum. *)
Lemma targetSpeedOf_bound (y : Q) :
  -1 <= y <= 1 -> DEADZONE < Math_abs y ->
  Qabs (targetSpeedOf y) <= MANUAL_SCROLL_MAX.
Proof.
  intros Hy Hm. unfold targetSpeedOf.
  assert (Hle : Math_abs y <= 1).
  { unfold Math_abs. apply Qabs_Qle_condition. exact Hy. }
  set (m := Math_abs y) in *.
  set (n := (m - DEADZONE) / (1 - DEADZONE)).
  assert (Hn : 0 <= n <= 1).
  { unfold n. rewrite normalized_scaled. unfold DEADZONE in Hm. lra. }
  assert (Hsq : 0 <= n ^ 2 <= 1) by (simpl; nra).
  set (q := n ^ 2) in *.
  unfold MANUAL_SCROLL_MAX, MANUAL_SCROLL_MIN.
  apply Qabs_Qle_condition.
  destruct (Qltb 0 y); lra.
Qed.

Variables (isPlaying : bool) (timestamp : Q).

Lemma handleAxis_bound (g : Gamepad) (st : PollState) :
  withinUnit g ->
  Qabs (smoothedScrollSpeedRef (refs st)) <= MANUAL_SCROLL_MAX ->
  Qabs (smoothedScrollSpeedRef (refs (handleAxis isPlaying timestamp (axes g) st)))
  <= MANUAL_SCROLL_MAX.
Proof.
  intros Hy Hs. unfold handleAxis.
  change (nullish (axes g !! 1%nat) 0) with (leftStickYOf g).
  destruct (Qltb DEADZONE (Math_abs (leftStickYOf g))) eqn:E;
    cbn [refs smoothedScrollSpeedRef].
  - apply Qltb_true in E.
    pose proof (targetSpeedOf_bound (leftStickYOf g) Hy E) as Ht.
    set (target := targetSpeedOf (leftStickYOf g)) in *.
    set (smoothed := smoothedScrollSpeedRef (refs st)) in *.
    apply Qabs_Qle_condition in Hs. apply Qabs_Qle_condition in Ht.
    apply Qabs_Qle_condition.
    unfold MANUAL_SCROLL_MAX, SMOOTH_FACTOR in *. lra.
  - unfold MANUAL_SCROLL_MAX. vm_compute. discriminate.
Qed.

Lemma handleGamepad_bound (st : PollState) (o : option Gamepad) :
  (forall g, o = Some g -> withinUnit g) ->
  Qabs (smoothedScrollSpeedRef (refs st)) <= MANUAL_SCROLL_MAX ->
  Qabs (smoothedScrollSpeedRef (refs (handleGamepad isPlaying timestamp st o)))
  <= MANUAL_SCROLL_MAX.
Proof.
  intros Ho Hs. destruct o as [g|]; simpl; [|exact Hs].
  apply handleAxis_bound; [apply Ho; reflexivity|].
  destruct (handleButtons_timing timestamp (buttons g) st) as [_ E].
  rewrite E. exact Hs.
Qed.

Lemma poll_bound (gamepads : list (option Gamepad)) (r : Refs) :
  connected withinUnit gamepads ->
  Qabs (smoothedScrollSpeedRef r) <= MANUAL_SCROLL_MAX ->
  Qabs (smoothedScrollSpeedRef (fst (poll isPlaying timestamp gamepads r)))
  <= MANUAL_SCROLL_MAX.
Proof.
  intros Hall Hr. unfold poll. simpl.
  apply (fold_left_preserves
           (fun st => Qabs (smoothedScrollSpeedRef (refs st)) <= MANUAL_SCROLL_MAX));
    [exact Hr|].
  intros st o Ho Hst. apply handleGamepad_bound; [|exact Hst].
  unfold connected in Hall. rewrite Forall_forall in Hall. exact (Hall o Ho).
Qed.

End Smoothing.

Lemma pollFrames_bound (frames : list UseGamepad.Frame) (r : UseGamepad.Refs) :
  Forall (fun f => UseGamepad.connected UseGamepad.withinUnit
                     (UseGamepad.frameGamepads f)) frames ->
  Qabs (UseGamepad.smoothedScrollSpeedRef r) <= UseGamepad.MANUAL_SCROLL_MAX ->
  Qabs (UseGamepad.smoothedScrollSpeedRef (UseGamepad.pollFrames frames r))
  <= UseGamepad.MANUAL_SCROLL_MAX.
Proof.
  intros Hall Hr. unfold UseGamepad.pollFrames.
  apply (fold_left_preserves
           (fun r' => Qabs (UseGamepad.smoothedScrollSpeedRef r')
                      <= UseGamepad.MANUAL_SCROLL_MAX)); [exact Hr|].
  intros r' f Hf Hr'. apply poll_bound; [|exact Hr'].
  rewrite Forall_forall in Hall. exact (Hall f Hf).
Qed.

(** C10.  From the initial sampler, over any sequence of frames whose raw
    vertical-stick values lie in [-1, 1], the smoothed scroll speed keeps a
    magnitude of at most 25 ([MANUAL_SCROLL_MAX]). *)
Theorem smoothed_speed_bounded (frames : list UseGamepad.Frame) :
  Forall (fun f => UseGamepad.connected UseGamepad.withinUnit
                     (UseGamepad.frameGamepads f)) frames ->
  Qabs (UseGamepad.smoothedScrollSpeedRef
          (UseGamepad.pollFrames frames UseGamepad.initial))
  <= 25.
Proof.
  intros Hall. apply (pollFrames_bound frames UseGamepad.initial Hall).
  vm_compute. discriminate.
Qed.

Lemma smoothed_speed_bounded_full_deflection :
  let pad y := Some {| UseGamepad.buttons := []; UseGamepad.axes := [0; y] |} in
  let frames :=
    [ {| UseGamepad.frameIsPlaying := false; UseGamepad.frameTimestamp := 0;
         UseGamepad.frameGamepads := [pad 1] |};
      {| UseGamepad.frameIsPlaying := false; UseGamepad.frameTimestamp := 16;
         UseGamepad.frameGamepads := [pad 1; None; pad (-1)] |};
      {| UseGamepad.frameIsPlaying := true; UseGamepad.frameTimestamp := 32;
         UseGamepad.frameGamepads := [pad 0.5] |} ] in
  Qabs (UseGamepad.smoothedScrollSpeedRef
          (UseGamepad.pollFrames frames UseGamepad.initial))
  <= 25.
Proof.
  intros pad frames. apply (smoothed_speed_bounded frames).
  unfold frames, pad, UseGamepad.connected.
  repeat (cbn [UseGamepad.frameGamepads];
          match goal with
          | |- Forall _ (_ :: _) => constructor
          | |- Forall _ [] => constructor
          end);
    intros g Hg; try discriminate; injection Hg as <-;
    unfold UseGamepad.withinUnit; vm_compute; split; discriminate.
Defined.

(** ** The scroll offset *)

Section Offset.
Import TextViewport.

Lemma scrollRange_nonneg (el : Element) : 0 <= scrollRange el.
Proof. unfold scrollRange. apply Math_max_lub. Qed.

Lemma scrollTo_inRange (top : Q) (el : Element) (v : Refs) :
  inRange (withElement (scrollTo top el) v).
Proof.
  unfold inRange, offset, extent. simpl.
  change (scrollRange (scrollTo top el)) with (scrollRange el).
  apply clamp_range, scrollRange_nonneg.
Qed.

Lemma manualScroll_inRange (delta : Q) (v : Refs) :
  inRange v -> inRange (fst (manualScroll delta v)).
Proof.
  intros Hv. unfold manualScroll.
  destruct (scrollContainerRef v) as [el|]; simpl; [|exact Hv].
  apply scrollTo_inRange.
Qed.

Lemma scrollToStart_inRange (v : Refs) :
  inRange v -> inRange (fst (scrollToStart v)).
Proof.
  intros Hv. unfold scrollToStart.
  destruct (scrollContainerRef v) as [el|]; simpl; [|exact Hv].
  apply scrollTo_inRange.
Qed.

Lemma scrollToEnd_inRange (v : Refs) :
  inRange v -> inRange (fst (scrollToEnd v)).
Proof.
  intros Hv. unfold scrollToEnd.
  destruct (scrollContainerRef v) as [el|]; simpl; [|exact Hv].
  apply scrollTo_inRange.
Qed.

Lemma tick_inRange (p : Props) (timestamp : Q) (v : Refs) :
  inRange v -> inRange (fst (tick p timestamp v)).
Proof.
  intros Hv. unfold tick.
  destruct (negb (isPlaying p)).
  { exact Hv. }
  destruct (scrollContainerRef v) as [el|] eqn:Hel.
  2: { unfold inRange, offset, extent, getScrollInfo in *. rewrite Hel in Hv.
       exact Hv. }
  cbn [fst].
  destruct (negb (Math_floor _ =? 0)%Z).
  - apply (scrollTo_inRange _ el v).
  - unfold inRange, offset, extent, getScrollInfo in *. rewrite Hel in Hv.
    exact Hv.
Qed.

Lemma step_inRange (v : Refs) (o : Step) : inRange v -> inRange (step v o).
Proof.
  destruct o; simpl.
  - apply manualScroll_inRange.
  - apply tick_inRange.
  - apply scrollToStart_inRange.
  - apply scrollToEnd_inRange.
Qed.

(** The poll of the sampler never emits a delta on a frame whose timestamp
    is not later than the sampler's last one. *)
Lemma handleAxis_guard (isPlaying : bool) (timestamp last : Q) (axes : list Q)
    (st : UseGamepad.PollState) :
  UseGamepad.lastTimestampRef (UseGamepad.refs st) = Some last ->
  timestamp <= last ->
  Forall (fun a => forall delta, a <> UseGamepad.onManualScroll delta)
    (UseGamepad.called st) ->
  Forall (fun a => forall delta, a <> UseGamepad.onManualScroll delta)
    (UseGamepad.called (UseGamepad.handleAxis isPlaying timestamp axes st)).
Proof.
  intros Hlast Hle Hst. unfold UseGamepad.handleAxis.
  destruct (Qltb UseGamepad.DEADZONE _); [|exact Hst].
  cbn [UseGamepad.called]. rewrite Hlast.
  assert (Hdt : Qltb 0 ((timestamp - last) / 1000) = false).
  { apply Qltb_false. apply Qle_shift_div_r; lra. }
  rewrite Hdt, andb_false_r.
  destruct isPlaying; [|exact Hst].
  apply Forall_app. split; [exact Hst|].
  apply Forall_singleton. intros delta. discriminate.
Qed.

(** The autoscroll interval is negative on such a frame. *)
Lemma deltaSecondsOf_negative (timestamp last : Q) :
  timestamp < last -> deltaSecondsOf timestamp (Some last) < 0.
Proof.
  intros H. unfold deltaSecondsOf. simpl. apply Qlt_shift_div_r; lra.
Qed.

Lemma deltaSecondsOf_first_frame (timestamp : Q) :
  deltaSecondsOf timestamp None == 0.
Proof. unfold deltaSecondsOf. simpl. field. Qed.

End Offset.

(** C6.  From a viewport whose offset lies between 0 and the scrollable
    range, every finite sequence of manual scrolls (deltas of any sign and
    size), autoscroll frames and jumps leaves the offset between 0 and the
    scrollable range: the scrolling box clamps every write. *)
Theorem offset_stays_in_range (os : list TextViewport.Step) (v : TextViewport.Refs) :
  0 <= TextViewport.offset v <= TextViewport.extent v ->
  0 <= TextViewport.offset (TextViewport.steps os v)
    <= TextViewport.extent (TextViewport.steps os v).
Proof.
  intros Hv. unfold TextViewport.steps.
  apply (fold_left_preserves TextViewport.inRange); [exact Hv|].
  intros v' o _. apply step_inRange.
Qed.

Lemma offset_stays_in_range_large_deltas :
  let v := {| TextViewport.scrollContainerRef :=
                Some {| TextViewport.scrollTop := 300;
                        TextViewport.scrollHeight := 1000;
                        TextViewport.clientHeight := 200 |};
              TextViewport.lastTimestampRef := Some 1000;
              TextViewport.scrollAccumulatorRef := 0 |} in
  let p := {| TextViewport.isPlaying := true; TextViewport.speed := 50;
              TextViewport.fontSizePx := 72 |} in
  let os := [ TextViewport.stepManualScroll (-100000);
              TextViewport.stepTick p 1016;
              TextViewport.stepManualScroll 100000;
              TextViewport.stepTick p 900000;
              TextViewport.stepScrollToEnd;
              TextViewport.stepTick p 1000 ] in
  0 <= TextViewport.offset (TextViewport.steps os v)
    <= TextViewport.extent (TextViewport.steps os v).
Proof.
  intros v p os. apply (offset_stays_in_range os v).
  vm_compute. split; discriminate.
Defined.

(** ** The autoscroll frame *)

(** What [tick] does on a playing viewport once the whole pixels of the frame
    are known to be non-zero. *)
Lemma tick_moved (p : TextViewport.Props) (timestamp : Q)
    (el : TextViewport.Element) (last : option Q) (acc : Q) (w : Z) :
  TextViewport.isPlaying p = true ->
  Math_floor (acc + TextViewport.pxPerSecOf (TextViewport.speed p)
                      (TextViewport.fontSizePx p)
                    * TextViewport.deltaSecondsOf timestamp last) = w ->
  w <> 0%Z ->
  let v := {| TextViewport.scrollContainerRef := Some el;
              TextViewport.lastTimestampRef := last;
              TextViewport.scrollAccumulatorRef := acc |} in
  let el' := TextViewport.scrollBy (inject_Z w) el in
  let v' := {| TextViewport.scrollContainerRef := Some el';
               TextViewport.lastTimestampRef := Some timestamp;
               TextViewport.scrollAccumulatorRef :=
                 acc + TextViewport.pxPerSecOf (TextViewport.speed p)
                         (TextViewport.fontSizePx p)
                       * TextViewport.deltaSecondsOf timestamp last
                 - inject_Z w |} in
  TextViewport.tick p timestamp v
  = (v', TextViewport.notifyScroll v'
         ++ (if Qle_bool (TextViewport.scrollHeight el' - TextViewport.clientHeight el'
                          - TextViewport.DEAD_BAND) (TextViewport.scrollTop el')
             then [TextViewport.onReachEnd] else [])).
Proof.
  intros Hplay Hfloor Hw v el' v'. unfold TextViewport.tick.
  rewrite Hplay. cbn [negb TextViewport.scrollContainerRef v
                      TextViewport.lastTimestampRef TextViewport.scrollAccumulatorRef].
  rewrite Hfloor.
  apply Z.eqb_neq in Hw. rewrite Hw. reflexivity.
Qed.

(** C2.  On a playing viewport whose stored timestamp is 1000ms, a frame
    stamped 900ms gives [tick] a negative interval; at speed 20 and a 72px
    font the scroll delta is negative and the offset goes back from 500 to
    460.  The interval is not clamped at 0. *)
Theorem tick_scrolls_back_on_earlier_timestamp :
  let v := {| TextViewport.scrollContainerRef :=
                Some {| TextViewport.scrollTop := 500;
                        TextViewport.scrollHeight := 1000;
                        TextViewport.clientHeight := 200 |};
              TextViewport.lastTimestampRef := Some 1000;
              TextViewport.scrollAccumulatorRef := 0 |} in
  let p := {| TextViewport.isPlaying := true; TextViewport.speed := 20;
              TextViewport.fontSizePx := 72 |} in
  TextViewport.deltaSecondsOf 900 (TextViewport.lastTimestampRef v) == -0.1
  /\ Math_floor (TextViewport.pxPerSecOf 20 72
                 * TextViewport.deltaSecondsOf 900 (TextViewport.lastTimestampRef v))
     = (-40)%Z
  /\ TextViewport.offset (fst (TextViewport.tick p 900 v)) == 460
  /\ snd (TextViewport.tick p 900 v) = [TextViewport.onScrollChange 460 1000 200].
Proof. vm_compute. repeat split. Qed.

(** ** Callbacks into the store *)

Section Store.
Import App.

Variable r : Hooks.

(** The viewport's callbacks write [useState] values only. *)
Lemma dispatch_refs (s : Store) (e : TextViewport.Event) :
  textViewportRef (dispatch r s e) = textViewportRef s
  /\ timers (dispatch r s e) = timers s.
Proof. destruct e; split; reflexivity. Qed.

Lemma dispatch_all_refs (events : list TextViewport.Event) (s : Store) :
  textViewportRef (fold_left (dispatch r) events s) = textViewportRef s
  /\ timers (fold_left (dispatch r) events s) = timers s.
Proof.
  apply (fold_left_preserves
           (fun s' => textViewportRef s' = textViewportRef s
                      /\ timers s' = timers s)); [split; reflexivity|].
  intros s' e _ [Hv Ht]. destruct (dispatch_refs s' e) as [Ev Et].
  rewrite Ev, Et. split; assumption.
Qed.

(** None of them starts playback. *)
Lemma dispatch_all_halted (events : list TextViewport.Event) (s : Store) :
  isPlaying (state s) = false ->
  isPlaying (state (fold_left (dispatch r) events s)) = false.
Proof.
  intros Hs.
  apply (fold_left_preserves (fun s' => isPlaying (state s') = false));
    [exact Hs|].
  intros s' e _ H. destruct e; simpl; [exact H | exact H | reflexivity].
Qed.

(** ... nor changes the font size. *)
Lemma dispatch_all_fontSize (events : list TextViewport.Event) (s : Store) :
  fontSizePx (state (fold_left (dispatch r) events s)) = fontSizePx (state s).
Proof.
  apply (fold_left_preserves
           (fun s' => fontSizePx (state s') = fontSizePx (state s)));
    [reflexivity|].
  intros s' e _ H. destruct e; simpl; exact H.
Qed.

Lemma viewportCall_refs
    (f : TextViewport.Refs -> TextViewport.Refs * list TextViewport.Event)
    (s : Store) :
  textViewportRef (viewportCall r f s) = fst (f (textViewportRef s))
  /\ timers (viewportCall r f s) = timers s.
Proof.
  unfold viewportCall.
  exact (dispatch_all_refs (snd (f (textViewportRef s)))
           (withViewport (fst (f (textViewportRef s))) s)).
Qed.

Lemma viewportCall_halted
    (f : TextViewport.Refs -> TextViewport.Refs * list TextViewport.Event)
    (s : Store) :
  isPlaying (state s) = false -> isPlaying (state (viewportCall r f s)) = false.
Proof. intros H. unfold viewportCall. apply dispatch_all_halted. exact H. Qed.

(** [scrollToStart] leaves the offset at 0 and the two timing refs of the
    viewport as they were. *)
Lemma scrollToStart_refs (v : TextViewport.Refs) :
  TextViewport.offset (fst (TextViewport.scrollToStart v)) == 0
  /\ TextViewport.scrollAccumulatorRef (fst (TextViewport.scrollToStart v))
     = TextViewport.scrollAccumulatorRef v
  /\ TextViewport.lastTimestampRef (fst (TextViewport.scrollToStart v))
     = TextViewport.lastTimestampRef v.
Proof.
  unfold TextViewport.scrollToStart, TextViewport.offset, TextViewport.getScrollInfo.
  destruct (TextViewport.scrollContainerRef v) as [el|] eqn:Hel; simpl.
  - split; [|split; reflexivity].
    pose proof (scrollRange_nonneg el) as Hr.
    unfold clamp, Math_min, Math_max. simpl.
    destruct (Qle_bool 0 (TextViewport.scrollRange el)) eqn:E; [reflexivity|].
    apply Qle_bool_false in E. lra.
  - rewrite Hel. split; [reflexivity|split; reflexivity].
Qed.

Lemma handleGoToStart_viewport (s : Store) :
  textViewportRef (handleGoToStart r s)
  = fst (TextViewport.scrollToStart (textViewportRef s)).
Proof.
  unfold handleGoToStart.
  exact (proj1 (viewportCall_refs TextViewport.scrollToStart s)).
Qed.

Lemma handleGoToStart_fontSize (s : Store) :
  fontSizePx (state (handleGoToStart r s)) = fontSizePx (state s).
Proof.
  unfold handleGoToStart, viewportCall.
  exact (dispatch_all_fontSize
           (snd (TextViewport.scrollToStart (textViewportRef s)))
           (withViewport (fst (TextViewport.scrollToStart (textViewportRef s))) s)).
Qed.

End Store.

(** C4.  A playing viewport with 1000px of content in a 200px box stands at
    offset 799; a frame whose accumulated whole pixels are 2 moves it to 800,
    the end of the range.  The frame calls [onReachEnd] twice, once from the
    scroll notification and once from the boundary test of [tick] itself;
    playback is halted and the offset stays at 800. *)
Theorem end_of_content_frame (r : App.Hooks) (timestamp : Q) (s : App.Store) :
  App.isPlaying r = true ->
  TextViewport.scrollContainerRef (App.textViewportRef s)
  = Some {| TextViewport.scrollTop := 799; TextViewport.scrollHeight := 1000;
            TextViewport.clientHeight := 200 |} ->
  Math_floor
    (TextViewport.scrollAccumulatorRef (App.textViewportRef s)
     + TextViewport.pxPerSecOf (App.speed r) (App.fontSizePx r)
       * TextViewport.deltaSecondsOf timestamp
           (TextViewport.lastTimestampRef (App.textViewportRef s))) = 2%Z ->
  snd (TextViewport.tick (App.propsOf r) timestamp (App.textViewportRef s))
  = [TextViewport.onScrollChange 800 1000 200;
     TextViewport.onReachEnd; TextViewport.onReachEnd]
  /\ TextViewport.reachedEndSignals
       (snd (TextViewport.tick (App.propsOf r) timestamp (App.textViewportRef s)))
     = 2%nat
  /\ App.offset (App.tickCallback r timestamp s) = 800
  /\ App.isPlaying (App.state (App.tickCallback r timestamp s)) = false.
Proof.
  intros Hplay Hel Hfloor.
  destruct s as [h t [el last acc]]. simpl in Hel, Hfloor. subst el.
  unfold App.tickCallback, App.viewportCall, App.offset.
  cbn [App.textViewportRef].
  assert (Hp : TextViewport.isPlaying (App.propsOf r) = true) by exact Hplay.
  rewrite (tick_moved (App.propsOf r) timestamp _ last acc 2 Hp Hfloor)
    by discriminate.
  repeat split.
Qed.

Lemma end_of_content_frame_at_799 :
  let r := {| App.isPlaying := true; App.speed := 20; App.fontSizePx := 72;
              App.mirror := false; App.elapsedTime := 0;
              App.remainingTime := 0%R; App.progress := 0;
              App.containerHeight := 0 |} in
  let s := {| App.state := r; App.timers := App.initialTimers;
              App.textViewportRef :=
                {| TextViewport.scrollContainerRef :=
                     Some {| TextViewport.scrollTop := 799;
                             TextViewport.scrollHeight := 1000;
                             TextViewport.clientHeight := 200 |};
                   TextViewport.lastTimestampRef := Some 1000;
                   TextViewport.scrollAccumulatorRef := 0 |} |} in
  snd (TextViewport.tick (App.propsOf r) 1006 (App.textViewportRef s))
  = [TextViewport.onScrollChange 800 1000 200;
     TextViewport.onReachEnd; TextViewport.onReachEnd]
  /\ TextViewport.reachedEndSignals
       (snd (TextViewport.tick (App.propsOf r) 1006 (App.textViewportRef s)))
     = 2%nat
  /\ App.offset (App.tickCallback r 1006 s) = 800
  /\ App.isPlaying (App.state (App.tickCallback r 1006 s)) = false.
Proof.
  intros r s. apply (end_of_content_frame r 1006 s); reflexivity.
Defined.

(** That frame does not fire exactly one reached-end signal. *)
Lemma end_of_content_not_one_signal :
  let p := {| TextViewport.isPlaying := true; TextViewport.speed := 20;
              TextViewport.fontSizePx := 72 |} in
  let v := {| TextViewport.scrollContainerRef :=
                Some {| TextViewport.scrollTop := 799;
                        TextViewport.scrollHeight := 1000;
                        TextViewport.clientHeight := 200 |};
              TextViewport.lastTimestampRef := Some 1000;
              TextViewport.scrollAccumulatorRef := 0 |} in
  Math_floor (TextViewport.pxPerSecOf 20 72 * TextViewport.deltaSecondsOf 1006 (Some 1000))
  = 2%Z
  /\ TextViewport.offset (fst (TextViewport.tick p 1006 v)) = 800
  /\ TextViewport.reachedEndSignals (snd (TextViewport.tick p 1006 v)) <> 1%nat.
Proof. vm_compute. repeat split. discriminate. Qed.

(** ** Jump to start *)

(** C5.  [handleGoToStart] puts the offset at 0, stops playback and clears the
    elapsed timer (start time and accumulated paused duration).  The
    sub-pixel accumulator of the autoscroll loop is not zeroed: it is left as
    it was. *)
Theorem jump_to_start_resets_playback_and_timers (r : App.Hooks) (s : App.Store) :
  App.offset (App.handleGoToStart r s) == 0
  /\ App.isPlaying (App.state (App.handleGoToStart r s)) = false
  /\ App.startTimeRef (App.timers (App.handleGoToStart r s)) = None
  /\ App.pausedTimeRef (App.timers (App.handleGoToStart r s)) = 0
  /\ TextViewport.scrollAccumulatorRef (App.textViewportRef (App.handleGoToStart r s))
     = TextViewport.scrollAccumulatorRef (App.textViewportRef s).
Proof.
  destruct (scrollToStart_refs (App.textViewportRef s)) as (Hoff & Hacc & _).
  unfold App.offset. rewrite handleGoToStart_viewport.
  split; [exact Hoff|]. split; [reflexivity|]. split; [reflexivity|].
  split; [reflexivity | exact Hacc].
Qed.

(** All of this is still so after the scroll notification that the viewport's
    effect sends once the next render [r'] is committed. *)
Lemma jump_to_start_settled (r r' : App.Hooks) (s : App.Store) :
  let settled :=
    App.viewportCall r' TextViewport.scrollEffect (App.handleGoToStart r s) in
  App.offset settled == 0
  /\ App.isPlaying (App.state settled) = false
  /\ App.startTimeRef (App.timers settled) = None
  /\ App.pausedTimeRef (App.timers settled) = 0
  /\ TextViewport.scrollAccumulatorRef (App.textViewportRef settled)
     = TextViewport.scrollAccumulatorRef (App.textViewportRef s).
Proof.
  intros settled.
  destruct (viewportCall_refs r' TextViewport.scrollEffect (App.handleGoToStart r s))
    as [Hv Ht].
  assert (Heff : fst (TextViewport.scrollEffect
                        (App.textViewportRef (App.handleGoToStart r s)))
                 = App.textViewportRef (App.handleGoToStart r s)).
  { unfold TextViewport.scrollEffect.
    destruct (TextViewport.scrollContainerRef _); reflexivity. }
  destruct (scrollToStart_refs (App.textViewportRef s)) as (Hoff & Hacc & _).
  unfold App.offset, settled. rewrite Hv, Ht, Heff, handleGoToStart_viewport.
  split; [exact Hoff|]. split; [apply viewportCall_halted; reflexivity|].
  split; [reflexivity|]. split; [reflexivity | exact Hacc].
Qed.

(** The accumulator survives the jump. *)
Lemma jump_to_start_keeps_accumulator :
  let s := {| App.state := App.initialHooks; App.timers := App.initialTimers;
              App.textViewportRef :=
                {| TextViewport.scrollContainerRef :=
                     Some {| TextViewport.scrollTop := 300;
                             TextViewport.scrollHeight := 1000;
                             TextViewport.clientHeight := 200 |};
                   TextViewport.lastTimestampRef := Some 1000;
                   TextViewport.scrollAccumulatorRef := 0.5 |} |} in
  ~ (TextViewport.scrollAccumulatorRef
       (App.textViewportRef (App.handleGoToStart (App.state s) s)) == 0).
Proof.
  intros s. rewrite handleGoToStart_viewport. vm_compute. discriminate.
Qed.

(** ** Manual input and autoscroll in one frame *)


(** ** The speed curves *)

Section SpeedCurves.

Lemma linesPerSecOf_linear (speed : Q) :
  TextViewport.linesPerSecOf speed == 0.5 + 9.5 * ((speed - 1) * (1 # 49)).
Proof. unfold TextViewport.linesPerSecOf, Qdiv. reflexivity. Qed.

Lemma pxPerSecOf_monotone (speed1 speed2 fontSize : Q) :
  speed1 <= speed2 -> 0 <= fontSize ->
  TextViewport.pxPerSecOf speed1 fontSize <= TextViewport.pxPerSecOf speed2 fontSize.
Proof.
  intros Hs Hf. unfold TextViewport.pxPerSecOf, TextViewport.lineHeightPx.
  apply Qmult_le_compat_r.
  - rewrite !linesPerSecOf_linear. lra.
  - unfold TextViewport.LINE_HEIGHT_EM. nra.
Qed.

Open Scope R_scope.

Lemma Math_pow_nonneg (x y : R) : 0 <= Math_pow x y.
Proof.
  unfold Math_pow. destruct (Rle_dec x 0); [Lra.lra|].
  left. unfold Rpower. apply exp_pos.
Qed.

Lemma Math_pow_monotone (x1 x2 y : R) :
  0 <= y -> 0 <= x1 <= x2 -> Math_pow x1 y <= Math_pow x2 y.
Proof.
  intros Hy [H1 H12]. unfold Math_pow at 1.
  destruct (Rle_dec x1 0) as [Hle|Hgt]; [apply Math_pow_nonneg|].
  unfold Math_pow. destruct (Rle_dec x2 0); [Lra.lra|].
  apply Rle_Rpower_l; [exact Hy | Lra.lra].
Qed.

Lemma telemetryLinesPerSec_monotone (speed1 speed2 : R) :
  1 <= speed1 <= speed2 ->
  App.telemetryLinesPerSec speed1 <= App.telemetryLinesPerSec speed2.
Proof.
  intros [H1 H12]. unfold App.telemetryLinesPerSec.
  assert (Hpow : Math_pow ((speed1 - 1) / (50 - 1)) 1.2
                 <= Math_pow ((speed2 - 1) / (50 - 1)) 1.2).
  { apply Math_pow_monotone; [Lra.lra|].
    replace (50 - 1) with 49 by Lra.lra. Lra.lra. }
  Lra.lra.
Qed.

Lemma telemetryLinesPerSec_pos (speed : R) : 0 < App.telemetryLinesPerSec speed.
Proof.
  unfold App.telemetryLinesPerSec.
  pose proof (Math_pow_nonneg ((speed - 1) / (50 - 1)) 1.2). Lra.lra.
Qed.

Lemma telemetryPxPerSec_monotone (speed1 speed2 fontSize : R) :
  1 <= speed1 <= speed2 -> 0 <= fontSize ->
  App.telemetryPxPerSec speed1 fontSize <= App.telemetryPxPerSec speed2 fontSize.
Proof.
  intros Hs Hf. unfold App.telemetryPxPerSec.
  apply Rmult_le_compat_r; [Lra.lra|].
  apply telemetryLinesPerSec_monotone, Hs.
Qed.

Lemma Q2R_inject_Z (z : Z) : Q2R (inject_Z z) = IZR z.
Proof. unfold Q2R, inject_Z. simpl. field. Qed.

End SpeedCurves.

(** C8.  For speed levels 1 <= level1 <= level2 <= 50 and a positive font
    size (hence a positive line height, 1.3 times the font size), the linear
    curve of the autoscroll loop and the eased curve of the telemetry are both
    non-decreasing in the level; each is its lines-per-second value,
    0.5 + 9.5 t and 0.2 + 4.8 t^1.2 with t = (level - 1) / 49, times the line
    height. *)
Theorem speed_curves_monotone (level1 level2 : Z) (fontSize : Q) :
  (1 <= level1 <= level2)%Z -> (level2 <= 50)%Z -> 0 < fontSize ->
  TextViewport.pxPerSecOf (inject_Z level1) fontSize
  <= TextViewport.pxPerSecOf (inject_Z level2) fontSize
  /\ (App.telemetryPxPerSec (Q2R (inject_Z level1)) (Q2R fontSize)
      <= App.telemetryPxPerSec (Q2R (inject_Z level2)) (Q2R fontSize))%R
  /\ TextViewport.pxPerSecOf (inject_Z level1) fontSize
     == (0.5 + 9.5 * ((inject_Z level1 - 1) / 49)) * (fontSize * 1.3)
  /\ App.telemetryPxPerSec (Q2R (inject_Z level1)) (Q2R fontSize)
     = ((0.2 + 4.8 * Math_pow ((IZR level1 - 1) / 49) 1.2)
        * (Q2R fontSize * 1.3))%R.
Proof.
  intros [H1 H12] H2 Hf. split; [|split; [|split]].
  - apply pxPerSecOf_monotone; [|Lqa.lra].
    rewrite <- Zle_Qle. exact H12.
  - apply telemetryPxPerSec_monotone.
    + rewrite !Q2R_inject_Z. split; apply IZR_le; [exact H1 | exact H12].
    + replace 0%R with (Q2R 0) by (unfold Q2R; simpl; Lra.lra).
      apply Qle_Rle. Lqa.lra.
  - reflexivity.
  - rewrite Q2R_inject_Z. unfold App.telemetryPxPerSec, App.telemetryLinesPerSec.
    replace (50 - 1)%R with 49%R by Lra.lra. reflexivity.
Qed.

Lemma speed_curves_monotone_levels_20_21 :
  TextViewport.pxPerSecOf (inject_Z 20) 72 <= TextViewport.pxPerSecOf (inject_Z 21) 72
  /\ (App.telemetryPxPerSec (Q2R (inject_Z 20)) (Q2R 72)
      <= App.telemetryPxPerSec (Q2R (inject_Z 21)) (Q2R 72))%R
  /\ TextViewport.pxPerSecOf (inject_Z 20) 72
     == (0.5 + 9.5 * ((inject_Z 20 - 1) / 49)) * (72 * 1.3)
  /\ App.telemetryPxPerSec (Q2R (inject_Z 20)) (Q2R 72)
     = ((0.2 + 4.8 * Math_pow ((IZR 20 - 1) / 49) 1.2) * (Q2R 72 * 1.3))%R.
Proof.
  apply (speed_curves_monotone 20 21 72).
  - lia.
  - lia.
  - reflexivity.
Defined.

(** * Further properties of the code *)

(** ** Rounding and clamping *)

Lemma Qfloor_between (x : Q) (k : Z) :
  inject_Z k <= x -> x < inject_Z (k + 1) -> Qfloor x = k.
Proof.
  intros Hlo Hhi.
  pose proof (Qfloor_le x) as Hf1. pose proof (Qlt_floor x) as Hf2.
  assert (H1 : (Qfloor x < k + 1)%Z).
  { rewrite Zlt_Qlt. apply Qle_lt_trans with x; assumption. }
  assert (H2 : (k < Qfloor x + 1)%Z).
  { rewrite Zlt_Qlt. apply Qle_lt_trans with x; assumption. }
  lia.
Qed.

Lemma Math_round_integer (x : Q) (k : Z) : x == inject_Z k -> Math_round x = k.
Proof.
  intros Hx. unfold Math_round. apply Qfloor_between.
  - rewrite Hx. generalize (inject_Z k). intros q. Lqa.lra.
  - rewrite Hx, inject_Z_plus. change (inject_Z 1) with 1.
    generalize (inject_Z k). intros q. Lqa.lra.
Qed.

Lemma Math_max_cases (x y : Q) :
  (x <= y /\ Math_max x y = y) \/ (y < x /\ Math_max x y = x).
Proof.
  unfold Math_max. destruct (Qle_bool x y) eqn:E.
  - left. apply Qle_bool_iff in E. split; [exact E | reflexivity].
  - right. apply Qle_bool_false in E. split; [exact E | reflexivity].
Qed.

Lemma Math_min_cases (x y : Q) :
  (x <= y /\ Math_min x y = x) \/ (y < x /\ Math_min x y = y).
Proof.
  unfold Math_min. destruct (Qle_bool x y) eqn:E.
  - left. apply Qle_bool_iff in E. split; [exact E | reflexivity].
  - right. apply Qle_bool_false in E. split; [exact E | reflexivity].
Qed.

Lemma clamp_fixed (value lo hi : Q) : lo <= value <= hi -> clamp value lo hi == value.
Proof.
  intros [H1 H2]. unfold clamp.
  destruct (Math_max_cases value lo) as [[Ha ->]|[Ha ->]];
    destruct (Math_min_cases lo hi) as [[Hb Eb]|[Hb Eb]];
    try (destruct (Math_min_cases value hi) as [[Hc ->]|[Hc ->]]);
    try rewrite Eb; Lqa.lra.
Qed.

Lemma clamp_above (value lo hi : Q) : hi <= value -> lo <= hi -> clamp value lo hi == hi.
Proof.
  intros H1 H2. unfold clamp.
  destruct (Math_max_cases value lo) as [[Ha ->]|[Ha ->]].
  - destruct (Math_min_cases lo hi) as [[Hb ->]|[Hb ->]]; Lqa.lra.
  - destruct (Math_min_cases value hi) as [[Hb ->]|[Hb ->]]; Lqa.lra.
Qed.

Lemma clamp_below (value lo hi : Q) : value <= lo -> lo <= hi -> clamp value lo hi == lo.
Proof.
  intros H1 H2. unfold clamp.
  destruct (Math_max_cases value lo) as [[Ha ->]|[Ha ->]].
  - destruct (Math_min_cases lo hi) as [[Hb ->]|[Hb ->]]; Lqa.lra.
  - destruct (Math_min_cases value hi) as [[Hb ->]|[Hb ->]]; Lqa.lra.
Qed.

Lemma clamp_inverted (value lo hi : Q) : hi < lo -> clamp value lo hi = hi.
Proof.
  intros H. unfold clamp.
  destruct (Math_max_lub value lo) as [_ Hlo].
  destruct (Math_min_cases (Math_max value lo) hi) as [[Ha _]|[_ ->]];
    [Lqa.lra | reflexivity].
Qed.

(** X1.  [clamp] with bounds in order returns a value between them, and
    clamping again changes nothing. *)
Theorem clamp_idempotent_in_range (value lo hi : Q) :
  lo <= hi ->
  lo <= clamp value lo hi <= hi
  /\ clamp (clamp value lo hi) lo hi == clamp value lo hi.
Proof.
  intros H. pose proof (clamp_range value lo hi H) as Hr.
  split; [exact Hr | apply clamp_fixed, Hr].
Qed.

Lemma clamp_idempotent_in_range_speed :
  1 <= clamp 63 1 50 <= 50 /\ clamp (clamp 63 1 50) 1 50 == clamp 63 1 50.
Proof. apply (clamp_idempotent_in_range 63 1 50). discriminate. Defined.

(** ** Speed and font size *)

Lemma clamp_integer (z : Z) (lo hi : Z) :
  exists k, clamp (inject_Z z) (inject_Z lo) (inject_Z hi) = inject_Z k.
Proof.
  unfold clamp.
  destruct (Math_max_cases (inject_Z z) (inject_Z lo)) as [[_ ->]|[_ ->]].
  - destruct (Math_min_cases (inject_Z lo) (inject_Z hi)) as [[_ ->]|[_ ->]];
      eexists; reflexivity.
  - destruct (Math_min_cases (inject_Z z) (inject_Z hi)) as [[_ ->]|[_ ->]];
      eexists; reflexivity.
Qed.

(** X2.  Whatever value it is given, [handleSpeedChange] stores a whole
    speed between 1 and 50, and touches nothing but the speed. *)
Theorem handleSpeedChange_level (value : Q) (s : App.Store) :
  1 <= App.speed (App.state (App.handleSpeedChange value s)) <= 50
  /\ (exists level : Z,
        App.speed (App.state (App.handleSpeedChange value s)) = inject_Z level)
  /\ App.isPlaying (App.state (App.handleSpeedChange value s))
     = App.isPlaying (App.state s)
  /\ App.fontSizePx (App.state (App.handleSpeedChange value s))
     = App.fontSizePx (App.state s)
  /\ App.timers (App.handleSpeedChange value s) = App.timers s
  /\ App.textViewportRef (App.handleSpeedChange value s) = App.textViewportRef s.
Proof.
  unfold App.handleSpeedChange. cbn [App.setSpeed App.withState App.state App.speed
    App.isPlaying App.fontSizePx App.timers App.textViewportRef].
  split; [|split; [|repeat split]].
  - apply (clamp_range _ App.MIN_SPEED App.MAX_SPEED). discriminate.
  - apply (clamp_integer (Math_round value) 1 50).
Qed.

Lemma gamepad_speed_step (r : App.Hooks) (now : Q) (s : App.Store) (level : Z) :
  App.speed r == inject_Z level ->
  App.speed (App.state (App.gamepadControls r now s UseGamepad.onSpeedIncrease))
  = clamp (inject_Z (level + 1)) 1 50
  /\ App.speed (App.state (App.gamepadControls r now s UseGamepad.onSpeedDecrease))
     = clamp (inject_Z (level - 1)) 1 50.
Proof.
  intros Hl. cbn [App.gamepadControls]. unfold App.handleSpeedChange.
  cbn [App.setSpeed App.withState App.state App.speed].
  rewrite (Math_round_integer (App.speed r + 1) (level + 1))
    by (rewrite Hl, inject_Z_plus; reflexivity).
  rewrite (Math_round_integer (App.speed r - 1) (level - 1))
    by (rewrite Hl; unfold Z.sub; rewrite inject_Z_plus, inject_Z_opp; reflexivity).
  split; reflexivity.
Qed.

(** X3.  From a whole speed level between 1 and 50, the gamepad's speed
    commands move the level by one and stop at the ends: up from 50 stays at
    50, down from 1 stays at 1. *)
Theorem gamepad_speed_saturates (r : App.Hooks) (now : Q) (s : App.Store) (level : Z) :
  App.speed r == inject_Z level -> (1 <= level <= 50)%Z ->
  App.speed (App.state (App.gamepadControls r now s UseGamepad.onSpeedIncrease))
  == inject_Z (Z.min (level + 1) 50)
  /\ App.speed (App.state (App.gamepadControls r now s UseGamepad.onSpeedDecrease))
     == inject_Z (Z.max (level - 1) 1).
Proof.
  intros Hl Hrange.
  destruct (gamepad_speed_step r now s level Hl) as [-> ->].
  split.
  - destruct (Z.le_gt_cases 50 (level + 1)) as [H|H].
    + rewrite Z.min_r by lia. apply clamp_above; [|discriminate].
      rewrite <- Zle_Qle. exact H.
    + rewrite Z.min_l by lia. apply clamp_fixed.
      split; [change 1 with (inject_Z 1) | change 50 with (inject_Z 50)];
        rewrite <- Zle_Qle; lia.
  - destruct (Z.le_gt_cases (level - 1) 1) as [H|H].
    + rewrite Z.max_r by lia. apply clamp_below; [|discriminate].
      change 1 with (inject_Z 1). rewrite <- Zle_Qle. exact H.
    + rewrite Z.max_l by lia. apply clamp_fixed.
      split; [change 1 with (inject_Z 1) | change 50 with (inject_Z 50)];
        rewrite <- Zle_Qle; lia.
Qed.

Lemma gamepad_speed_saturates_at_50 :
  let r := {| App.isPlaying := false; App.speed := 50; App.fontSizePx := 72;
              App.mirror := false; App.elapsedTime := 0;
              App.remainingTime := 0%R; App.progress := 0;
              App.containerHeight := 0 |} in
  let s := {| App.state := r; App.timers := App.initialTimers;
              App.textViewportRef :=
                {| TextViewport.scrollContainerRef := None;
                   TextViewport.lastTimestampRef := None;
                   TextViewport.scrollAccumulatorRef := 0 |} |} in
  App.speed (App.state (App.gamepadControls r 0 s UseGamepad.onSpeedIncrease))
  == inject_Z (Z.min (50 + 1) 50)
  /\ App.speed (App.state (App.gamepadControls r 0 s UseGamepad.onSpeedDecrease))
     == inject_Z (Z.max (50 - 1) 1).
Proof.
  intros r s. apply (gamepad_speed_saturates r 0 s 50).
  - reflexivity.
  - lia.
Defined.

Lemma maxFontSize_floor (r : App.Hooks) :
  0 < App.containerHeight r ->
  App.maxFontSize r = inject_Z (Qfloor (App.containerHeight r / 3))
  /\ 3 * App.maxFontSize r <= App.containerHeight r.
Proof.
  intros H. unfold App.maxFontSize.
  apply Qltb_true in H. rewrite H. split; [reflexivity|].
  unfold Math_floor.
  pose proof (Qfloor_le (App.containerHeight r / 3)) as Hf.
  assert (E : App.containerHeight r / 3 == App.containerHeight r * (1 # 3))
    by (unfold Qdiv; reflexivity).
  rewrite E in Hf at 2.
  set (m := inject_Z (Qfloor (App.containerHeight r / 3))) in *. Lqa.lra.
Qed.

(** X4.  In a container at least 72px high, [handleFontSizeChange] stores a
    font size between 24 and [maxFontSize], so that three lines of that size
    fit into the container. *)
Theorem handleFontSizeChange_fits (r : App.Hooks) (value : Q) (s : App.Store) :
  72 <= App.containerHeight r ->
  24 <= App.fontSizePx (App.state (App.handleFontSizeChange r value s))
     <= App.maxFontSize r
  /\ 3 * App.fontSizePx (App.state (App.handleFontSizeChange r value s))
     <= App.containerHeight r.
Proof.
  intros H.
  assert (Hpos : 0 < App.containerHeight r) by Lqa.lra.
  destruct (maxFontSize_floor r Hpos) as [Hmax Hfit].
  assert (Hmin : App.MIN_FONT_SIZE <= App.maxFontSize r).
  { rewrite Hmax. unfold App.MIN_FONT_SIZE. change 24 with (inject_Z 24).
    rewrite <- Zle_Qle. rewrite <- (Qfloor_Z 24). apply Qfloor_resp_le.
    apply Qle_shift_div_l; [reflexivity|].
    change (inject_Z 24 * 3) with 72. exact H. }
  unfold App.handleFontSizeChange.
  cbn [App.setFontSizePx App.withState App.state App.fontSizePx].
  pose proof (clamp_range (inject_Z (Math_round value)) _ _ Hmin) as Hr.
  unfold App.MIN_FONT_SIZE in Hr.
  set (f := clamp _ _ _) in *. split; [exact Hr | Lqa.lra].
Qed.

Lemma handleFontSizeChange_fits_in_300 :
  let r := {| App.isPlaying := false; App.speed := 20; App.fontSizePx := 72;
              App.mirror := false; App.elapsedTime := 0;
              App.remainingTime := 0%R; App.progress := 0;
              App.containerHeight := 300 |} in
  let s := {| App.state := r; App.timers := App.initialTimers;
              App.textViewportRef :=
                {| TextViewport.scrollContainerRef := None;
                   TextViewport.lastTimestampRef := None;
                   TextViewport.scrollAccumulatorRef := 0 |} |} in
  24 <= App.fontSizePx (App.state (App.handleFontSizeChange r 500 s))
     <= App.maxFontSize r
  /\ 3 * App.fontSizePx (App.state (App.handleFontSizeChange r 500 s))
     <= App.containerHeight r.
Proof.
  intros r s. apply (handleFontSizeChange_fits r 500 s). discriminate.
Defined.

(** X5.  In a container whose height is positive but below 72px the maximum
    font size falls under the minimum of 24, and [handleFontSizeChange] then
    stores that maximum whatever value it is given. *)
Theorem handleFontSizeChange_small_container (r : App.Hooks) (value : Q)
    (s : App.Store) :
  0 < App.containerHeight r -> App.containerHeight r < 72 ->
  App.maxFontSize r < 24
  /\ App.fontSizePx (App.state (App.handleFontSizeChange r value s))
     = App.maxFontSize r.
Proof.
  intros Hpos Hsmall.
  destruct (maxFontSize_floor r Hpos) as [_ Hfit].
  assert (Hlt : App.maxFontSize r < 24) by Lqa.lra.
  split; [exact Hlt|].
  unfold App.handleFontSizeChange.
  cbn [App.setFontSizePx App.withState App.state App.fontSizePx].
  apply clamp_inverted. exact Hlt.
Qed.

Lemma handleFontSizeChange_small_container_60 :
  let r := {| App.isPlaying := false; App.speed := 20; App.fontSizePx := 72;
              App.mirror := false; App.elapsedTime := 0;
              App.remainingTime := 0%R; App.progress := 0;
              App.containerHeight := 60 |} in
  let s := {| App.state := r; App.timers := App.initialTimers;
              App.textViewportRef :=
                {| TextViewport.scrollContainerRef := None;
                   TextViewport.lastTimestampRef := None;
                   TextViewport.scrollAccumulatorRef := 0 |} |} in
  App.maxFontSize r < 24
  /\ App.fontSizePx (App.state (App.handleFontSizeChange r 48 s))
     = App.maxFontSize r.
Proof.
  intros r s. apply (handleFontSizeChange_small_container r 48 s); reflexivity.
Defined.

(** ** Telemetry *)

Lemma Q2R_nonneg (x : Q) : 0 <= x -> (0 <= Q2R x)%R.
Proof.
  intros H. replace 0%R with (Q2R 0) by (unfold Q2R; simpl; Lra.lra).
  apply Qle_Rle, H.
Qed.

(** X6.  Whatever the scroll notification reports, [handleScrollChange]
    stores a progress between 0 and 100 and a remaining time that is not
    negative; a content that does not overflow is treated as 1px of range, so
    nothing is divided by zero. *)
Theorem handleScrollChange_bounds (r : App.Hooks) (top height client : Q)
    (s : App.Store) :
  0 <= App.progress (App.state (App.handleScrollChange r top height client s)) <= 100
  /\ (0 <= App.remainingTime
             (App.state (App.handleScrollChange r top height client s)))%R
  /\ 1 <= Math_max (height - client) 1.
Proof.
  unfold App.handleScrollChange.
  cbn [App.setRemainingTime App.setProgress App.withState App.state
       App.progress App.remainingTime].
  split; [|split].
  - apply clamp_range. discriminate.
  - destruct (Rlt_dec 0 _) as [Hpos|_]; [|Lra.lra].
    apply Rmult_le_pos.
    + apply Q2R_nonneg, Math_max_lub.
    + left. apply Rinv_0_lt_compat, Hpos.
  - apply Math_max_lub.
Qed.

(** X7.  When the reported offset has reached the scrollable range (of at
    least 1px), the stored progress is 100 and the remaining time is 0. *)
Theorem handleScrollChange_at_end (r : App.Hooks) (top height client : Q)
    (s : App.Store) :
  1 <= height - client -> height - client <= top ->
  App.progress (App.state (App.handleScrollChange r top height client s)) == 100
  /\ App.remainingTime (App.state (App.handleScrollChange r top height client s))
     = 0%R.
Proof.
  intros Hrange Htop. unfold App.handleScrollChange.
  cbn [App.setRemainingTime App.setProgress App.withState App.state
       App.progress App.remainingTime].
  destruct (Math_max_cases (height - client) 1) as [[Ha Ea]|[Ha Ea]]; rewrite Ea.
  - split.
    + apply clamp_above; [|discriminate].
      assert (E : top / 1 * 100 == top * 100) by field. rewrite E. Lqa.lra.
    + destruct (Math_max_cases (1 - top) 0) as [[Hb ->]|[Hb _]]; [|Lqa.lra].
      destruct (Rlt_dec 0 _); [|reflexivity].
      unfold Q2R. simpl. unfold Rdiv. rewrite !Rmult_0_l. reflexivity.
  - split.
    + apply clamp_above; [|discriminate].
      assert (H1 : 1 <= top / (height - client))
        by (apply Qle_shift_div_l; Lqa.lra).
      set (q := top / (height - client)) in *. Lqa.lra.
    + destruct (Math_max_cases (height - client - top) 0) as [[Hb ->]|[Hb _]];
        [|Lqa.lra].
      destruct (Rlt_dec 0 _); [|reflexivity].
      unfold Q2R. simpl. unfold Rdiv. rewrite !Rmult_0_l. reflexivity.
Qed.

Lemma handleScrollChange_at_end_800 :
  let r := App.initialHooks in
  let s := {| App.state := r; App.timers := App.initialTimers;
              App.textViewportRef :=
                {| TextViewport.scrollContainerRef := None;
                   TextViewport.lastTimestampRef := None;
                   TextViewport.scrollAccumulatorRef := 0 |} |} in
  App.progress (App.state (App.handleScrollChange r 800 1000 200 s)) == 100
  /\ App.remainingTime (App.state (App.handleScrollChange r 800 1000 200 s)) = 0%R.
Proof.
  intros r s. apply (handleScrollChange_at_end r 800 1000 200 s); discriminate.
Defined.

(** ** The elapsed timer *)

Lemma truthy_Some (x : Q) : ~ x == 0 -> App.truthy (Some x) = true.
Proof.
  intros H. unfold App.truthy. apply negb_true_iff.
  destruct (Qeq_bool x 0) eqn:E; [|reflexivity].
  apply Qeq_bool_iff in E. contradiction.
Qed.

(** X8.  A pause at [t1] followed by a resume at [t2] adds the length of the
    pause to the paused duration and clears the pause start, so the elapsed
    time at the resume is the elapsed time at the pause: the timer does not
    count the pause. *)
Theorem pause_then_resume_keeps_elapsed
    (r : App.Hooks) (t0 t1 t2 : Q) (s : App.Store) :
  App.isPlaying r = true ->
  App.startTimeRef (App.timers s) = Some t0 -> ~ t0 == 0 -> ~ t1 == 0 ->
  let paused := App.handlePause r t1 s in
  let resumed := App.handleStart t2 paused in
  App.isPlaying (App.state paused) = false
  /\ App.pauseStartRef (App.timers paused) = Some t1
  /\ App.isPlaying (App.state resumed) = true
  /\ App.startTimeRef (App.timers resumed) = Some t0
  /\ App.pauseStartRef (App.timers resumed) = None
  /\ App.pausedTimeRef (App.timers resumed)
     == App.pausedTimeRef (App.timers s) + (t2 - t1)
  /\ App.elapsedSecondsOf t2 (App.timers resumed)
     == App.elapsedSecondsOf t1 (App.timers s).
Proof.
  intros Hplay Hstart Ht0 Ht1 paused resumed.
  unfold resumed, paused, App.handlePause, App.handleStart. rewrite Hplay.
  cbn [App.setIsPlaying App.withTimers App.withState App.timers App.state
       App.isPlaying App.startTimeRef App.pausedTimeRef App.pauseStartRef].
  rewrite Hstart, (truthy_Some t0 Ht0).
  cbn [negb App.pauseStartRef App.startTimeRef App.pausedTimeRef].
  rewrite (truthy_Some t1 Ht1).
  cbn [App.pauseStartRef App.startTimeRef App.pausedTimeRef nullish].
  repeat (split; [reflexivity|]).
  unfold App.elapsedSecondsOf.
  cbn [App.pauseStartRef App.startTimeRef App.pausedTimeRef nullish].
  rewrite Hstart. cbn [nullish]. field.
Qed.

Lemma pause_then_resume_keeps_elapsed_example :
  let r := {| App.isPlaying := true; App.speed := 20; App.fontSizePx := 72;
              App.mirror := false; App.elapsedTime := 0;
              App.remainingTime := 0%R; App.progress := 0;
              App.containerHeight := 0 |} in
  let s := {| App.state := r;
              App.timers := {| App.startTimeRef := Some 1000;
                               App.pausedTimeRef := 250;
                               App.pauseStartRef := None |};
              App.textViewportRef :=
                {| TextViewport.scrollContainerRef := None;
                   TextViewport.lastTimestampRef := None;
                   TextViewport.scrollAccumulatorRef := 0 |} |} in
  let paused := App.handlePause r 5000 s in
  let resumed := App.handleStart 9000 paused in
  App.isPlaying (App.state paused) = false
  /\ App.pauseStartRef (App.timers paused) = Some 5000
  /\ App.isPlaying (App.state resumed) = true
  /\ App.startTimeRef (App.timers resumed) = Some 1000
  /\ App.pauseStartRef (App.timers resumed) = None
  /\ App.pausedTimeRef (App.timers resumed)
     == App.pausedTimeRef (App.timers s) + (9000 - 5000)
  /\ App.elapsedSecondsOf 9000 (App.timers resumed)
     == App.elapsedSecondsOf 5000 (App.timers s).
Proof.
  intros r s.
  apply (pause_then_resume_keeps_elapsed r 1000 5000 9000 s);
    try reflexivity; discriminate.
Defined.

(** X9.  A start after a reset takes the moment of the start as start time
    with no paused duration, and the interval callback then shows the time
    since that moment. *)
Theorem start_after_reset_counts_from_start (now later : Q) (s : App.Store) :
  ~ now == 0 ->
  let started := App.handleStart now (App.resetTimers s) in
  App.isPlaying (App.state started) = true
  /\ App.timers started
     = {| App.startTimeRef := Some now; App.pausedTimeRef := 0;
          App.pauseStartRef := None |}
  /\ App.elapsedTime (App.state (App.timerCallback later started))
     == (later - now) / 1000.
Proof.
  intros Hnow started. unfold started, App.handleStart, App.resetTimers.
  cbn [App.setIsPlaying App.withTimers App.withState App.timers App.state
       App.isPlaying App.startTimeRef App.pausedTimeRef App.pauseStartRef
       App.truthy negb].
  split; [reflexivity|]. split; [reflexivity|].
  unfold App.timerCallback.
  cbn [App.setIsPlaying App.withTimers App.withState App.timers App.state
       App.startTimeRef].
  rewrite (truthy_Some now Hnow).
  cbn [negb App.setElapsedTime App.withState App.state App.elapsedTime].
  unfold App.elapsedSecondsOf.
  cbn [App.startTimeRef App.pausedTimeRef nullish]. field.
Qed.

Lemma start_after_reset_counts_from_start_example :
  let s := {| App.state := App.initialHooks; App.timers := App.initialTimers;
              App.textViewportRef :=
                {| TextViewport.scrollContainerRef := None;
                   TextViewport.lastTimestampRef := None;
                   TextViewport.scrollAccumulatorRef := 0 |} |} in
  let started := App.handleStart 4000 (App.resetTimers s) in
  App.isPlaying (App.state started) = true
  /\ App.timers started
     = {| App.startTimeRef := Some 4000; App.pausedTimeRef := 0;
          App.pauseStartRef := None |}
  /\ App.elapsedTime (App.state (App.timerCallback 6500 started))
     == (6500 - 4000) / 1000.
Proof.
  intros s. apply (start_after_reset_counts_from_start 4000 6500 s). discriminate.
Defined.

(** ** Jumps *)

Lemma dispatch_all_ends_halted (r : App.Hooks) (events : list TextViewport.Event)
    (s : App.Store) :
  App.isPlaying
    (App.state (fold_left (App.dispatch r) (events ++ [TextViewport.onReachEnd]) s))
  = false.
Proof. rewrite fold_left_app. reflexivity. Qed.

Lemma scrollToEnd_at_range (el : TextViewport.Element) :
  0 <= TextViewport.clientHeight el ->
  TextViewport.scrollTop (TextViewport.scrollTo (TextViewport.scrollHeight el) el)
  == TextViewport.scrollRange el.
Proof.
  intros Hc. unfold TextViewport.scrollTo. cbn [TextViewport.scrollTop].
  unfold TextViewport.scrollRange, clamp.
  set (h := TextViewport.scrollHeight el) in *.
  set (c := TextViewport.clientHeight el) in *.
  destruct (Math_max_cases h 0) as [[Ha ->]|[Ha ->]];
    destruct (Math_max_cases (h - c) 0) as [[Hb ->]|[Hb ->]];
    match goal with
    | |- Math_min ?x ?y == _ =>
        destruct (Math_min_cases x y) as [[Hm ->]|[Hm ->]]
    end; Lqa.lra.
Qed.

(** X10.  With a scroll container whose height is not negative, the jump to
    the end puts the offset at the end of the scrollable range and, through
    the scroll notification, stops playback; the timer refs are not touched. *)
Theorem jump_to_end_halts_playback (r : App.Hooks) (s : App.Store)
    (el : TextViewport.Element) :
  TextViewport.scrollContainerRef (App.textViewportRef s) = Some el ->
  0 <= TextViewport.clientHeight el ->
  App.offset (App.handleGoToEnd r s) == TextViewport.scrollRange el
  /\ App.isPlaying (App.state (App.handleGoToEnd r s)) = false
  /\ App.timers (App.handleGoToEnd r s) = App.timers s.
Proof.
  intros Hel Hc.
  pose proof (scrollToEnd_at_range el Hc) as Htop.
  unfold App.handleGoToEnd.
  destruct (viewportCall_refs r TextViewport.scrollToEnd s) as [Hv Ht].
  split; [|split; [|exact Ht]].
  - unfold App.offset. rewrite Hv. unfold TextViewport.scrollToEnd.
    rewrite Hel. exact Htop.
  - unfold App.viewportCall, TextViewport.scrollToEnd. rewrite Hel.
    cbn [fst snd]. unfold TextViewport.notifyScroll.
    cbn [TextViewport.getScrollInfo TextViewport.withElement
         TextViewport.scrollContainerRef].
    set (el' := TextViewport.scrollTo (TextViewport.scrollHeight el) el) in *.
    assert (Hend : Qle_bool (TextViewport.scrollHeight el' - TextViewport.clientHeight el'
                             - TextViewport.scrollTop el') TextViewport.DEAD_BAND
                   = true).
    { apply Qle_bool_iff. rewrite Htop.
      change (TextViewport.scrollHeight el') with (TextViewport.scrollHeight el).
      change (TextViewport.clientHeight el') with (TextViewport.clientHeight el).
      unfold TextViewport.scrollRange, TextViewport.DEAD_BAND.
      destruct (Math_max_lub (TextViewport.scrollHeight el - TextViewport.clientHeight el) 0)
        as [H1 _].
      set (m := Math_max _ 0) in *. Lqa.lra. }
    rewrite Hend.
    exact (dispatch_all_ends_halted r [TextViewport.onScrollChange _ _ _] _).
Qed.

Lemma jump_to_end_halts_playback_example :
  let r := {| App.isPlaying := true; App.speed := 20; App.fontSizePx := 72;
              App.mirror := false; App.elapsedTime := 0;
              App.remainingTime := 0%R; App.progress := 0;
              App.containerHeight := 0 |} in
  let el := {| TextViewport.scrollTop := 300; TextViewport.scrollHeight := 1000;
               TextViewport.clientHeight := 200 |} in
  let s := {| App.state := r;
              App.timers := {| App.startTimeRef := Some 1000;
                               App.pausedTimeRef := 0;
                               App.pauseStartRef := None |};
              App.textViewportRef :=
                {| TextViewport.scrollContainerRef := Some el;
                   TextViewport.lastTimestampRef := Some 1000;
                   TextViewport.scrollAccumulatorRef := 0 |} |} in
  App.offset (App.handleGoToEnd r s) == TextViewport.scrollRange el
  /\ App.isPlaying (App.state (App.handleGoToEnd r s)) = false
  /\ App.timers (App.handleGoToEnd r s) = App.timers s.
Proof.
  intros r el s. apply (jump_to_end_halts_playback r s el).
  - reflexivity.
  - discriminate.
Defined.

Lemma scrollTo_0 (el : TextViewport.Element) :
  TextViewport.scrollTo 0 el
  = {| TextViewport.scrollTop := 0;
       TextViewport.scrollHeight := TextViewport.scrollHeight el;
       TextViewport.clientHeight := TextViewport.clientHeight el |}.
Proof.
  unfold TextViewport.scrollTo. f_equal.
  pose proof (scrollRange_nonneg el) as Hr.
  unfold clamp. change (Math_max 0 0) with 0.
  destruct (Math_min_cases 0 (TextViewport.scrollRange el)) as [[_ ->]|[H _]];
    [reflexivity | Lqa.lra].
Qed.

Lemma handleGoToStart_value (r : App.Hooks) (s : App.Store) :
  App.handleGoToStart r s
  = {| App.state :=
         {| App.isPlaying := false; App.speed := App.speed (App.state s);
            App.fontSizePx := App.fontSizePx (App.state s);
            App.mirror := App.mirror (App.state s);
            App.elapsedTime := 0; App.remainingTime := 0%R; App.progress := 0;
            App.containerHeight := App.containerHeight (App.state s) |};
       App.timers := {| App.startTimeRef := None; App.pausedTimeRef := 0;
                        App.pauseStartRef := None |};
       App.textViewportRef := fst (TextViewport.scrollToStart (App.textViewportRef s)) |}.
Proof.
  unfold App.handleGoToStart, App.viewportCall, TextViewport.scrollToStart.
  destruct s as [h t [[el|] last acc]]; cbn [App.textViewportRef
    TextViewport.scrollContainerRef fst snd fold_left].
  - unfold TextViewport.notifyScroll.
    destruct (Qle_bool _ TextViewport.DEAD_BAND); reflexivity.
  - reflexivity.
Qed.

(** X11.  The jump to the start is idempotent: a second jump, from whatever
    render, leaves the store exactly as the first one did. *)
Theorem jump_to_start_idempotent (r r' : App.Hooks) (s : App.Store) :
  App.handleGoToStart r' (App.handleGoToStart r s) = App.handleGoToStart r s.
Proof.
  rewrite (handleGoToStart_value r' (App.handleGoToStart r s)).
  rewrite (handleGoToStart_value r s).
  cbn [App.state App.timers App.textViewportRef App.speed App.fontSizePx
       App.mirror App.containerHeight].
  f_equal.
  destruct s as [h t [[el|] last acc]]; unfold TextViewport.scrollToStart;
    cbn [App.textViewportRef TextViewport.scrollContainerRef fst
         TextViewport.withElement TextViewport.lastTimestampRef
         TextViewport.scrollAccumulatorRef]; [|reflexivity].
  rewrite !scrollTo_0. reflexivity.
Qed.

(** ** The autoscroll loop, frame by frame *)

Section Autoscroll.
Import TextViewport.

Lemma tick_playing (p : Props) (timestamp : Q) (v : Refs) (el : Element) :
  isPlaying p = true -> scrollContainerRef v = Some el ->
  let total := scrollAccumulatorRef v
               + pxPerSecOf (speed p) (fontSizePx p)
                 * deltaSecondsOf timestamp (lastTimestampRef v) in
  let w := Math_floor total in
  (w = 0%Z
   /\ fst (tick p timestamp v)
      = {| scrollContainerRef := Some el; lastTimestampRef := Some timestamp;
           scrollAccumulatorRef := total |}
   /\ snd (tick p timestamp v)
      = (if Qle_bool (scrollHeight el - clientHeight el - DEAD_BAND) (scrollTop el)
         then [onReachEnd] else []))
  \/ (w <> 0%Z
      /\ fst (tick p timestamp v)
         = {| scrollContainerRef := Some (scrollBy (inject_Z w) el);
              lastTimestampRef := Some timestamp;
              scrollAccumulatorRef := total - inject_Z w |}).
Proof.
  intros Hplay Hel total w. unfold tick. rewrite Hplay, Hel. cbn [negb].
  fold total. fold w.
  destruct (Z.eqb_spec w 0) as [E|E]; [left|right]; cbn [negb fst snd].
  - split; [exact E|]. split; reflexivity.
  - split; [exact E|]. reflexivity.
Qed.

End Autoscroll.

Lemma pxPerSecOf_nonneg (speed fontSize : Q) :
  1 <= speed -> 0 <= fontSize -> 0 <= TextViewport.pxPerSecOf speed fontSize.
Proof.
  intros Hs Hf. unfold TextViewport.pxPerSecOf, TextViewport.lineHeightPx.
  apply Qmult_le_0_compat.
  - rewrite linesPerSecOf_linear. Lqa.lra.
  - unfold TextViewport.LINE_HEIGHT_EM. Lqa.lra.
Qed.

Lemma deltaSecondsOf_nonneg (timestamp : Q) (last : option Q) :
  (last = None \/ exists l, last = Some l /\ l <= timestamp) ->
  0 <= TextViewport.deltaSecondsOf timestamp last.
Proof.
  intros [->|(l & -> & Hl)].
  - rewrite deltaSecondsOf_first_frame. apply Qle_refl.
  - unfold TextViewport.deltaSecondsOf. cbn [nullish].
    apply Qle_shift_div_l; Lqa.lra.
Qed.

Lemma scrollBy_forward (w : Q) (el : TextViewport.Element) :
  0 <= w -> 0 <= TextViewport.scrollTop el <= TextViewport.scrollRange el ->
  TextViewport.scrollTop el <= TextViewport.scrollTop (TextViewport.scrollBy w el).
Proof.
  intros Hw [H0 Hr]. unfold TextViewport.scrollBy, TextViewport.scrollTo.
  cbn [TextViewport.scrollTop]. unfold clamp.
  set (top := TextViewport.scrollTop el) in *.
  set (range := TextViewport.scrollRange el) in *.
  destruct (Math_max_cases (top + w) 0) as [[Ha ->]|[Ha ->]].
  - destruct (Math_min_cases 0 range) as [[Hb ->]|[Hb ->]]; Lqa.lra.
  - destruct (Math_min_cases (top + w) range) as [[Hb ->]|[Hb ->]]; Lqa.lra.
Qed.

(** X12.  A frame of a playing viewport whose timestamp is not earlier than
    the last one (speed at least 1, a font size and an accumulator that are
    not negative) leaves the sub-pixel accumulator in [0, 1) and never moves
    the offset backwards. *)
Theorem tick_forward_keeps_fraction
    (p : TextViewport.Props) (timestamp : Q) (v : TextViewport.Refs)
    (el : TextViewport.Element) :
  TextViewport.isPlaying p = true ->
  TextViewport.scrollContainerRef v = Some el ->
  1 <= TextViewport.speed p -> 0 <= TextViewport.fontSizePx p ->
  0 <= TextViewport.scrollAccumulatorRef v ->
  (TextViewport.lastTimestampRef v = None
   \/ exists last, TextViewport.lastTimestampRef v = Some last /\ last <= timestamp) ->
  0 <= TextViewport.offset v <= TextViewport.extent v ->
  0 <= TextViewport.scrollAccumulatorRef (fst (TextViewport.tick p timestamp v)) < 1
  /\ TextViewport.offset v <= TextViewport.offset (fst (TextViewport.tick p timestamp v)).
Proof.
  intros Hplay Hel Hs Hf Hacc Hlast Hin.
  pose proof (pxPerSecOf_nonneg _ _ Hs Hf) as Hpx.
  pose proof (deltaSecondsOf_nonneg timestamp _ Hlast) as Hdt.
  set (total := TextViewport.scrollAccumulatorRef v
                + TextViewport.pxPerSecOf (TextViewport.speed p)
                    (TextViewport.fontSizePx p)
                  * TextViewport.deltaSecondsOf timestamp
                      (TextViewport.lastTimestampRef v)).
  assert (Htotal : 0 <= total).
  { unfold total.
    pose proof (Qmult_le_0_compat _ _ Hpx Hdt) as Hprod.
    set (d := _ * _) in *. Lqa.lra. }
  assert (Hw : 0 <= inject_Z (Qfloor total)).
  { change 0 with (inject_Z 0). rewrite <- Zle_Qle.
    rewrite <- (Qfloor_Z 0). apply Qfloor_resp_le. exact Htotal. }
  assert (Hfrac : 0 <= total - inject_Z (Qfloor total) < 1).
  { pose proof (Qfloor_le total) as H1. pose proof (Qlt_floor total) as H2.
    rewrite inject_Z_plus in H2. change (inject_Z 1) with 1 in H2.
    set (f := inject_Z (Qfloor total)) in *. split; Lqa.lra. }
  unfold TextViewport.offset, TextViewport.extent, TextViewport.getScrollInfo in *.
  rewrite Hel in Hin.
  destruct (tick_playing p timestamp v el Hplay Hel) as [(E & -> & _)|(E & ->)];
    cbn [TextViewport.scrollAccumulatorRef TextViewport.scrollContainerRef];
    fold total; rewrite Hel.
  - split; [|apply Qle_refl].
    unfold Math_floor in E. fold total in E. rewrite E in Hfrac.
    change (inject_Z 0) with 0 in Hfrac. split; Lqa.lra.
  - split; [exact Hfrac|]. apply scrollBy_forward; assumption.
Qed.

Lemma tick_forward_keeps_fraction_example :
  let p := {| TextViewport.isPlaying := true; TextViewport.speed := 20;
              TextViewport.fontSizePx := 72 |} in
  let el := {| TextViewport.scrollTop := 500; TextViewport.scrollHeight := 1000;
               TextViewport.clientHeight := 200 |} in
  let v := {| TextViewport.scrollContainerRef := Some el;
              TextViewport.lastTimestampRef := Some 1000;
              TextViewport.scrollAccumulatorRef := 0.75 |} in
  0 <= TextViewport.scrollAccumulatorRef (fst (TextViewport.tick p 1016 v)) < 1
  /\ TextViewport.offset v <= TextViewport.offset (fst (TextViewport.tick p 1016 v)).
Proof.
  intros p el v. apply (tick_forward_keeps_fraction p 1016 v el);
    try reflexivity; try discriminate.
  - right. exists 1000. split; [reflexivity | discriminate].
  - split; discriminate.
Defined.

(** X13.  Frames of a render that is not playing move nothing and call
    nothing; all they do is keep the loop's last timestamp at the latest
    frame, so that the first playing frame afterwards measures its interval
    from the last paused frame and not across the pause. *)
Theorem paused_frames_refresh_timestamp
    (timestamps : list Q) (timestamp : Q) (p : TextViewport.Props)
    (v : TextViewport.Refs) :
  TextViewport.isPlaying p = false ->
  let v' :=
    TextViewport.steps
      (map (TextViewport.stepTick p) (timestamps ++ [timestamp])) v in
  v' = {| TextViewport.scrollContainerRef := TextViewport.scrollContainerRef v;
          TextViewport.lastTimestampRef := Some timestamp;
          TextViewport.scrollAccumulatorRef := TextViewport.scrollAccumulatorRef v |}
  /\ Forall (fun t => snd (TextViewport.tick p t v) = []) (timestamps ++ [timestamp])
  /\ forall next : Q,
       TextViewport.deltaSecondsOf next (TextViewport.lastTimestampRef v')
       = (next - timestamp) / 1000.
Proof.
  intros Hp v'.
  assert (Hv' : v' = {| TextViewport.scrollContainerRef := TextViewport.scrollContainerRef v;
                        TextViewport.lastTimestampRef := Some timestamp;
                        TextViewport.scrollAccumulatorRef :=
                          TextViewport.scrollAccumulatorRef v |}).
  { unfold v', TextViewport.steps. rewrite map_app, fold_left_app.
    cbn [map fold_left TextViewport.step]. unfold TextViewport.tick at 1.
    rewrite Hp. cbn [negb fst].
    f_equal.
    - apply (fold_left_preserves
               (fun u => TextViewport.scrollContainerRef u
                         = TextViewport.scrollContainerRef v)); [reflexivity|].
      intros u o Ho Hu. apply list_elem_of_fmap in Ho as [t [-> _]].
      cbn [TextViewport.step]. unfold TextViewport.tick. rewrite Hp. exact Hu.
    - apply (fold_left_preserves
               (fun u => TextViewport.scrollAccumulatorRef u
                         = TextViewport.scrollAccumulatorRef v)); [reflexivity|].
      intros u o Ho Hu. apply list_elem_of_fmap in Ho as [t [-> _]].
      cbn [TextViewport.step]. unfold TextViewport.tick. rewrite Hp. exact Hu. }
  split; [exact Hv'|]. split.
  - apply Forall_forall. intros t _. unfold TextViewport.tick. rewrite Hp.
    reflexivity.
  - intros next. rewrite Hv'. reflexivity.
Qed.

Lemma paused_frames_refresh_timestamp_example :
  let p := {| TextViewport.isPlaying := false; TextViewport.speed := 20;
              TextViewport.fontSizePx := 72 |} in
  let v := {| TextViewport.scrollContainerRef :=
                Some {| TextViewport.scrollTop := 500;
                        TextViewport.scrollHeight := 1000;
                        TextViewport.clientHeight := 200 |};
              TextViewport.lastTimestampRef := Some 1000;
              TextViewport.scrollAccumulatorRef := 0.25 |} in
  let v' :=
    TextViewport.steps
      (map (TextViewport.stepTick p) ([1016; 1033; 60000] ++ [60016])) v in
  v' = {| TextViewport.scrollContainerRef := TextViewport.scrollContainerRef v;
          TextViewport.lastTimestampRef := Some 60016;
          TextViewport.scrollAccumulatorRef := TextViewport.scrollAccumulatorRef v |}
  /\ Forall (fun t => snd (TextViewport.tick p t v) = []) ([1016; 1033; 60000] ++ [60016])
  /\ forall next : Q,
       TextViewport.deltaSecondsOf next (TextViewport.lastTimestampRef v')
       = (next - 60016) / 1000.
Proof.
  intros p v.
  apply (paused_frames_refresh_timestamp [1016; 1033; 60000] 60016 p v).
  reflexivity.
Defined.

(** X14.  The first frame of a playing viewport that has no last timestamp
    measures an interval of 0: with an accumulator below one pixel it moves
    nothing, sends no scroll notification and only records its timestamp. *)
Theorem first_playing_frame_is_still
    (p : TextViewport.Props) (timestamp : Q) (v : TextViewport.Refs)
    (el : TextViewport.Element) :
  TextViewport.isPlaying p = true ->
  TextViewport.scrollContainerRef v = Some el ->
  TextViewport.lastTimestampRef v = None ->
  0 <= TextViewport.scrollAccumulatorRef v < 1 ->
  TextViewport.scrollContainerRef (fst (TextViewport.tick p timestamp v)) = Some el
  /\ TextViewport.lastTimestampRef (fst (TextViewport.tick p timestamp v))
     = Some timestamp
  /\ TextViewport.scrollAccumulatorRef (fst (TextViewport.tick p timestamp v))
     == TextViewport.scrollAccumulatorRef v
  /\ Forall (fun e => e = TextViewport.onReachEnd)
       (snd (TextViewport.tick p timestamp v)).
Proof.
  intros Hplay Hel Hlast Hacc.
  set (px := TextViewport.pxPerSecOf (TextViewport.speed p) (TextViewport.fontSizePx p)).
  assert (Htotal : TextViewport.scrollAccumulatorRef v
                   + px * TextViewport.deltaSecondsOf timestamp
                            (TextViewport.lastTimestampRef v)
                   == TextViewport.scrollAccumulatorRef v).
  { rewrite Hlast, deltaSecondsOf_first_frame. ring. }
  assert (Hfloor : Math_floor (TextViewport.scrollAccumulatorRef v
                               + px * TextViewport.deltaSecondsOf timestamp
                                        (TextViewport.lastTimestampRef v)) = 0%Z).
  { unfold Math_floor. rewrite Htotal. apply Qfloor_between; apply Hacc. }
  destruct (tick_playing p timestamp v el Hplay Hel) as [(_ & -> & ->)|(Hw & _)].
  - cbn [TextViewport.scrollContainerRef TextViewport.lastTimestampRef
         TextViewport.scrollAccumulatorRef].
    split; [reflexivity|]. split; [reflexivity|]. split; [exact Htotal|].
    destruct (Qle_bool _ _); repeat constructor.
  - contradiction.
Qed.

Lemma first_playing_frame_is_still_example :
  let p := {| TextViewport.isPlaying := true; TextViewport.speed := 50;
              TextViewport.fontSizePx := 72 |} in
  let el := {| TextViewport.scrollTop := 500; TextViewport.scrollHeight := 1000;
               TextViewport.clientHeight := 200 |} in
  let v := {| TextViewport.scrollContainerRef := Some el;
              TextViewport.lastTimestampRef := None;
              TextViewport.scrollAccumulatorRef := 0.75 |} in
  TextViewport.scrollContainerRef (fst (TextViewport.tick p 123456 v)) = Some el
  /\ TextViewport.lastTimestampRef (fst (TextViewport.tick p 123456 v))
     = Some 123456
  /\ TextViewport.scrollAccumulatorRef (fst (TextViewport.tick p 123456 v))
     == TextViewport.scrollAccumulatorRef v
  /\ Forall (fun e => e = TextViewport.onReachEnd)
       (snd (TextViewport.tick p 123456 v)).
Proof.
  intros p el v. apply (first_playing_frame_is_still p 123456 v el);
    try reflexivity.
  split; [discriminate | reflexivity].
Defined.

Lemma dispatch_scrollChange_isPlaying (r : App.Hooks) (s : App.Store)
    (top height client : Q) :
  App.isPlaying
    (App.state (App.dispatch r s (TextViewport.onScrollChange top height client)))
  = App.isPlaying (App.state s).
Proof. reflexivity. Qed.

(** X15.  A frame of a playing render stops playback exactly when it leaves
    the offset within one pixel of the end of the content
    ([scrollHeight - clientHeight]); otherwise the stored playback flag is
    left as it was. *)
Theorem tick_halts_within_dead_band (r : App.Hooks) (timestamp : Q)
    (s : App.Store) (el : TextViewport.Element) :
  App.isPlaying r = true ->
  TextViewport.scrollContainerRef (App.textViewportRef s) = Some el ->
  let after := App.tickCallback r timestamp s in
  let maxScroll := TextViewport.scrollHeight el - TextViewport.clientHeight el in
  (maxScroll - 1 <= App.offset after ->
   App.isPlaying (App.state after) = false)
  /\ (App.offset after < maxScroll - 1 ->
      App.isPlaying (App.state after) = App.isPlaying (App.state s)).
Proof.
  intros Hplay Hel after maxScroll.
  assert (Hp : TextViewport.isPlaying (App.propsOf r) = true) by exact Hplay.
  destruct s as [h t [c last acc]]. cbn [App.textViewportRef
    TextViewport.scrollContainerRef] in Hel. subst c.
  unfold after, App.tickCallback, App.viewportCall, App.offset.
  cbn [App.textViewportRef].
  set (v := {| TextViewport.scrollContainerRef := Some el;
               TextViewport.lastTimestampRef := last;
               TextViewport.scrollAccumulatorRef := acc |}).
  destruct (tick_playing (App.propsOf r) timestamp v el Hp eq_refl)
    as [(Hw & Hfst & Hsnd)|(Hw & Hfst)].
  - rewrite Hsnd.
    destruct (dispatch_all_refs r
                (if Qle_bool (TextViewport.scrollHeight el - TextViewport.clientHeight el
                              - TextViewport.DEAD_BAND) (TextViewport.scrollTop el)
                 then [TextViewport.onReachEnd] else [])
                (App.withViewport (fst (TextViewport.tick (App.propsOf r) timestamp v))
                   {| App.state := h; App.timers := t; App.textViewportRef := v |}))
      as [Hv _].
    rewrite Hv. cbn [App.withViewport App.textViewportRef]. rewrite Hfst.
    unfold TextViewport.offset.
    cbn [TextViewport.getScrollInfo TextViewport.scrollContainerRef].
    unfold TextViewport.DEAD_BAND. fold maxScroll.
    destruct (Qle_bool (maxScroll - 1) (TextViewport.scrollTop el)) eqn:E.
    + split; [reflexivity|]. apply Qle_bool_iff in E. intros H. Lqa.lra.
    + split; [|reflexivity]. apply Qle_bool_false in E. intros H. Lqa.lra.
  - unfold v.
    rewrite (tick_moved (App.propsOf r) timestamp el last acc
               (Math_floor (acc + TextViewport.pxPerSecOf (App.speed r) (App.fontSizePx r)
                                  * TextViewport.deltaSecondsOf timestamp last))
               Hp eq_refl Hw).
    cbn [fst snd].
    set (el' := TextViewport.scrollBy _ el).
    set (v' := {| TextViewport.scrollContainerRef := Some el';
                  TextViewport.lastTimestampRef := Some timestamp;
                  TextViewport.scrollAccumulatorRef := _ |}).
    set (s1 := App.withViewport v' _).
    set (events := TextViewport.notifyScroll v' ++ _).
    destruct (dispatch_all_refs r events s1) as [Hv _]. rewrite Hv.
    unfold s1 at 1 3. cbn [App.withViewport App.textViewportRef].
    unfold TextViewport.offset.
    cbn [TextViewport.getScrollInfo TextViewport.scrollContainerRef v'].
    change (TextViewport.scrollHeight el) with (TextViewport.scrollHeight el') in maxScroll.
    change (TextViewport.clientHeight el) with (TextViewport.clientHeight el') in maxScroll.
    unfold events. unfold TextViewport.DEAD_BAND. fold maxScroll.
    destruct (Qle_bool (maxScroll - 1) (TextViewport.scrollTop el')) eqn:E.
    + split; [|apply Qle_bool_iff in E; intros H; Lqa.lra].
      intros _. apply dispatch_all_ends_halted.
    + apply Qle_bool_false in E. split; [intros H; Lqa.lra|].
      intros _. rewrite app_nil_r. unfold TextViewport.notifyScroll.
      cbn [TextViewport.getScrollInfo TextViewport.scrollContainerRef v'].
      unfold TextViewport.DEAD_BAND. fold maxScroll.
      assert (E' : Qle_bool (maxScroll - TextViewport.scrollTop el') 1 = false)
        by (apply Qle_bool_false; Lqa.lra).
      rewrite E'. reflexivity.
Qed.

Lemma tick_halts_within_dead_band_example :
  let r := {| App.isPlaying := true; App.speed := 20; App.fontSizePx := 72;
              App.mirror := false; App.elapsedTime := 0;
              App.remainingTime := 0%R; App.progress := 0;
              App.containerHeight := 0 |} in
  let el := {| TextViewport.scrollTop := 795; TextViewport.scrollHeight := 1000;
               TextViewport.clientHeight := 200 |} in
  let s := {| App.state := r; App.timers := App.initialTimers;
              App.textViewportRef :=
                {| TextViewport.scrollContainerRef := Some el;
                   TextViewport.lastTimestampRef := Some 1000;
                   TextViewport.scrollAccumulatorRef := 0 |} |} in
  let after := App.tickCallback r 1016 s in
  let maxScroll := TextViewport.scrollHeight el - TextViewport.clientHeight el in
  (maxScroll - 1 <= App.offset after ->
   App.isPlaying (App.state after) = false)
  /\ (App.offset after < maxScroll - 1 ->
      App.isPlaying (App.state after) = App.isPlaying (App.state s)).
Proof.
  intros r el s. apply (tick_halts_within_dead_band r 1016 s el); reflexivity.
Defined.

(** ** The sampler: devices, stick response, smoothing *)

(** X16.  With no device in any slot, a frame of the sampler calls nothing
    and leaves its refs as they are: neither the smoothed speed nor the last
    timestamp is refreshed. *)
Theorem poll_without_device
    (isPlaying : bool) (timestamp : Q)
    (gamepads : list (option UseGamepad.Gamepad)) (r : UseGamepad.Refs) :
  Forall (fun o => o = None) gamepads ->
  UseGamepad.poll isPlaying timestamp gamepads r = (r, []).
Proof.
  intros Hnone. unfold UseGamepad.poll.
  set (st0 := {| UseGamepad.refs := r; UseGamepad.called := [];
                 UseGamepad.buttonsHandled := [] |}).
  assert (Hst : fold_left (UseGamepad.handleGamepad isPlaying timestamp) gamepads st0
                = st0).
  { apply (fold_left_preserves (fun st => st = st0)); [reflexivity|].
    intros st o Ho ->. rewrite Forall_forall in Hnone.
    rewrite (Hnone o Ho). reflexivity. }
  rewrite Hst. reflexivity.
Qed.

Lemma poll_without_device_four_empty_slots :
  let r := {| UseGamepad.lastPressRef := ∅;
              UseGamepad.lastTimestampRef := Some 1000;
              UseGamepad.smoothedScrollSpeedRef := 12 |} in
  UseGamepad.poll true 1016 [None; None; None; None] r = (r, []).
Proof.
  intros r. apply (poll_without_device true 1016 [None; None; None; None] r).
  repeat constructor.
Defined.

Section StickResponse.
Import UseGamepad.

Lemma targetSpeedOf_value (y : Q) :
  targetSpeedOf y
  == (if Qltb 0 y then 1 else -1)
     * (5 + 20 * (((Qabs y - 0.15) * (20 # 17)) * ((Qabs y - 0.15) * (20 # 17)))).
Proof.
  unfold targetSpeedOf, Math_abs, MANUAL_SCROLL_MIN, MANUAL_SCROLL_MAX.
  rewrite normalized_scaled.
  destruct (Qltb 0 y); simpl; ring.
Qed.

Lemma magnitude_bounds (y : Q) :
  DEADZONE < Math_abs y -> Math_abs y <= 1 ->
  5 < 5 + 20 * (((Qabs y - 0.15) * (20 # 17)) * ((Qabs y - 0.15) * (20 # 17))) <= 25.
Proof.
  unfold DEADZONE, Math_abs. intros Hlo Hhi.
  set (n := (Qabs y - 0.15) * (20 # 17)).
  assert (Hn : 0 < n <= 1) by (unfold n; split; Lqa.lra).
  split; Lqa.nra.
Qed.

End StickResponse.

(** X17.  Beyond the deadzone and up to full deflection, the target speed of
    the stick has the sign of the stick, a magnitude above 5 and at most 25,
    and is odd in the stick value: pushing the stick the other way by the same
    amount gives the opposite target. *)
Theorem targetSpeedOf_response (y : Q) :
  UseGamepad.DEADZONE < Math_abs y -> Math_abs y <= 1 ->
  5 < Qabs (UseGamepad.targetSpeedOf y) <= 25
  /\ (0 < y <-> 0 < UseGamepad.targetSpeedOf y)
  /\ UseGamepad.targetSpeedOf (- y) == - UseGamepad.targetSpeedOf y.
Proof.
  intros Hlo Hhi.
  pose proof (magnitude_bounds y Hlo Hhi) as Hm.
  assert (Hy : ~ y == 0).
  { intros E. unfold UseGamepad.DEADZONE, Math_abs in Hlo. rewrite E in Hlo.
    discriminate Hlo. }
  rewrite !targetSpeedOf_value. rewrite Qabs_opp.
  set (m := 5 + 20 * _) in *.
  destruct (Qltb 0 y) eqn:E.
  - apply Qltb_true in E.
    assert (E' : Qltb 0 (- y) = false) by (apply Qltb_false; Lqa.lra).
    rewrite E'. split; [|split].
    + rewrite Qabs_pos by Lqa.lra. Lqa.lra.
    + split; intros _; Lqa.lra.
    + ring.
  - apply Qltb_false in E.
    assert (Hneg : y < 0).
    { destruct (Qlt_le_dec y 0) as [H|H]; [exact H|].
      exfalso. apply Hy. Lqa.lra. }
    assert (E' : Qltb 0 (- y) = true) by (apply Qltb_true; Lqa.lra).
    rewrite E'. split; [|split].
    + rewrite Qabs_neg by Lqa.lra. Lqa.lra.
    + split; intros H; Lqa.lra.
    + ring.
Qed.

Lemma targetSpeedOf_response_half_up :
  5 < Qabs (UseGamepad.targetSpeedOf (-0.5)) <= 25
  /\ (0 < -0.5 <-> 0 < UseGamepad.targetSpeedOf (-0.5))
  /\ UseGamepad.targetSpeedOf (- (-0.5)) == - UseGamepad.targetSpeedOf (-0.5).
Proof.
  apply (targetSpeedOf_response (-0.5)).
  - reflexivity.
  - discriminate.
Defined.

Section Convergence.
Import UseGamepad.

Lemma poll_single_smoothed (isPlaying : bool) (timestamp : Q) (g : Gamepad)
    (r : Refs) :
  DEADZONE < Math_abs (leftStickYOf g) ->
  smoothedScrollSpeedRef (fst (poll isPlaying timestamp [Some g] r))
  = smoothedScrollSpeedRef r * SMOOTH_FACTOR
    + targetSpeedOf (leftStickYOf g) * (1 - SMOOTH_FACTOR).
Proof.
  intros Hmag. unfold poll. cbn [fold_left handleGamepad fst].
  unfold handleAxis.
  change (nullish (axes g !! 1%nat) 0) with (leftStickYOf g).
  apply Qltb_true in Hmag. rewrite Hmag.
  cbn [refs smoothedScrollSpeedRef].
  destruct (handleButtons_timing timestamp (buttons g)
              {| refs := r; called := []; buttonsHandled := [] |}) as [_ E].
  rewrite E. reflexivity.
Qed.

Lemma power_succ (n : nat) :
  SMOOTH_FACTOR ^ Z.of_nat (S n) == SMOOTH_FACTOR * SMOOTH_FACTOR ^ Z.of_nat n.
Proof.
  rewrite Nat2Z.inj_succ. unfold Z.succ. rewrite Z.add_comm.
  rewrite Qpower_plus by discriminate. reflexivity.
Qed.

Lemma pollFrames_held (y : Q) (frames : list Frame) (r : Refs) :
  DEADZONE < Math_abs y ->
  Forall (heldAt y) frames ->
  smoothedScrollSpeedRef (pollFrames frames r)
  == targetSpeedOf y
     - (targetSpeedOf y - smoothedScrollSpeedRef r)
       * SMOOTH_FACTOR ^ Z.of_nat (length frames).
Proof.
  intros Hmag. revert r.
  induction frames as [|f frames IH]; intros r Hall.
  - cbn [pollFrames fold_left length Z.of_nat]. simpl. ring.
  - apply Forall_cons in Hall as [(g & Hg & Hy) Hall].
    unfold pollFrames. cbn [fold_left]. fold (pollFrames frames).
    rewrite (IH _ Hall). rewrite Hg.
    rewrite poll_single_smoothed by (rewrite Hy; exact Hmag).
    rewrite Hy.
    change (length (f :: frames)) with (S (length frames)).
    rewrite power_succ.
    set (q := SMOOTH_FACTOR ^ Z.of_nat (length frames)).
    unfold SMOOTH_FACTOR. ring.
Qed.

End Convergence.

(** X18.  While one device holds its stick at the same value beyond the
    deadzone, the smoothed speed approaches the target of that value
    geometrically: after n frames the distance to the target is 0.9^n times
    the distance at the start, whatever the timestamps and the buttons. *)
Theorem smoothing_converges_geometrically
    (y : Q) (frames : list UseGamepad.Frame) (r : UseGamepad.Refs) :
  UseGamepad.DEADZONE < Math_abs y ->
  Forall (UseGamepad.heldAt y) frames ->
  UseGamepad.targetSpeedOf y
  - UseGamepad.smoothedScrollSpeedRef (UseGamepad.pollFrames frames r)
  == (UseGamepad.targetSpeedOf y - UseGamepad.smoothedScrollSpeedRef r)
     * 0.9 ^ Z.of_nat (length frames).
Proof.
  intros Hmag Hall. rewrite (pollFrames_held y frames r Hmag Hall).
  change UseGamepad.SMOOTH_FACTOR with 0.9. ring.
Qed.

Lemma smoothing_converges_geometrically_three_frames :
  let pad := Some {| UseGamepad.buttons := []; UseGamepad.axes := [0; 1] |} in
  let frames :=
    [ {| UseGamepad.frameIsPlaying := false; UseGamepad.frameTimestamp := 0;
         UseGamepad.frameGamepads := [pad] |};
      {| UseGamepad.frameIsPlaying := false; UseGamepad.frameTimestamp := 16;
         UseGamepad.frameGamepads := [pad] |};
      {| UseGamepad.frameIsPlaying := false; UseGamepad.frameTimestamp := 33;
         UseGamepad.frameGamepads := [pad] |} ] in
  UseGamepad.targetSpeedOf 1
  - UseGamepad.smoothedScrollSpeedRef
      (UseGamepad.pollFrames frames UseGamepad.initial)
  == (UseGamepad.targetSpeedOf 1
      - UseGamepad.smoothedScrollSpeedRef UseGamepad.initial)
     * 0.9 ^ Z.of_nat (length frames).
Proof.
  intros pad frames.
  apply (smoothing_converges_geometrically 1 frames UseGamepad.initial).
  - reflexivity.
  - unfold frames, pad, UseGamepad.heldAt.
    repeat constructor; eexists; split; reflexivity.
Defined.

Section OneScrollPerFrame.
Import UseGamepad.

Lemma manualScrolls_app (l k : list Action) :
  manualScrolls (l ++ k) = (manualScrolls l + manualScrolls k)%nat.
Proof. unfold manualScrolls. rewrite filter_app, length_app. reflexivity. Qed.

Variables (isPlaying : bool) (timestamp : Q).

Lemma handleAxis_scrolledOnce (axes : list Q) (st : PollState) :
  scrolledOnce timestamp st ->
  scrolledOnce timestamp (handleAxis isPlaying timestamp axes st).
Proof.
  intros [Hle Hone]. unfold handleAxis, scrolledOnce.
  destruct (Qltb DEADZONE _).
  2: { cbn [called refs lastTimestampRef]. split; [exact Hle | reflexivity]. }
  cbn [called refs lastTimestampRef].
  set (called1 := if isPlaying then called st ++ [onPauseFromManualScroll]
                  else called st).
  assert (H1 : manualScrolls called1 = manualScrolls (called st)).
  { unfold called1. destruct isPlaying; [|reflexivity].
    rewrite manualScrolls_app.
    change (manualScrolls [onPauseFromManualScroll]) with 0%nat. lia. }
  match goal with |- context [if ?b then _ else _] => destruct b eqn:Eb end.
  - rewrite manualScrolls_app, H1.
    change (manualScrolls [onManualScroll _]) with 1%nat.
    split; [|reflexivity].
    destruct (Nat.eq_dec (manualScrolls (called st)) 1%nat) as [E1|E1]; [|lia].
    exfalso. rewrite (Hone E1) in Eb.
    apply andb_true_iff in Eb as [_ Eb]. apply Qltb_true in Eb.
    assert (Hz : (timestamp - timestamp) / 1000 == 0) by field.
    rewrite Hz in Eb. discriminate Eb.
  - rewrite H1. split; [exact Hle | reflexivity].
Qed.

Lemma handleGamepad_scrolledOnce (st : PollState) (o : option Gamepad) :
  scrolledOnce timestamp st ->
  scrolledOnce timestamp (handleGamepad isPlaying timestamp st o).
Proof.
  intros Hst. destruct o as [g|]; cbn [handleGamepad]; [|exact Hst].
  apply handleAxis_scrolledOnce.
  destruct Hst as [Hle Hone]. unfold scrolledOnce.
  rewrite handleButtons_called.
  destruct (handleButtons_timing timestamp (buttons g) st) as [-> _].
  split; assumption.
Qed.

End OneScrollPerFrame.

Lemma manualScrolls_discrete (l : list UseGamepad.Action) :
  Forall (fun a => UseGamepad.isDiscrete a = true) l ->
  UseGamepad.manualScrolls l = 0%nat.
Proof.
  induction 1 as [|a l Ha _ IH]; [reflexivity|].
  change (a :: l) with ([a] ++ l). rewrite manualScrolls_app, IH.
  destruct a; try discriminate Ha; reflexivity.
Qed.

(** X19.  One frame of the sampler calls the manual scroll at most once,
    however many devices are connected: the first device handled sets the last
    timestamp to the frame's, which leaves every later device of the frame an
    interval of 0. *)
Theorem poll_at_most_one_manual_scroll
    (isPlaying : bool) (timestamp : Q)
    (gamepads : list (option UseGamepad.Gamepad)) (r : UseGamepad.Refs) :
  (UseGamepad.manualScrolls (snd (UseGamepad.poll isPlaying timestamp gamepads r))
   <= 1)%nat.
Proof.
  unfold UseGamepad.poll. cbn [snd].
  set (st0 := {| UseGamepad.refs := r; UseGamepad.called := [];
                 UseGamepad.buttonsHandled := [] |}).
  set (st := fold_left _ gamepads st0).
  assert (Hsorted : UseGamepad.sorted st).
  { apply poll_sorted. split; constructor. }
  assert (Honce : UseGamepad.scrolledOnce timestamp st).
  { apply (fold_left_preserves (UseGamepad.scrolledOnce timestamp)).
    - split; [cbn; lia | intros H; discriminate H].
    - intros st' o _ H. apply handleGamepad_scrolledOnce, H. }
  rewrite manualScrolls_app.
  rewrite (manualScrolls_discrete _ (proj2 Hsorted)).
  destruct Honce as [Hle _]. lia.
Qed.

Section NoInterval.
Import UseGamepad.

Variables (isPlaying : bool) (timestamp : Q).

Lemma handleAxis_no_interval (axes : list Q) (st : PollState) :
  manualScrolls (called st) = 0%nat ->
  (lastTimestampRef (refs st) = None
   \/ exists last, lastTimestampRef (refs st) = Some last /\ timestamp <= last) ->
  manualScrolls (called (handleAxis isPlaying timestamp axes st)) = 0%nat
  /\ lastTimestampRef (refs (handleAxis isPlaying timestamp axes st))
     = Some timestamp.
Proof.
  intros Hzero Hlast. unfold handleAxis.
  destruct (Qltb DEADZONE _); cbn [called refs lastTimestampRef];
    [|split; [exact Hzero | reflexivity]].
  split; [|reflexivity].
  assert (Hdt : Qltb 0 match lastTimestampRef (refs st) with
                       | Some last => (timestamp - last) / 1000
                       | None => 0
                       end = false).
  { apply Qltb_false. destruct Hlast as [->|(last & -> & Hle)].
    - discriminate.
    - apply Qle_shift_div_r; Lqa.lra. }
  rewrite Hdt, andb_false_r.
  destruct isPlaying; [|exact Hzero].
  rewrite manualScrolls_app, Hzero. reflexivity.
Qed.

End NoInterval.

(** X20.  A frame whose timestamp is not later than the sampler's last one,
    and the very first frame of a sampler (no last timestamp), call no manual
    scroll at all, whatever the sticks are doing. *)
Theorem poll_needs_positive_interval
    (isPlaying : bool) (timestamp : Q)
    (gamepads : list (option UseGamepad.Gamepad)) (r : UseGamepad.Refs) :
  (UseGamepad.lastTimestampRef r = None
   \/ exists last, UseGamepad.lastTimestampRef r = Some last /\ timestamp <= last) ->
  UseGamepad.manualScrolls (snd (UseGamepad.poll isPlaying timestamp gamepads r))
  = 0%nat.
Proof.
  intros Hlast. unfold UseGamepad.poll. cbn [snd].
  set (st0 := {| UseGamepad.refs := r; UseGamepad.called := [];
                 UseGamepad.buttonsHandled := [] |}).
  set (st := fold_left _ gamepads st0).
  assert (Hsorted : UseGamepad.sorted st).
  { apply poll_sorted. split; constructor. }
  set (P := fun st' : UseGamepad.PollState =>
              UseGamepad.manualScrolls (UseGamepad.called st') = 0%nat
              /\ (UseGamepad.lastTimestampRef (UseGamepad.refs st') = None
                  \/ exists last,
                       UseGamepad.lastTimestampRef (UseGamepad.refs st') = Some last
                       /\ timestamp <= last)).
  assert (HP : P st).
  { apply (fold_left_preserves P).
    - split; [reflexivity | exact Hlast].
    - intros st' o _ [Hz Hl]. destruct o as [g|]; [|split; assumption].
      cbn [UseGamepad.handleGamepad].
      destruct (handleAxis_no_interval isPlaying timestamp (UseGamepad.axes g)
                  (UseGamepad.handleButtons timestamp (UseGamepad.buttons g) st'))
        as [Hz' Hl'].
      + rewrite handleButtons_called. exact Hz.
      + destruct (handleButtons_timing timestamp (UseGamepad.buttons g) st')
          as [-> _]. exact Hl.
      + split; [exact Hz'|]. right. exists timestamp.
        split; [exact Hl' | apply Qle_refl]. }
  rewrite manualScrolls_app, (manualScrolls_discrete _ (proj2 Hsorted)).
  destruct HP as [-> _]. reflexivity.
Qed.

Lemma poll_needs_positive_interval_first_frame :
  let pad := Some {| UseGamepad.buttons := []; UseGamepad.axes := [0; 1] |} in
  UseGamepad.manualScrolls
    (snd (UseGamepad.poll true 5000 [pad; pad] UseGamepad.initial))
  = 0%nat.
Proof.
  intros pad.
  apply (poll_needs_positive_interval true 5000 [pad; pad] UseGamepad.initial).
  left. reflexivity.
Defined.

(** ** The debounce over a whole frame *)

Section FrameDebounce.
Import UseGamepad.

(** In [bindings] every button has its own command. *)
Lemma bindings_functional (i j : nat) (a b : Action) :
  (i, a) ∈ bindings -> (j, b) ∈ bindings -> (i = j <-> a = b).
Proof.
  unfold bindings. intros Hi Hj.
  repeat (apply elem_of_cons in Hi as [Hi|Hi]; [injection Hi as -> ->|]);
    [..|apply elem_of_nil in Hi; contradiction];
    (repeat (apply elem_of_cons in Hj as [Hj|Hj]; [injection Hj as -> ->|]);
     [..|apply elem_of_nil in Hj; contradiction];
     split; intros H; first [reflexivity | discriminate H]).
Qed.

Lemma handleAxis_buttons (isPlaying : bool) (timestamp : Q) (axes : list Q)
    (st : PollState) :
  lastPressRef (refs (handleAxis isPlaying timestamp axes st)) = lastPressRef (refs st)
  /\ buttonsHandled (handleAxis isPlaying timestamp axes st) = buttonsHandled st.
Proof. unfold handleAxis. destruct (Qltb DEADZONE _); split; reflexivity. Qed.

Variables (isPlaying : bool) (timestamp : Q).

Lemma handleGamepad_buttons_invariant (P : PollState -> Prop) :
  (forall st st', lastPressRef (refs st') = lastPressRef (refs st) ->
                  buttonsHandled st' = buttonsHandled st -> P st -> P st') ->
  (forall st i a, (i, a) ∈ bindings -> P st -> P (registerPress timestamp i a st)) ->
  forall gamepads st,
    P st -> P (fold_left (handleGamepad isPlaying timestamp) gamepads st).
Proof.
  intros Hext Hreg gamepads st Hst.
  apply (fold_left_preserves P); [exact Hst|].
  intros st' o _ Hst'. destruct o as [g|]; cbn [handleGamepad]; [|exact Hst'].
  destruct (handleAxis_buttons isPlaying timestamp (axes g)
              (handleButtons timestamp (buttons g) st')) as [E1 E2].
  apply (Hext (handleButtons timestamp (buttons g) st')); [exact E1 | exact E2 |].
  unfold handleButtons. apply (fold_left_preserves P); [exact Hst'|].
  intros st'' [i a] Hb H. unfold handleButton. cbn [fst snd].
  destruct (isPressed _ _); [|exact H]. apply Hreg; assumption.
Qed.

Lemma poll_waits (i : nat) (a : Action) (t1 : Q) (gamepads : list (option Gamepad))
    (st : PollState) :
  (i, a) ∈ bindings -> timestamp - t1 < DEBOUNCE_TIME ->
  lastPressRef (refs st) !! i = Some t1 /\ a ∉ buttonsHandled st ->
  lastPressRef (refs (fold_left (handleGamepad isPlaying timestamp) gamepads st)) !! i
  = Some t1
  /\ a ∉ buttonsHandled (fold_left (handleGamepad isPlaying timestamp) gamepads st).
Proof.
  intros Hia Hwin.
  apply (handleGamepad_buttons_invariant
           (fun st' => lastPressRef (refs st') !! i = Some t1
                       /\ a ∉ buttonsHandled st')).
  - intros st1 st2 E1 E2 H. cbv beta in H |- *. rewrite E1, E2. exact H.
  - intros st1 j b Hjb [Hl Hq].
    destruct (Nat.eq_dec j i) as [->|Hne].
    + rewrite registerPress_rejected; [split; assumption|].
      rewrite Hl. exact Hwin.
    + unfold registerPress. destruct (Qle_bool _ _); [|split; assumption].
      cbn [refs lastPressRef buttonsHandled]. split.
      * rewrite lookup_insert_ne by exact Hne. exact Hl.
      * intros Hin. apply elem_of_app in Hin as [Hin|Hin]; [exact (Hq Hin)|].
        apply list_elem_of_singleton in Hin. subst b.
        apply Hne. apply (bindings_functional j i a a Hjb Hia). reflexivity.
Qed.

Lemma poll_once (gamepads : list (option Gamepad)) (st : PollState) :
  (NoDup (buttonsHandled st)
   /\ forall j b, (j, b) ∈ bindings -> b ∈ buttonsHandled st ->
                  lastPressRef (refs st) !! j = Some timestamp) ->
  NoDup (buttonsHandled (fold_left (handleGamepad isPlaying timestamp) gamepads st)).
Proof.
  intros Hst.
  apply (handleGamepad_buttons_invariant
           (fun st' => NoDup (buttonsHandled st')
                       /\ forall j b, (j, b) ∈ bindings -> b ∈ buttonsHandled st' ->
                                      lastPressRef (refs st') !! j = Some timestamp)
           ltac:(intros st1 st2 E1 E2 H; cbv beta in H |- *; rewrite E1, E2;
                 exact H)); [|exact Hst].
  intros st1 i a Hia [Hnd Hled]. unfold registerPress.
  destruct (Qle_bool _ _) eqn:E; [|split; assumption].
  cbn [refs lastPressRef buttonsHandled].
  assert (Hfresh : a ∉ buttonsHandled st1).
  { intros Hin. rewrite (Hled i a Hia Hin) in E. cbn [nullish] in E.
    apply Qle_bool_iff in E. unfold DEBOUNCE_TIME in E. Lqa.lra. }
  split.
  - apply NoDup_app. split; [exact Hnd|]. split.
    + intros x Hx Hx'. apply list_elem_of_singleton in Hx'. subst x.
      exact (Hfresh Hx).
    + apply NoDup_singleton.
  - intros j b Hjb Hin. destruct (Nat.eq_dec i j) as [->|Hne].
    + apply lookup_insert_eq.
    + rewrite lookup_insert_ne by exact Hne.
      apply elem_of_app in Hin as [Hin|Hin]; [exact (Hled j b Hjb Hin)|].
      apply list_elem_of_singleton in Hin. subst b.
      exfalso. apply Hne. apply (bindings_functional i j a a Hia Hjb). reflexivity.
Qed.

End FrameDebounce.

(** X21.  A mapped button whose command was last accepted less than 200ms
    before the frame does not get its command dispatched in that frame, on
    whichever device it is down, and its ledger entry keeps the time of the
    accepted press: holding a button repeats its command no faster than every
    200ms. *)
Theorem held_button_waits_200ms
    (isPlaying : bool) (timestamp t1 : Q) (i : nat) (a : UseGamepad.Action)
    (gamepads : list (option UseGamepad.Gamepad)) (r : UseGamepad.Refs) :
  (i, a) ∈ UseGamepad.bindings ->
  UseGamepad.lastPressRef r !! i = Some t1 ->
  timestamp - t1 < 200 ->
  (a ∉ snd (UseGamepad.poll isPlaying timestamp gamepads r))
  /\ UseGamepad.lastPressRef (fst (UseGamepad.poll isPlaying timestamp gamepads r)) !! i
     = Some t1.
Proof.
  intros Hia Hl Hwin. unfold UseGamepad.poll. cbn [fst snd].
  set (st0 := {| UseGamepad.refs := r; UseGamepad.called := [];
                 UseGamepad.buttonsHandled := [] |}).
  destruct (poll_waits isPlaying timestamp i a t1 gamepads st0 Hia Hwin)
    as [Hled Hq].
  { split; [exact Hl | apply not_elem_of_nil]. }
  split; [|exact Hled].
  assert (Hsorted : UseGamepad.sorted
                      (fold_left (UseGamepad.handleGamepad isPlaying timestamp)
                         gamepads st0)).
  { apply poll_sorted. split; constructor. }
  intros Hin. apply elem_of_app in Hin as [Hin|Hin]; [|exact (Hq Hin)].
  destruct Hsorted as [Hc _]. rewrite Forall_forall in Hc.
  pose proof (Hc a Hin) as Hcont.
  pose proof bindings_discrete as Hd. rewrite Forall_forall in Hd.
  pose proof (Hd (i, a) Hia) as Hdisc. cbn [snd] in Hdisc.
  unfold UseGamepad.isDiscrete in Hdisc. rewrite Hcont in Hdisc. discriminate.
Qed.

Lemma held_button_waits_200ms_example :
  let pad := Some {| UseGamepad.buttons := [ {| UseGamepad.pressed := true |} ];
                     UseGamepad.axes := [] |} in
  let r := {| UseGamepad.lastPressRef := <[UseGamepad.A := 1000]> ∅;
              UseGamepad.lastTimestampRef := Some 1100;
              UseGamepad.smoothedScrollSpeedRef := 0 |} in
  (UseGamepad.onPlayPause ∉ snd (UseGamepad.poll false 1116 [pad; pad] r))
  /\ UseGamepad.lastPressRef (fst (UseGamepad.poll false 1116 [pad; pad] r))
     !! UseGamepad.A
     = Some 1000.
Proof.
  intros pad r.
  apply (held_button_waits_200ms false 1116 1000 UseGamepad.A
           UseGamepad.onPlayPause [pad; pad] r).
  - left.
  - reflexivity.
  - reflexivity.
Defined.

(** X22.  The discrete commands that one frame dispatches are pairwise
    different: when several devices have the same button down in a frame, its
    command is dispatched once. *)
Theorem poll_dispatches_each_command_once
    (isPlaying : bool) (timestamp : Q)
    (gamepads : list (option UseGamepad.Gamepad)) (r : UseGamepad.Refs) :
  exists continuous discrete,
    snd (UseGamepad.poll isPlaying timestamp gamepads r) = continuous ++ discrete
    /\ Forall (fun a => UseGamepad.isContinuous a = true) continuous
    /\ Forall (fun a => UseGamepad.isDiscrete a = true) discrete
    /\ NoDup discrete.
Proof.
  unfold UseGamepad.poll. cbn [snd].
  set (st0 := {| UseGamepad.refs := r; UseGamepad.called := [];
                 UseGamepad.buttonsHandled := [] |}).
  set (st := fold_left _ gamepads st0).
  assert (Hsorted : UseGamepad.sorted st).
  { apply poll_sorted. split; constructor. }
  exists (UseGamepad.called st), (UseGamepad.buttonsHandled st).
  split; [reflexivity|]. split; [apply Hsorted|]. split; [apply Hsorted|].
  apply (poll_once isPlaying timestamp gamepads st0).
  split; [apply NoDup_nil_2|]. intros j b _ Hin. inversion Hin.
Qed.

Section DispatchOrder.
Import UseGamepad.

Lemma handleButtons_sublist (now : Q) (pressedButtons : list GamepadButton)
    (bs : list (nat * Action)) (st : PollState) :
  exists l,
    buttonsHandled (fold_left (handleButton now pressedButtons) bs st)
    = buttonsHandled st ++ l
    /\ l `sublist_of` map snd bs.
Proof.
  revert st. induction bs as [|b bs IH]; intros st.
  - exists []. split; [symmetry; apply app_nil_r | constructor].
  - cbn [fold_left map].
    destruct (IH (handleButton now pressedButtons st b)) as (l & -> & Hl).
    unfold handleButton, registerPress.
    destruct (isPressed _ _); [destruct (Qle_bool _ _)|].
    + exists (snd b :: l). cbn [buttonsHandled]. split.
      * rewrite <- app_assoc. reflexivity.
      * apply sublist_skip, Hl.
    + exists l. split; [reflexivity | apply sublist_cons, Hl].
    + exists l. split; [reflexivity | apply sublist_cons, Hl].
Qed.

End DispatchOrder.

(** X23.  The discrete commands that a device gets dispatched in one frame
    come in the fixed order of the button table: play/pause, mirror,
    fullscreen, jump to start, jump to end, speed down, speed up, font up,
    font down, with the ones not pressed or not yet due left out. *)
Theorem poll_dispatch_order
    (isPlaying : bool) (timestamp : Q) (g : UseGamepad.Gamepad)
    (r : UseGamepad.Refs) :
  exists continuous discrete,
    snd (UseGamepad.poll isPlaying timestamp [Some g] r) = continuous ++ discrete
    /\ Forall (fun a => UseGamepad.isContinuous a = true) continuous
    /\ discrete `sublist_of`
         [ UseGamepad.onPlayPause; UseGamepad.onMirrorToggle;
           UseGamepad.onFullscreenToggle; UseGamepad.onJumpToStart;
           UseGamepad.onJumpToEnd; UseGamepad.onSpeedDecrease;
           UseGamepad.onSpeedIncrease; UseGamepad.onFontSizeIncrease;
           UseGamepad.onFontSizeDecrease ].
Proof.
  unfold UseGamepad.poll. cbn [snd fold_left UseGamepad.handleGamepad].
  set (st0 := {| UseGamepad.refs := r; UseGamepad.called := [];
                 UseGamepad.buttonsHandled := [] |}).
  set (st := UseGamepad.handleAxis _ _ _ _).
  assert (Hsorted : UseGamepad.sorted st).
  { apply handleAxis_sorted, handleButtons_sorted. split; constructor. }
  exists (UseGamepad.called st), (UseGamepad.buttonsHandled st).
  split; [reflexivity|]. split; [apply Hsorted|].
  unfold st.
  rewrite (proj2 (handleAxis_buttons isPlaying timestamp (UseGamepad.axes g) _)).
  destruct (handleButtons_sublist timestamp (UseGamepad.buttons g)
              UseGamepad.bindings st0) as (l & Hl & Hsub).
  unfold UseGamepad.handleButtons. rewrite Hl. exact Hsub.
Qed.

(** ** The time display *)

Lemma pad2_digits_upto_100 :
  forallb
    (fun n =>
       String.eqb (padStart 2 "0" (toString (Z.of_nat n)))
         (String (digitChar (Z.of_nat n / 10))
            (String (digitChar (Z.of_nat n mod 10)) EmptyString)))
    (seq 0 100)
  = true.
Proof. vm_compute. reflexivity. Qed.

Lemma pad2_digits (k : Z) :
  (0 <= k < 100)%Z ->
  padStart 2 "0" (toString k)
  = String (digitChar (k / 10)) (String (digitChar (k mod 10)) EmptyString).
Proof.
  intros Hk. pose proof pad2_digits_upto_100 as Hall.
  rewrite forallb_forall in Hall.
  specialize (Hall (Z.to_nat k)).
  rewrite Z2Nat.id in Hall by lia.
  apply String.eqb_eq, Hall, in_seq. lia.
Qed.

(** X24.  For a time from 0 up to (not including) 100 minutes, [formatTime]
    gives the five characters mm:ss: the two decimal digits of the whole
    minutes, a colon, and the two decimal digits of the remaining whole
    seconds; fractions of a second are dropped. *)
Theorem formatTime_minutes_seconds (seconds : Q) :
  0 <= seconds -> seconds < 6000 ->
  let total := Qfloor seconds in
  let m := (total / 60)%Z in
  let s := (total mod 60)%Z in
  App.formatTime seconds
  = String (digitChar (m / 10)) (String (digitChar (m mod 10))
      (String ":" (String (digitChar (s / 10)) (String (digitChar (s mod 10))
         EmptyString)))).
Proof.
  intros Hlo Hhi total m s.
  assert (Htotal : (0 <= total < 6000)%Z).
  { unfold total. split.
    - rewrite <- (Qfloor_Z 0). apply Qfloor_resp_le. exact Hlo.
    - rewrite Zlt_Qlt. apply Qle_lt_trans with seconds; [apply Qfloor_le|exact Hhi]. }
  unfold App.formatTime.
  assert (Hneg : Qltb seconds 0 = false) by (apply Qltb_false; exact Hlo).
  rewrite Hneg. cbn [Number_isFinite negb orb]. unfold Math_floor. fold total.
  change 60 with (inject_Z 60). rewrite <- Zdiv_Qdiv. fold m.
  rewrite Z.rem_mod_nonneg by lia. fold s.
  rewrite (pad2_digits m) by (unfold m; split;
    [apply Z.div_pos; lia | apply Z.div_lt_upper_bound; lia]).
  rewrite (pad2_digits s) by (unfold s; pose proof (Z.mod_pos_bound total 60); lia).
  reflexivity.
Qed.

Lemma formatTime_minutes_seconds_754 :
  let total := Qfloor 754.6 in
  let m := (total / 60)%Z in
  let s := (total mod 60)%Z in
  App.formatTime 754.6
  = String (digitChar (m / 10)) (String (digitChar (m mod 10))
      (String ":" (String (digitChar (s / 10)) (String (digitChar (s mod 10))
         EmptyString)))).
Proof.
  apply (formatTime_minutes_seconds 754.6).
  - discriminate.
  - reflexivity.
Defined.

(** X25.  A time below one second, negative ones included, is shown as
    00:00. *)
Theorem formatTime_below_one_second (seconds : Q) :
  seconds < 1 -> App.formatTime seconds = "00:00"%string.
Proof.
  intros Hlt. unfold App.formatTime.
  destruct (Qltb seconds 0) eqn:E; [reflexivity|].
  apply Qltb_false in E. cbn [Number_isFinite negb orb]. unfold Math_floor.
  rewrite (Qfloor_between seconds 0) by assumption.
  reflexivity.
Qed.

Lemma formatTime_below_one_second_negative :
  App.formatTime (-3.5) = "00:00"%string.
Proof. apply (formatTime_below_one_second (-3.5)). reflexivity. Defined.

(** ** The sliders *)

Lemma clamp_level (k : Z) :
  clamp (inject_Z k) 1 50 == inject_Z (Z.max 1 (Z.min k 50)).
Proof.
  destruct (Z.le_gt_cases k 1) as [H1|H1].
  - rewrite Z.max_l by lia. apply clamp_below; [|discriminate].
    change 1 with (inject_Z 1). rewrite <- Zle_Qle. exact H1.
  - destruct (Z.le_gt_cases 50 k) as [H2|H2].
    + rewrite Z.min_r, Z.max_r by lia. apply clamp_above; [|discriminate].
      change 50 with (inject_Z 50). rewrite <- Zle_Qle. exact H2.
    + rewrite Z.min_l, Z.max_r by lia. apply clamp_fixed.
      split; [change 1 with (inject_Z 1) | change 50 with (inject_Z 50)];
        rewrite <- Zle_Qle; lia.
Qed.

Lemma handleSpeedChange_integer (x : Q) (k : Z) (s : App.Store) :
  x == inject_Z k ->
  App.speed (App.state (App.handleSpeedChange x s))
  == inject_Z (Z.max 1 (Z.min k 50)).
Proof.
  intros Hx. unfold App.handleSpeedChange.
  cbn [App.setSpeed App.withState App.state App.speed].
  rewrite (Math_round_integer x k Hx). apply clamp_level.
Qed.

(** X26.  On the speed slider the arrow keys move a whole speed level by 1,
    or by 4 with shift, and stop at 1 and at 50; any other key leaves the
    store as it is. *)
Theorem speedSliderKey_steps (shiftKey : bool) (r : App.Hooks) (s : App.Store)
    (level : Z) :
  App.speed r == inject_Z level -> (1 <= level <= 50)%Z ->
  let d := if shiftKey then 4%Z else 1%Z in
  App.speed (App.state (BottomBar.speedSliderKey BottomBar.ArrowRight shiftKey r s))
  == inject_Z (Z.min (level + d) 50)
  /\ App.speed (App.state (BottomBar.speedSliderKey BottomBar.ArrowLeft shiftKey r s))
     == inject_Z (Z.max (level - d) 1)
  /\ BottomBar.speedSliderKey BottomBar.otherKey shiftKey r s = s.
Proof.
  intros Hl Hrange d. unfold BottomBar.speedSliderKey, BottomBar.handleSliderKey.
  split; [|split; [|reflexivity]].
  - rewrite (handleSpeedChange_integer _ (level + d)).
    + replace (Z.max 1 (Z.min (level + d) 50)) with (Z.min (level + d) 50)
        by (unfold d; destruct shiftKey; lia).
      reflexivity.
    + rewrite Hl, inject_Z_plus. unfold d. destruct shiftKey; reflexivity.
  - rewrite (handleSpeedChange_integer _ (level - d)).
    + replace (Z.max 1 (Z.min (level - d) 50)) with (Z.max (level - d) 1)
        by (unfold d; destruct shiftKey; lia).
      reflexivity.
    + rewrite Hl. unfold Z.sub. rewrite inject_Z_plus, inject_Z_opp.
      unfold d. destruct shiftKey; reflexivity.
Qed.

Lemma speedSliderKey_steps_shift_at_48 :
  let r := {| App.isPlaying := false; App.speed := 48; App.fontSizePx := 72;
              App.mirror := false; App.elapsedTime := 0;
              App.remainingTime := 0%R; App.progress := 0;
              App.containerHeight := 0 |} in
  let s := {| App.state := r; App.timers := App.initialTimers;
              App.textViewportRef :=
                {| TextViewport.scrollContainerRef := None;
                   TextViewport.lastTimestampRef := None;
                   TextViewport.scrollAccumulatorRef := 0 |} |} in
  let d := if true then 4%Z else 1%Z in
  App.speed (App.state (BottomBar.speedSliderKey BottomBar.ArrowRight true r s))
  == inject_Z (Z.min (48 + d) 50)
  /\ App.speed (App.state (BottomBar.speedSliderKey BottomBar.ArrowLeft true r s))
     == inject_Z (Z.max (48 - d) 1)
  /\ BottomBar.speedSliderKey BottomBar.otherKey true r s = s.
Proof.
  intros r s. apply (speedSliderKey_steps true r s 48).
  - reflexivity.
  - lia.
Defined.

(** X27.  The fill of both sliders is a percentage between 0 and 100 for a
    value within the slider's bounds; on the font-size slider this also holds
    when the two bounds coincide, where the fill is computed with a divisor of
    1 instead of 0. *)
Theorem slider_fill_in_percent (speed fontSizePx minFontSize maxFontSize : Q) :
  1 <= speed <= 50 -> minFontSize <= fontSizePx <= maxFontSize ->
  0 <= BottomBar.speedProgress speed <= 100
  /\ 0 <= BottomBar.fontSizeProgress fontSizePx minFontSize maxFontSize <= 100.
Proof.
  intros Hs Hf. split.
  - unfold BottomBar.speedProgress, BottomBar.SPEED_MIN, BottomBar.SPEED_MAX.
    assert (E : (speed - 1) / (50 - 1) == (speed - 1) * (1 # 49))
      by (unfold Qdiv; apply Qmult_comp; reflexivity).
    rewrite E. Lqa.lra.
  - unfold BottomBar.fontSizeProgress, BottomBar.orOne.
    destruct (Qeq_bool (maxFontSize - minFontSize) 0) eqn:E.
    + apply Qeq_bool_iff in E.
      assert (E1 : (fontSizePx - minFontSize) / 1 == fontSizePx - minFontSize)
        by field.
      rewrite E1. Lqa.lra.
    + apply Qeq_bool_neq in E.
      assert (Hd : 0 < maxFontSize - minFontSize).
      { destruct (Qlt_le_dec 0 (maxFontSize - minFontSize)) as [H|H]; [exact H|].
        exfalso. apply E. Lqa.lra. }
      assert (H0 : 0 <= (fontSizePx - minFontSize) / (maxFontSize - minFontSize))
        by (apply Qle_shift_div_l; Lqa.lra).
      assert (H1 : (fontSizePx - minFontSize) / (maxFontSize - minFontSize) <= 1)
        by (apply Qle_shift_div_r; Lqa.lra).
      set (q := (fontSizePx - minFontSize) / (maxFontSize - minFontSize)) in *.
      Lqa.lra.
Qed.

Lemma slider_fill_in_percent_equal_bounds :
  0 <= BottomBar.speedProgress 20 <= 100
  /\ 0 <= BottomBar.fontSizeProgress 24 24 24 <= 100.
Proof.
  apply (slider_fill_in_percent 20 24 24 24); split; discriminate.
Defined.

(** * The dispatch of a frame *)

(** ** Which commands are dispatched *)

Section Dispatch.
Import UseGamepad.

Variables (isPlaying : bool) (timestamp : Q) (i : nat) (a : Action).
Hypothesis Hia : (i, a) ∈ bindings.

Lemma bindings_keys_NoDup : NoDup (map fst bindings).
Proof.
  unfold bindings. cbn [map fst].
  repeat (apply NoDup_cons; split;
          [rewrite ?elem_of_cons, elem_of_nil; intros H;
           repeat (destruct H as [H|H]; [discriminate H|]); exact H|]).
  apply NoDup_nil_2.
Qed.

Lemma handleButton_other (pressedButtons : list GamepadButton) (st : PollState)
    (j : nat) (b : Action) :
  (j, b) ∈ bindings -> j <> i ->
  lastPressRef (refs (handleButton timestamp pressedButtons st (j, b))) !! i
  = lastPressRef (refs st) !! i
  /\ (a ∈ buttonsHandled (handleButton timestamp pressedButtons st (j, b))
      <-> a ∈ buttonsHandled st).
Proof.
  intros Hjb Hne. unfold handleButton, registerPress. cbn [fst snd].
  destruct (isPressed _ _); [|split; reflexivity].
  destruct (Qle_bool _ _); [|split; reflexivity].
  cbn [refs lastPressRef buttonsHandled]. split.
  - apply lookup_insert_ne. exact Hne.
  - rewrite elem_of_app, list_elem_of_singleton. split; [|left; assumption].
    intros [H|H]; [exact H|]. subst b. exfalso. apply Hne.
    apply (bindings_functional j i a a Hjb Hia). reflexivity.
Qed.

Lemma handleButtons_outside (pressedButtons : list GamepadButton)
    (bs : list (nat * Action)) (st : PollState) :
  (forall x, x ∈ bs -> x ∈ bindings) -> i ∉ map fst bs ->
  lastPressRef (refs (fold_left (handleButton timestamp pressedButtons) bs st)) !! i
  = lastPressRef (refs st) !! i
  /\ (a ∈ buttonsHandled (fold_left (handleButton timestamp pressedButtons) bs st)
      <-> a ∈ buttonsHandled st).
Proof.
  revert st. induction bs as [|[j b] bs IH]; intros st Hsub Hout.
  - split; reflexivity.
  - cbn [fold_left].
    assert (Hne : j <> i).
    { intros ->. apply Hout. cbn [map fst]. left. }
    destruct (handleButton_other pressedButtons st j b) as [E1 E2];
      [apply Hsub; left | exact Hne |].
    destruct (IH (handleButton timestamp pressedButtons st (j, b))) as [F1 F2].
    + intros x Hx. apply Hsub. right. exact Hx.
    + intros Hin. apply Hout. cbn [map fst]. right. exact Hin.
    + rewrite F1, F2, E1, E2. split; reflexivity.
Qed.

(** What the buttons of one device do to the command [a] of button [i]. *)
Lemma handleButtons_binding (pressedButtons : list GamepadButton) (st : PollState) :
  let accepted :=
    isPressed pressedButtons i
    && Qle_bool DEBOUNCE_TIME (timestamp - nullish (lastPressRef (refs st) !! i) 0) in
  let st' := handleButtons timestamp pressedButtons st in
  (accepted = true ->
   a ∈ buttonsHandled st' /\ lastPressRef (refs st') !! i = Some timestamp)
  /\ (accepted = false ->
      lastPressRef (refs st') !! i = lastPressRef (refs st) !! i
      /\ (a ∈ buttonsHandled st' <-> a ∈ buttonsHandled st)).
Proof.
  intros accepted st'. unfold st', handleButtons.
  destruct (list_elem_of_split _ _ Hia) as (bs1 & bs2 & Hsplit).
  pose proof bindings_keys_NoDup as Hnd. rewrite Hsplit in Hnd.
  rewrite map_app in Hnd. cbn [map fst] in Hnd.
  apply NoDup_app in Hnd as (_ & Hout1 & Hnd2).
  apply NoDup_cons in Hnd2 as [Hout2 _].
  assert (Hsub1 : forall x, x ∈ bs1 -> x ∈ bindings).
  { intros x Hx. rewrite Hsplit. apply elem_of_app. left. exact Hx. }
  assert (Hsub2 : forall x, x ∈ bs2 -> x ∈ bindings).
  { intros x Hx. rewrite Hsplit. apply elem_of_app. right. right. exact Hx. }
  assert (Hi1 : i ∉ map fst bs1).
  { intros Hin. apply (Hout1 i Hin). left. }
  rewrite Hsplit, fold_left_app. cbn [fold_left].
  set (st1 := fold_left (handleButton timestamp pressedButtons) bs1 st).
  destruct (handleButtons_outside pressedButtons bs1 st Hsub1 Hi1) as [E1 E2].
  fold st1 in E1, E2.
  set (st2 := handleButton timestamp pressedButtons st1 (i, a)).
  destruct (handleButtons_outside pressedButtons bs2 st2 Hsub2 Hout2) as [F1 F2].
  rewrite F1, F2.
  assert (Hacc : accepted
                 = isPressed pressedButtons i
                   && Qle_bool DEBOUNCE_TIME
                        (timestamp - nullish (lastPressRef (refs st1) !! i) 0)).
  { unfold accepted. rewrite E1. reflexivity. }
  unfold st2, handleButton, registerPress. cbn [fst snd]. split; intros Hcase.
  - rewrite Hacc in Hcase. apply andb_true_iff in Hcase as [-> ->].
    cbn [refs lastPressRef buttonsHandled]. split.
    + apply elem_of_app. right. left.
    + apply lookup_insert_eq.
  - rewrite Hacc in Hcase. apply andb_false_iff in Hcase as [->| Hd].
    + rewrite E1, E2. split; reflexivity.
    + rewrite Hd. destruct (isPressed _ _); rewrite E1, E2; split; reflexivity.
Qed.

Lemma handleGamepad_binding (g : Gamepad) (st : PollState) :
  let accepted :=
    isPressed (buttons g) i
    && Qle_bool DEBOUNCE_TIME (timestamp - nullish (lastPressRef (refs st) !! i) 0) in
  let st' := handleGamepad isPlaying timestamp st (Some g) in
  (accepted = true ->
   a ∈ buttonsHandled st' /\ lastPressRef (refs st') !! i = Some timestamp)
  /\ (accepted = false ->
      lastPressRef (refs st') !! i = lastPressRef (refs st) !! i
      /\ (a ∈ buttonsHandled st' <-> a ∈ buttonsHandled st)).
Proof.
  intros accepted st'. unfold st'. cbn [handleGamepad].
  destruct (handleAxis_buttons isPlaying timestamp (axes g)
              (handleButtons timestamp (buttons g) st)) as [-> ->].
  apply handleButtons_binding.
Qed.

Lemma not_due_at_timestamp (ledger : gmap nat Q) :
  ledger !! i = Some timestamp ->
  Qle_bool DEBOUNCE_TIME (timestamp - nullish (ledger !! i) 0) = false.
Proof.
  intros ->. cbn [nullish]. apply Qle_bool_false. unfold DEBOUNCE_TIME. Lqa.lra.
Qed.

(** Over the devices of a frame: the command is queued exactly when it was
    already queued, or the button is down on some device and was due. *)
Lemma poll_accepts (gamepads : list (option Gamepad)) (st : PollState) :
  (a ∈ buttonsHandled st -> lastPressRef (refs st) !! i = Some timestamp) ->
  a ∈ buttonsHandled (fold_left (handleGamepad isPlaying timestamp) gamepads st)
  <-> a ∈ buttonsHandled st
      \/ (pressedOn i gamepads
          /\ DEBOUNCE_TIME <= timestamp - nullish (lastPressRef (refs st) !! i) 0).
Proof.
  revert st. induction gamepads as [|o gamepads IH]; intros st Hpre.
  - cbn [fold_left]. split; [left; assumption|].
    intros [H|[(g & Hg & _) _]]; [exact H | inversion Hg].
  - cbn [fold_left]. destruct o as [g|].
    2: { cbn [handleGamepad]. rewrite (IH st Hpre). apply or_iff_compat_l.
         apply and_iff_compat_r. unfold pressedOn. split.
         - intros (g & Hg & Hp). exists g. split; [right; exact Hg | exact Hp].
         - intros (g & Hg & Hp). exists g. split; [|exact Hp].
           apply elem_of_cons in Hg as [Hg|Hg]; [discriminate | exact Hg]. }
    destruct (handleGamepad_binding g st) as [Hyes Hno].
    set (st1 := handleGamepad isPlaying timestamp st (Some g)) in *.
    destruct (isPressed (buttons g) i
              && Qle_bool DEBOUNCE_TIME
                   (timestamp - nullish (lastPressRef (refs st) !! i) 0)) eqn:Eacc.
    + destruct (Hyes eq_refl) as [Hin Hled].
      apply andb_true_iff in Eacc as [Ep Ed]. apply Qle_bool_iff in Ed.
      rewrite (IH st1 (fun _ => Hled)). split; [|intros _; left; exact Hin].
      intros _. right. split; [|exact Ed].
      exists g. split; [left | exact Ep].
    + destruct (Hno eq_refl) as [Hled Hmem].
      assert (Hpre1 : a ∈ buttonsHandled st1 ->
                      lastPressRef (refs st1) !! i = Some timestamp).
      { intros H. rewrite Hled. apply Hpre, Hmem, H. }
      rewrite (IH st1 Hpre1), Hled, Hmem. apply or_iff_compat_l.
      split; intros [(g' & Hg' & Hp) Hd]; (split; [|exact Hd]).
      * exists g'. split; [right; exact Hg' | exact Hp].
      * exists g'. split; [|exact Hp].
        apply elem_of_cons in Hg' as [Hg'|Hg']; [|exact Hg'].
        injection Hg' as ->. exfalso.
        apply Qle_bool_iff in Hd. rewrite Hp, Hd in Eacc. discriminate Eacc.
Qed.

End Dispatch.

Lemma discrete_bound (a : UseGamepad.Action) :
  UseGamepad.isDiscrete a = true -> exists i, (i, a) ∈ UseGamepad.bindings.
Proof.
  unfold UseGamepad.bindings.
  destruct a; intros H; try discriminate H; eexists;
    rewrite ?elem_of_cons; eauto 10.
Qed.

(** C9.  The calls that one run of the sampler makes are, in order, the
    continuous calls (forced pause, analog delta) of all its devices and then
    the discrete commands.  The discrete part is exactly the flush of the
    frame's queue: a command is dispatched there if and only if its button is
    down on some device of the frame and at least [DEBOUNCE_TIME] has passed
    since the button's last accepted press (the debounce is passed), and it is
    dispatched once.  So every command that passes the debounce runs, and it
    runs after every continuous call of the frame. *)
Theorem poll_continuous_before_discrete
    (isPlaying : bool) (timestamp : Q)
    (gamepads : list (option UseGamepad.Gamepad)) (r : UseGamepad.Refs) :
  exists continuous discrete,
    snd (UseGamepad.poll isPlaying timestamp gamepads r) = continuous ++ discrete
    /\ Forall (fun a => UseGamepad.isContinuous a = true) continuous
    /\ Forall (fun a => UseGamepad.isDiscrete a = true) discrete
    /\ NoDup discrete
    /\ forall a : UseGamepad.Action,
         a ∈ discrete
         <-> exists i : nat,
               (i, a) ∈ UseGamepad.bindings
               /\ UseGamepad.pressedOn i gamepads
               /\ UseGamepad.DEBOUNCE_TIME
                  <= timestamp - nullish (UseGamepad.lastPressRef r !! i) 0.
Proof.
  unfold UseGamepad.poll. cbn [snd].
  set (st0 := {| UseGamepad.refs := r; UseGamepad.called := [];
                 UseGamepad.buttonsHandled := [] |}).
  pose proof (poll_sorted isPlaying timestamp gamepads st0) as Hsorted.
  pose proof (poll_once isPlaying timestamp gamepads st0) as Honce.
  assert (Hqueue : forall i a, (i, a) ∈ UseGamepad.bindings ->
            a ∈ UseGamepad.buttonsHandled
                  (fold_left (UseGamepad.handleGamepad isPlaying timestamp)
                     gamepads st0)
            <-> UseGamepad.pressedOn i gamepads
                /\ UseGamepad.DEBOUNCE_TIME
                   <= timestamp - nullish (UseGamepad.lastPressRef r !! i) 0).
  { intros i a Hia.
    rewrite (poll_accepts isPlaying timestamp i a Hia gamepads st0).
    - cbn [st0 UseGamepad.buttonsHandled UseGamepad.refs]. split.
      + intros [H|H]; [inversion H | exact H].
      + intros H. right. exact H.
    - intros H. inversion H. }
  set (st := fold_left _ gamepads st0) in *.
  destruct Hsorted as [Hc Hd]; [split; constructor|].
  exists (UseGamepad.called st), (UseGamepad.buttonsHandled st).
  split; [reflexivity|]. split; [exact Hc|]. split; [exact Hd|]. split.
  - apply Honce. split; [apply NoDup_nil_2|]. intros j b _ Hin. inversion Hin.
  - intros a. split.
    + intros Hin. rewrite Forall_forall in Hd.
      destruct (discrete_bound a (Hd a Hin)) as [i Hia].
      exists i. split; [exact Hia|]. apply (Hqueue i a Hia), Hin.
    + intros (i & Hia & H). apply (Hqueue i a Hia), H.
Qed.

(** ** Manual input in a playing frame *)

Section PlayingFrame.
Import UseGamepad.

Variable timestamp : Q.

Lemma handleAxis_playingCalls (axes : list Q) (st : PollState) :
  playingCalls timestamp st ->
  playingCalls timestamp (handleAxis true timestamp axes st).
Proof.
  intros H. unfold handleAxis, playingCalls.
  destruct (Qltb DEADZONE _).
  2: { cbn [called refs lastTimestampRef].
       destruct H as [H|[_ H]]; [left; exact H | right; split; [reflexivity | exact H]]. }
  cbn [called refs lastTimestampRef]. right. split; [reflexivity|].
  destruct H as [H|[Hts (n & H)]].
  - rewrite H. cbn [app].
    match goal with |- context [if ?b then _ else _] => destruct b end.
    + exists 0%nat. right. eexists. reflexivity.
    + exists 0%nat. left. reflexivity.
  - rewrite Hts.
    assert (E : Qltb 0 ((timestamp - timestamp) / 1000) = false).
    { apply Qltb_false. assert (Hz : (timestamp - timestamp) / 1000 == 0) by field.
      rewrite Hz. Lqa.lra. }
    rewrite E, andb_false_r. exists (S n).
    destruct H as [H|(d & H)]; rewrite H.
    + left. cbn [repeat app]. rewrite <- repeat_cons. reflexivity.
    + right. exists d. cbn [repeat app]. rewrite <- repeat_cons. reflexivity.
Qed.

Lemma handleGamepad_playingCalls (st : PollState) (o : option Gamepad) :
  playingCalls timestamp st ->
  playingCalls timestamp (handleGamepad true timestamp st o).
Proof.
  intros H. destruct o as [g|]; cbn [handleGamepad]; [|exact H].
  apply handleAxis_playingCalls. unfold playingCalls.
  rewrite handleButtons_called.
  destruct (handleButtons_timing timestamp (buttons g) st) as [-> _].
  exact H.
Qed.

(** The calls of a playing frame: forced pauses and the queue, with at most
    one manual scroll, in the second place. *)
Lemma poll_playing_calls (gamepads : list (option Gamepad)) (r : Refs) :
  exists (n : nat) (queue : list Action),
    Forall (fun a => isDiscrete a = true) queue
    /\ (snd (poll true timestamp gamepads r)
        = repeat onPauseFromManualScroll n ++ queue
        \/ exists delta,
             snd (poll true timestamp gamepads r)
             = onPauseFromManualScroll :: onManualScroll delta
               :: repeat onPauseFromManualScroll n ++ queue).
Proof.
  unfold poll. cbn [snd].
  set (st0 := {| refs := r; called := []; buttonsHandled := [] |}).
  pose proof (poll_sorted true timestamp gamepads st0) as Hsorted.
  assert (Hcalls : playingCalls timestamp
                     (fold_left (handleGamepad true timestamp) gamepads st0)).
  { apply (fold_left_preserves (playingCalls timestamp)); [left; reflexivity|].
    intros st' o _ H. apply handleGamepad_playingCalls, H. }
  set (st := fold_left _ gamepads st0) in *.
  destruct Hsorted as [_ Hd]; [split; constructor|].
  destruct Hcalls as [H|[_ (n & [H|(d & H)])]]; rewrite H.
  - exists 0%nat, (buttonsHandled st). split; [exact Hd|]. left. reflexivity.
  - exists (S n), (buttonsHandled st). split; [exact Hd|]. left. reflexivity.
  - exists n, (buttonsHandled st). split; [exact Hd|]. right. exists d. reflexivity.
Qed.

Lemma pauses_then_queue_no_scroll (n : nat) (queue : list Action) :
  Forall (fun a => isDiscrete a = true) queue ->
  Forall (fun a => isManualScroll a = false)
    (repeat onPauseFromManualScroll n ++ queue).
Proof.
  intros Hq. apply Forall_app. split.
  - induction n as [|n IH]; constructor; [reflexivity | exact IH].
  - eapply Forall_impl; [exact Hq|]. intros a Ha.
    destruct a; try discriminate Ha; reflexivity.
Qed.

Lemma no_scroll_lookup (l : list Action) (j : nat) (delta : Q) :
  Forall (fun a => isManualScroll a = false) l ->
  l !! j = Some (onManualScroll delta) -> False.
Proof.
  intros Hl Hj. rewrite Forall_forall in Hl.
  specialize (Hl _ (list_elem_of_lookup_2 _ _ _ Hj)). discriminate Hl.
Qed.

Lemma no_scroll_count (l : list Action) :
  Forall (fun a => isManualScroll a = false) l -> manualScrolls l = 0%nat.
Proof.
  induction 1 as [|a l Ha _ IH]; [reflexivity|].
  change (a :: l) with ([a] ++ l). rewrite manualScrolls_app, IH.
  destruct a; try discriminate Ha; reflexivity.
Qed.

End PlayingFrame.

Section PlayingControls.
Import App.

Variables (r : Hooks) (now : Q).
Hypothesis Hplay : isPlaying r = true.

(** Under a playing render no control of the sampler starts playback. *)
Lemma gamepadControls_halted (s : Store) (a : UseGamepad.Action) :
  isPlaying (state s) = false ->
  isPlaying (state (gamepadControls r now s a)) = false.
Proof.
  intros Hs. destruct a; cbn [gamepadControls];
    unfold handlePauseFromManualScroll; rewrite ?Hplay;
    try (unfold handlePause; rewrite Hplay; reflexivity);
    try exact Hs; try reflexivity.
  - apply viewportCall_halted, Hs.
  - apply viewportCall_halted, Hs.
Qed.

Lemma gamepadControls_all_halted (calls : list UseGamepad.Action) (s : Store) :
  isPlaying (state s) = false ->
  isPlaying (state (fold_left (gamepadControls r now) calls s)) = false.
Proof.
  intros Hs.
  apply (fold_left_preserves (fun s' => isPlaying (state s') = false));
    [exact Hs|].
  intros s' a _ H. apply gamepadControls_halted, H.
Qed.

(** The forced pause. *)
Lemma forced_pause (s : Store) :
  let s' := gamepadControls r now s UseGamepad.onPauseFromManualScroll in
  isPlaying (state s') = false
  /\ pauseStartRef (timers s') = Some now
  /\ textViewportRef s' = textViewportRef s.
Proof.
  cbn [gamepadControls]. unfold handlePauseFromManualScroll, handlePause.
  rewrite Hplay. repeat split.
Qed.

(** A control that is neither the manual scroll nor a jump leaves the
    viewport and a recorded pause start alone. *)
Lemma gamepadControls_keeps_pause (s : Store) (a : UseGamepad.Action) :
  UseGamepad.isManualScroll a = false -> UseGamepad.isJump a = false ->
  pauseStartRef (timers s) = Some now ->
  pauseStartRef (timers (gamepadControls r now s a)) = Some now
  /\ textViewportRef (gamepadControls r now s a) = textViewportRef s.
Proof.
  intros Hm Hj Hs.
  destruct a; try discriminate Hm; try discriminate Hj;
    cbn [gamepadControls]; unfold handlePauseFromManualScroll;
    rewrite ?Hplay; try (unfold handlePause; rewrite Hplay);
    split; try exact Hs; reflexivity.
Qed.

Lemma gamepadControls_all_keep_pause (calls : list UseGamepad.Action) (s : Store) :
  Forall (fun a => UseGamepad.isManualScroll a = false) calls ->
  existsb UseGamepad.isJump calls = false ->
  pauseStartRef (timers s) = Some now ->
  pauseStartRef (timers (fold_left (gamepadControls r now) calls s)) = Some now
  /\ textViewportRef (fold_left (gamepadControls r now) calls s)
     = textViewportRef s.
Proof.
  revert s. induction calls as [|a calls IH]; intros s Hm Hj Hs.
  - split; [exact Hs | reflexivity].
  - cbn [fold_left]. cbn [existsb] in Hj.
    apply orb_false_iff in Hj as [Hja Hj].
    apply Forall_cons in Hm as [Hma Hm].
    destruct (gamepadControls_keeps_pause s a Hma Hja Hs) as [E1 E2].
    destruct (IH (gamepadControls r now s a) Hm Hj E1) as [F1 F2].
    split; [exact F1 | rewrite F2; exact E2].
Qed.

(** The sampler's callback in a frame that emits a manual scroll. *)
Lemma pollCallback_manual_scroll (timestamp : Q)
    (gamepads : list (option UseGamepad.Gamepad)) (refs : UseGamepad.Refs)
    (s : Store) (delta : Q) (j : nat) :
  snd (UseGamepad.poll (isPlaying r) timestamp gamepads refs) !! j
  = Some (UseGamepad.onManualScroll delta) ->
  let calls := snd (UseGamepad.poll (isPlaying r) timestamp gamepads refs) in
  let after := fst (pollCallback r now timestamp gamepads (s, refs)) in
  j = 1%nat
  /\ calls !! 0%nat = Some UseGamepad.onPauseFromManualScroll
  /\ UseGamepad.manualScrolls calls = 1%nat
  /\ isPlaying (state after) = false
  /\ (existsb UseGamepad.isJump calls = false ->
      pauseStartRef (timers after) = Some now
      /\ textViewportRef after
         = fst (TextViewport.manualScroll delta (textViewportRef s))).
Proof.
  intros Hj calls after. unfold after, calls, pollCallback. cbn [fst snd].
  revert Hj. rewrite Hplay.
  destruct (poll_playing_calls timestamp gamepads refs)
    as (n & queue & Hq & [E|(d & E)]); rewrite E; intros Hj.
  { exfalso. exact (no_scroll_lookup _ j delta
                      (pauses_then_queue_no_scroll n queue Hq) Hj). }
  pose proof (pauses_then_queue_no_scroll n queue Hq) as Hrest.
  set (rest := repeat _ n ++ queue) in *.
  destruct j as [|[|j]]; [discriminate Hj | | exfalso].
  2: { cbn in Hj. exact (no_scroll_lookup _ j delta Hrest Hj). }
  injection Hj as ->.
  split; [reflexivity|]. split; [reflexivity|]. split.
  { change (UseGamepad.onPauseFromManualScroll :: UseGamepad.onManualScroll delta :: rest)
      with ([UseGamepad.onPauseFromManualScroll; UseGamepad.onManualScroll delta] ++ rest).
    rewrite manualScrolls_app, (no_scroll_count rest Hrest). reflexivity. }
  cbn [fold_left].
  destruct (forced_pause s) as (P1 & P2 & P3). cbv zeta in P1, P2, P3.
  set (s1 := gamepadControls r now s UseGamepad.onPauseFromManualScroll) in *.
  cbn [gamepadControls]. unfold handleManualScroll.
  destruct (viewportCall_refs r (TextViewport.manualScroll delta) s1) as [V1 V2].
  pose proof (viewportCall_halted r (TextViewport.manualScroll delta) s1 P1) as V3.
  set (s2 := viewportCall r (TextViewport.manualScroll delta) s1) in *.
  split; [apply gamepadControls_all_halted, V3|].
  intros Hjump. cbn [existsb UseGamepad.isJump orb] in Hjump.
  destruct (gamepadControls_all_keep_pause rest s2 Hrest Hjump) as [F1 F2].
  { rewrite V2. exact P2. }
  split; [exact F1|]. rewrite F2, V1, P3. reflexivity.
Qed.

End PlayingControls.

Section FirstDevice.
Import UseGamepad.

Variables (isPlaying : bool) (timestamp : Q).

Lemma handleGamepad_extends (st : PollState) (o : option Gamepad) :
  exists l, called (handleGamepad isPlaying timestamp st o) = called st ++ l.
Proof.
  destruct o as [g|]; cbn [handleGamepad].
  2: { exists []. symmetry. apply app_nil_r. }
  unfold handleAxis. rewrite handleButtons_called.
  destruct (Qltb DEADZONE _); cbn [called].
  2: { exists []. symmetry. apply app_nil_r. }
  match goal with |- context [if ?b && ?c then _ else _] => destruct (b && c) end;
    destruct isPlaying; eexists; rewrite <- ?app_assoc; try reflexivity.
  symmetry. apply app_nil_r.
Qed.

Lemma poll_extends (gamepads : list (option Gamepad)) (st : PollState) :
  exists l,
    called (fold_left (handleGamepad isPlaying timestamp) gamepads st)
    = called st ++ l.
Proof.
  apply (fold_left_preserves (fun st' => exists l, called st' = called st ++ l)).
  - exists []. symmetry. apply app_nil_r.
  - intros st' o _ [l Hl].
    destruct (handleGamepad_extends st' o) as [l' Hl'].
    exists (l ++ l'). rewrite Hl', Hl, app_assoc. reflexivity.
Qed.

Lemma poll_empty_slots (nones : list (option Gamepad)) (st : PollState) :
  Forall (fun o => o = None) nones ->
  fold_left (handleGamepad isPlaying timestamp) nones st = st.
Proof.
  intros H. revert st. induction H as [|o nones -> _ IH]; intros st;
    [reflexivity | exact (IH st)].
Qed.

End FirstDevice.

(** When the analog delta is emitted: the first device of the frame has its
    stick beyond the deadzone and the sampler's last timestamp is earlier
    than the frame's.  The delta is that of lines 121-123 for this device,
    whatever buttons are down and whatever other devices follow. *)
Lemma poll_first_device_scrolls (timestamp last : Q)
    (nones rest : list (option UseGamepad.Gamepad)) (g : UseGamepad.Gamepad)
    (refs : UseGamepad.Refs) :
  Forall (fun o => o = None) nones ->
  UseGamepad.DEADZONE < Math_abs (UseGamepad.leftStickYOf g) ->
  UseGamepad.lastTimestampRef refs = Some last -> last < timestamp ->
  snd (UseGamepad.poll true timestamp (nones ++ Some g :: rest) refs) !! 1%nat
  = Some (UseGamepad.onManualScroll (UseGamepad.analogDelta refs g timestamp last)).
Proof.
  intros Hnones Hstick Hlast Hlt. unfold UseGamepad.poll. cbn [snd].
  rewrite fold_left_app, (poll_empty_slots true timestamp nones _ Hnones).
  cbn [fold_left].
  set (st0 := {| UseGamepad.refs := refs; UseGamepad.called := [];
                 UseGamepad.buttonsHandled := [] |}).
  destruct (poll_extends true timestamp rest
              (UseGamepad.handleGamepad true timestamp st0 (Some g))) as [l ->].
  assert (E : UseGamepad.called (UseGamepad.handleGamepad true timestamp st0 (Some g))
              = [UseGamepad.onPauseFromManualScroll;
                 UseGamepad.onManualScroll
                   (UseGamepad.analogDelta refs g timestamp last)]).
  { cbn [UseGamepad.handleGamepad]. unfold UseGamepad.handleAxis.
    rewrite handleButtons_called.
    destruct (handleButtons_timing timestamp (UseGamepad.buttons g) st0) as [-> ->].
    apply Qltb_true in Hstick.
    change (nullish (UseGamepad.axes g !! 1%nat) 0) with (UseGamepad.leftStickYOf g).
    rewrite Hstick. cbn [UseGamepad.called UseGamepad.refs st0
                           UseGamepad.lastTimestampRef UseGamepad.smoothedScrollSpeedRef].
    rewrite Hlast.
    assert (Hpos : Qltb 0 ((timestamp - last) / 1000) = true).
    { apply Qltb_true. apply Qlt_shift_div_l; Lqa.lra. }
    rewrite Hpos. reflexivity. }
  rewrite E. reflexivity.
Qed.


